(** * Verification of [src/utils/excel.ts] (mocap_app)

    A shallow embedding of the spreadsheet extraction module: the header
    detectors, the column resolver, the generic row normaliser and the
    needed-metrics extractor, followed by the properties proved about them.

    Conventions of the embedding.
    - A JavaScript number is an IEEE 754 binary64 value: Rocq's primitive
      [float], with [nan] for [NaN].
    - A JavaScript string is a [string]; a character stands for one code unit
      below 256, so that [\s] is the set of white space code units below 256
      and the [/i] flag only folds the ASCII letters (a code unit outside
      ASCII never matches an ASCII letter under [/i]).
    - A cell is a [value]: [undefined], [null], a number, a string or a
      boolean, the types [sheet_to_json] yields with [raw: true].
    - A [Map] is an association list in insertion order with unique keys.
    - The [xlsx] functions, [Number] on strings, [Date.parse] and the
      printing of numbers belong to the run time, not to this repository:
      they are the variables of Section [Excel]. *)

From Stdlib Require Import List String Ascii Bool ZArith Lia.
From Stdlib Require Import Floats DecimalString DecimalNat.
Import ListNotations.

Local Open Scope string_scope.
Local Open Scope list_scope.

(** A decimal literal such as [0.12] denotes the nearest binary64 value, as
    it does in JavaScript. *)
Local Set Warnings "-inexact-float".

(** ** JavaScript strings *)

Module JsString.

(** [\s]: TAB, LF, VT, FF, CR, SP and NBSP. *)
Definition is_space (c : ascii) : bool :=
  match nat_of_ascii c with
  | 9 | 10 | 11 | 12 | 13 | 32 | 160 => true
  | _ => false
  end.

(** Line terminators, which [.] does not match. *)
Definition is_line_terminator (c : ascii) : bool :=
  match nat_of_ascii c with
  | 10 | 13 => true
  | _ => false
  end.

Fixpoint trimStart (s : string) : string :=
  match s with
  | String c r => if is_space c then trimStart r else s
  | EmptyString => EmptyString
  end.

Fixpoint trimEnd (s : string) : string :=
  match s with
  | String c r =>
      match trimEnd r with
      | EmptyString => if is_space c then EmptyString else String c EmptyString
      | r' => String c r'
      end
  | EmptyString => EmptyString
  end.

(** [s.trim()] *)
Definition trim (s : string) : string := trimEnd (trimStart s).

Fixpoint remove_chars (p : ascii -> bool) (s : string) : string :=
  match s with
  | String c r => if p c then remove_chars p r else String c (remove_chars p r)
  | EmptyString => EmptyString
  end.

(** [s.replace(/\s+/g, "")] *)
Definition strip_spaces (s : string) : string := remove_chars is_space s.

(** [s.replace(/,/g, "")] *)
Definition strip_commas (s : string) : string :=
  remove_chars (fun c => Ascii.eqb c ","%char) s.

(** Case folding of the [/i] flag on the ASCII letters. *)
Definition fold_case (c : ascii) : ascii :=
  let n := nat_of_ascii c in
  if andb (Nat.leb 65 n) (Nat.leb n 90) then ascii_of_nat (n + 32) else c.

Fixpoint lower (s : string) : string :=
  match s with
  | String c r => String (fold_case c) (lower r)
  | EmptyString => EmptyString
  end.

(** [suffixes s]: [s] and all its proper suffixes, longest first. *)
Fixpoint suffixes (s : string) : list string :=
  match s with
  | String _ r => s :: suffixes r
  | EmptyString => [EmptyString]
  end.

(** The rest of [s] after the prefix [p], when [p] is a prefix of [s]. *)
Fixpoint after_prefix (p s : string) : option string :=
  match p, s with
  | EmptyString, _ => Some s
  | String a p', String b s' => if Ascii.eqb a b then after_prefix p' s' else None
  | String _ _, EmptyString => None
  end.

(** [s.includes(sub)] *)
Definition includes (sub s : string) : bool :=
  existsb (fun t => String.prefix sub t) (suffixes s).

(** The longest prefix of [s] without a line terminator: what [.*] can
    consume from the start of [s]. *)
Fixpoint line_prefix (s : string) : string :=
  match s with
  | String c r => if is_line_terminator c then EmptyString else String c (line_prefix r)
  | EmptyString => EmptyString
  end.

(** Decimal printing of a natural number, as a template literal prints a
    count or an index. *)
Definition of_nat (n : nat) : string := NilEmpty.string_of_uint (Nat.to_uint n).

(** Truthiness of a string: only the empty string is falsy. *)
Definition truthy (s : string) : bool := negb (String.eqb s "").

End JsString.

(** ** The regular expressions of the module *)

Module Re.
Import JsString.

Definition one_of (l : list string) (s : string) : bool :=
  existsb (String.eqb (lower s)) l.

(** [/^time$/i] *)
Definition time_only (s : string) : bool := one_of ["time"] s.
(** [/^(t|time)$/i] *)
Definition t_or_time (s : string) : bool := one_of ["t"; "time"] s.
(** [/^(t|time|timestamp)$/i] *)
Definition t_time_timestamp (s : string) : bool := one_of ["t"; "time"; "timestamp"] s.
(** [/^timestamp$/i] *)
Definition timestamp_only (s : string) : bool := one_of ["timestamp"] s.
(** [/^frame(s)?$/i] *)
Definition frame_s (s : string) : bool := one_of ["frame"; "frames"] s.
(** [/frame/i] *)
Definition has_frame (s : string) : bool := includes "frame" (lower s).
(** [/timestamp/i] *)
Definition has_timestamp (s : string) : bool := includes "timestamp" (lower s).
(** [/(ms|millisecond)/i] *)
Definition has_ms (s : string) : bool :=
  includes "ms" (lower s) || includes "millisecond" (lower s).
(** [/frame ?index/i] *)
Definition has_frame_index (s : string) : bool :=
  includes "frameindex" (lower s) || includes "frame index" (lower s).
(** [/baseball/i] *)
Definition has_baseball (s : string) : bool := includes "baseball" (lower s).
(** [/baseball.*data/i]: some occurrence of [baseball] is followed, before
    any line terminator, by [data]. *)
Definition has_baseball_data (s : string) : bool :=
  existsb
    (fun t =>
       match after_prefix "baseball" t with
       | Some rest => includes "data" (line_prefix rest)
       | None => false
       end)
    (suffixes (lower s)).

End Re.

(** ** Cells, grids and maps *)

Inductive value : Type :=
| VUndef
| VNull
| VNum (x : float)
| VStr (s : string)
| VBool (b : bool).

(** A row of [sheet_to_json(ws, {header: 1})]; the code guards against a
    missing row ([table[i] ?? []], [!row]), hence the option. *)
Definition row : Type := list value.
Definition table : Type := list (option row).

Definition row_or_empty (r : option row) : row :=
  match r with Some l => l | None => [] end.

(** [row[i]] for a number [i] that is a non-negative integer. *)
Definition cell (r : row) (i : Z) : value := nth (Z.to_nat i) r VUndef.

(** [Number.isFinite(x) ? x : NaN] *)
Definition finite_or_nan (x : float) : float :=
  if PrimFloat.is_finite x then x else nan.

(** [Map<string, V>]: entries in insertion order, keys unique. *)
Module JsMap.
Section WithValue.
Context {V : Type}.

Definition t : Type := list (string * V).

Fixpoint get (m : t) (k : string) : option V :=
  match m with
  | (k', v) :: m' => if String.eqb k' k then Some v else get m' k
  | [] => None
  end.

Definition has (m : t) (k : string) : bool :=
  match get m k with Some _ => true | None => false end.

(** [m.set(k, v)]: an existing key keeps its place in the order. *)
Fixpoint set (m : t) (k : string) (v : V) : t :=
  match m with
  | (k', v') :: m' =>
      if String.eqb k' k then (k', v) :: m' else (k', v') :: set m' k v
  | [] => [(k, v)]
  end.

Definition keys (m : t) : list string := map fst m.
End WithValue.
Arguments t : clear implicits.
End JsMap.

(** [Object]: own string-keyed properties in creation order. *)
Module Obj.

Definition t : Type := JsMap.t value.

(** [o[k]] for an own property, [undefined] otherwise. The rows of one
    sheet are built over the same keys, so a key read from the first row
    is an own property of every row. *)
Definition get (o : t) (k : string) : value :=
  match JsMap.get o k with Some v => v | None => VUndef end.

(** [o[k] = v]. Assigning a cell, a primitive or [null], to [__proto__]
    creates no own property. *)
Definition set {V : Type} (o : JsMap.t V) (k : string) (v : V) : JsMap.t V :=
  if String.eqb k "__proto__" then o else JsMap.set o k v.

Definition digit (c : ascii) : option N :=
  let n := N_of_ascii c in
  if ((48 <=? n) && (n <=? 57))%N then Some (n - 48)%N else None.

Fixpoint digits (s : string) (acc : N) : option N :=
  match s with
  | String c r =>
      match digit c with
      | Some d => digits r (10 * acc + d)%N
      | None => None
      end
  | EmptyString => Some acc
  end.

(** The array index a key denotes: a canonical decimal numeral below 2^32 - 1. *)
Definition array_index (k : string) : option N :=
  match k with
  | EmptyString => None
  | String "0" EmptyString => Some 0%N
  | String "0" _ => None
  | _ =>
      match digits k 0 with
      | Some n => if (n <? 4294967295)%N then Some n else None
      | None => None
      end
  end.

Fixpoint insert_index (n : N) (k : string) (l : list (N * string)) : list (N * string) :=
  match l with
  | (m, k') :: r => if (n <? m)%N then (n, k) :: l else (m, k') :: insert_index n k r
  | [] => [(n, k)]
  end.

Definition index_keys (names : list string) : list (N * string) :=
  fold_right
    (fun k acc => match array_index k with Some n => insert_index n k acc | None => acc end)
    [] names.

Definition is_name (k : string) : bool :=
  match array_index k with Some _ => false | None => true end.

(** [Object.keys(o)]: array indices in ascending order, then the other keys
    in creation order. *)
Definition keys (o : t) : list string :=
  map snd (index_keys (JsMap.keys o)) ++ filter is_name (JsMap.keys o).

End Obj.

(** ** Static data *)

Inductive Role : Type := pitcher | hitter.

Definition NEEDED_MAP (role : Role) : list (string * string) :=
  match role with
  | pitcher =>
      [ ("Pelvis Twist Velocity", "/Calc/Pelvis/Twist/Velocity_x");
        ("Shoulder Twist Velocity", "/Calc/Shoulder/Twist/Velocity_x");
        ("Elbow Flexion/Extension Velocity, dominant", "/Calc/Elbow/Dominant/FlexionExtension/Velocity_x");
        ("Shoulder Rotation Velocity, dominant", "/Calc/Shoulder/Dominant/Rotation/Velocity_x");
        ("Shoulder Horizontal, dominant", "/Calc/Shoulder/Dominant/Horizontal_x");
        ("Shoulder Elevation, dominant", "/Calc/Shoulder/Dominant/Elevation_x");
        ("Shoulder Rotation, dominant", "/Calc/Shoulder/Dominant/Rotation_x");
        ("Elbow Flexion/Extension, dominant", "/Calc/Elbow/Dominant/FlexionExtension_x");
        ("Trunk Tilt left/right", "/Calc/Trunk/Tilt/LeftRight_x");
        ("Shoulder Twist", "/Calc/Shoulder/Twist_x");
        ("Pelvis Twist", "/Calc/Pelvis/Twist_x");
        ("Trunk Separation", "/Calc/Trunk/Separation_x");
        ("Knee Flexion/Extension, lead", "/Calc/Knee/Lead/FlexionExtension_x");
        ("Center of Gravity Velocity, Y", "/Calc/CenterOfGravity/VelocityY_x") ]
  | hitter =>
      [ ("Shoulder Twist Velocity", "/Calc/Shoulder/Twist/Velocity_x");
        ("Pelvis Twist Velocity", "/Calc/Pelvis/Twist/Velocity_x");
        ("Elbow Dominant Flexion/Extension Velocity", "/Calc/Elbow/Dominant/FlexionExtension/Velocity_x");
        ("Trunk Separation", "/Calc/Trunk/Separation_x");
        ("Shoulder Other Horizontal", "/Calc/Shoulder/Other/Horizontal_x");
        ("Trunk Tilt Left/Right", "/Calc/Trunk/Tilt/LeftRight_x");
        ("Hip Plant Internal/External", "/Calc/Hip/Plant/InternalExternal_x");
        ("Shoulder Twist", "/Calc/Shoulder/Twist_x");
        ("Hip Lead Internal/External", "/Calc/Hip/Lead/InternalExternal_x");
        ("Trunk Tilt Forwards/Backwards", "/Calc/Trunk/Tilt/ForwardsBackwards_x");
        ("Shoulder Dominant Horizontal", "/Calc/Shoulder/Dominant/Horizontal_x");
        ("Shoulder Dominant Rotation", "/Calc/Shoulder/Dominant/Rotation_x");
        ("Pelvis Tilt Left/Right", "/Calc/Pelvis/Tilt/LeftRight_x");
        ("Center of Gravity Velocity Z", "/Calc/CenterOfGravity/VelocityZ_x") ]
  end.

Definition HEADER_ALIASES : JsMap.t string :=
  [ ("/Calc/Elbow/Dominant/Flexion/Extension/Velocity_x", "/Calc/Elbow/Dominant/FlexionExtension/Velocity_x");
    ("/Calc/Elbow/Dominant/Flexion/Extenstion/Velocity_x", "/Calc/Elbow/Dominant/FlexionExtension/Velocity_x");
    ("/Calc/Elbow/Dominant/Flexion/Extension_x", "/Calc/Elbow/Dominant/FlexionExtension_x");
    ("/Calc/Wrist/Dominant/Flexion/Extension/Velocity_x", "/Calc/Wrist/Dominant/FlexionExtension/Velocity_x");
    ("/Calc/Knee/Lead/Flexion/Extension_x", "/Calc/Knee/Lead/FlexionExtension_x") ].

(** ** The column resolver *)

(** The loop [for (const [h, i] of colIndex.entries()) if (...) return i]. *)
Fixpoint first_stripped_match (entries : JsMap.t Z) (key : string) : option Z :=
  match entries with
  | (h, i) :: rest =>
      if String.eqb (JsString.strip_spaces h) (JsString.strip_spaces key)
      then Some i
      else first_stripped_match rest key
  | [] => None
  end.

(** [alias && colIndex.has(alias)], then [colIndex.get(alias)]. *)
Definition alias_lookup (colIndex : JsMap.t Z) (key : string) : option Z :=
  match JsMap.get HEADER_ALIASES key with
  | Some alias => if JsString.truthy alias then JsMap.get colIndex alias else None
  | None => None
  end.

Definition getColIndexWithAliases (colIndex : JsMap.t Z) (key : string) : Z :=
  match JsMap.get colIndex key with
  | Some i => i
  | None =>
      match alias_lookup colIndex key with
      | Some i => i
      | None =>
          match first_stripped_match colIndex key with
          | Some i => i
          | None => (-1)%Z
          end
      end
  end.

(** ** The header detector of the needed-metrics path *)

(** [typeof v === "string" ? v.trim() : v] *)
Definition trim_cell (v : value) : value :=
  match v with
  | VStr s => VStr (JsString.trim s)
  | _ => v
  end.

(** [row.some((c) => typeof c === "string" && /^time$/i.test(String(c).trim()))] *)
Definition row_has_time (r : row) : bool :=
  existsb
    (fun c => match c with VStr s => Re.time_only (JsString.trim s) | _ => false end)
    r.

(** The scanning loop, started at index [i] on the rows still to scan. *)
Fixpoint scan_time_row (rows : table) (i : nat) : option (nat * row) :=
  match rows with
  | r :: rest =>
      if row_has_time (row_or_empty r)
      then Some (i, map trim_cell (row_or_empty r))
      else scan_time_row rest (S i)
  | [] => None
  end.

Definition findHeaderRowWithTime (tbl : table) : nat * row :=
  match scan_time_row (firstn (Nat.min (List.length tbl) 20) tbl) 0 with
  | Some found => found
  | None => (0, map trim_cell (row_or_empty (nth 0 tbl None)))
  end.

(** [header.forEach((h, i) => { if (typeof h === "string") colIndex.set(h.trim(), i) })],
    from column [i] on. *)
Fixpoint index_header (header : row) (i : nat) (colIndex : JsMap.t Z) : JsMap.t Z :=
  match header with
  | VStr h :: rest => index_header rest (S i) (JsMap.set colIndex (JsString.trim h) (Z.of_nat i))
  | _ :: rest => index_header rest (S i) colIndex
  | [] => colIndex
  end.

Definition build_colIndex (header : row) : JsMap.t Z := index_header header 0 [].

(** ** Arrays that are shared by reference *)

(** The [time] array of a parse is one object, reached from both roles'
    records. Arrays of numbers live in a heap and are named by location. *)
Module Heap.

Definition loc : Type := nat.
Definition t : Type := list (list float).

(** [const a: number[] = []] *)
Definition alloc (h : t) : loc * t := (List.length h, h ++ [[]]).

Definition deref (h : t) (l : loc) : list float := nth l h [].

(** [a.push(x)] *)
Fixpoint push (h : t) (l : loc) (x : float) : t :=
  match h, l with
  | a :: h', O => (a ++ [x]) :: h'
  | a :: h', S l' => a :: push h' l' x
  | [], _ => []
  end.

End Heap.

(** ** Result types *)

Record Series : Type := mkSeries {
  label : string;
  key : string;
  values : list float
}.

(** [time] is the reference held by the record, [series] its own array. *)
Record NeededMetrics : Type := mkNeededMetrics {
  time : Heap.loc;
  series : list Series
}.

(** [{ ok: true, pitcher, hitter, warnings }] together with the heap its
    references point into, or [{ ok: false, why, warnings }]. *)
Inductive NeededParseResult : Type :=
| Ok (h : Heap.t) (pitcher_metrics hitter_metrics : NeededMetrics) (warnings : list string)
| Fail (why : string) (warnings : list string).

(** What a caller reads at [m.time]. *)
Definition time_of (h : Heap.t) (m : NeededMetrics) : list float :=
  Heap.deref h (time m).

(** ** Exceptions *)

Module Exc.

(** A computation that returns or throws an [E]. *)
Definition t (E A : Type) : Type := sum E A.

Definition ret {E A : Type} (a : A) : t E A := inr a.
Definition throw {E A : Type} (e : E) : t E A := inl e.

Definition bind {E A B : Type} (c : t E A) (k : A -> t E B) : t E B :=
  match c with
  | inl e => inl e
  | inr a => k a
  end.

(** [try { c } catch (err) { handler(err) }] *)
Definition try_catch {E A : Type} (c : t E A) (handler : E -> t E A) : t E A :=
  match c with
  | inl e => handler e
  | inr a => inr a
  end.

End Exc.

Notation "x <- c ;; k" := (Exc.bind c (fun x => k))
  (at level 61, c at next level, right associativity).

(** ** The module, over its run time *)

Section Excel.

(** [Number(s)] on a string, [String(x)] on a number, [Date.parse(s)]. *)
Variable Number_of_string : string -> float.
Variable Number_toString : float -> string.
Variable Date_parse : string -> float.

(** The [xlsx] library and the browser: input buffers, decoded sheets, the
    values that can be thrown, files. [error_text err] is
    [String(err?.message ?? err)]. *)
Variables buffer worksheet error file : Type.
Variable error_text : error -> string.

(** [wb.Sheets[name]] is [None] when the entry is missing or falsy. *)
Record workbook : Type := mkWorkbook {
  SheetNames : list string;
  Sheets : string -> option worksheet
}.

Variable read : buffer -> Exc.t error workbook.
Variable sheet_to_json : worksheet -> Exc.t error table.
Variable arrayBuffer : file -> Exc.t error buffer.

(** [String(v)] *)
Definition ToString (v : value) : string :=
  match v with
  | VUndef => "undefined"
  | VNull => "null"
  | VNum x => Number_toString x
  | VStr s => s
  | VBool true => "true"
  | VBool false => "false"
  end.

Definition toNumber (v : value) : float :=
  match v with
  | VNum x => x
  | VUndef | VNull => nan
  | _ =>
      let s := JsString.strip_commas (JsString.trim (ToString v)) in
      let n := Number_of_string s in
      if PrimFloat.is_finite n then n else nan
  end.

(** *** Needed metrics: one role *)

Section BuildRole.

(** What the closure [buildRole] captures. *)
Variable tbl : table.
Variable headerRowIndex : nat.
Variable colIndex : JsMap.t Z.
Variable timeIdx : Z.
Variable time_ref : Heap.loc.

(** The state the closure writes to: the heap holding [time], and [warnings]. *)
Record store : Type := mkStore {
  heap : Heap.t;
  warnings : list string
}.

(** [spec.map(([label, key]) => ({ label, key, values: [] }))] *)
Definition init_series (role : Role) : list Series :=
  map (fun lk => mkSeries (fst lk) (snd lk) []) (NEEDED_MAP role).

(** [timeIdx >= 0 ? toNumber(row[timeIdx]) : NaN], then the finiteness guard. *)
Definition time_sample (r : row) : float :=
  finite_or_nan (if (0 <=? timeIdx)%Z then toNumber (cell r timeIdx) else nan).

(** The value pushed to series [s] for the row [r]. *)
Definition series_sample (k : string) (r : row) : float :=
  let idx := getColIndexWithAliases colIndex k in
  finite_or_nan (if (0 <=? idx)%Z then toNumber (cell r idx) else nan).

(** One turn of [series.forEach((s) => { ...; s.values.push(...) })]. *)
Definition push_sample (r : row) (s : Series) : Series :=
  mkSeries (label s) (key s) (values s ++ [series_sample (key s) r]).

(** One turn of the row loop. *)
Definition row_step (role : Role) (acc : Heap.t * list Series) (r : option row)
  : Heap.t * list Series :=
  match r with
  | None | Some [] => acc
  | Some cells =>
      let h :=
        match role with
        | pitcher => Heap.push (fst acc) time_ref (time_sample cells)
        | hitter => fst acc
        end in
      (h, map (push_sample cells) (snd acc))
  end.

(** The rows [table[r]] for [headerRowIndex + 1 <= r < table.length]. *)
Definition data_rows : table := skipn (S headerRowIndex) tbl.

(** [series.forEach((s) => { if (idx < 0) warnings.push(...) })] *)
Definition missing_warnings (ss : list Series) : list string :=
  flat_map
    (fun s =>
       if (getColIndexWithAliases colIndex (key s) <? 0)%Z
       then [("Missing column in sheet: " ++ key s)%string]
       else [])
    ss.

Definition buildRole (role : Role) (st : store) : NeededMetrics * store :=
  let '(h, ss) := fold_left (row_step role) data_rows (heap st, init_series role) in
  (mkNeededMetrics time_ref ss, mkStore h (warnings st ++ missing_warnings ss)).

End BuildRole.

(** *** Needed metrics: the whole parse *)

(** [find(/baseball.*data/i) ?? find(/baseball/i) ?? SheetNames[0]] *)
Definition select_sheet (names : list string) : option string :=
  match find Re.has_baseball_data names with
  | Some n => Some n
  | None =>
      match find Re.has_baseball names with
      | Some n => Some n
      | None => hd_error names
      end
  end.

(** From the decoded, non-empty grid to the result. *)
Definition extract (tbl : table) : NeededParseResult :=
  let '(headerRowIndex, header) := findHeaderRowWithTime tbl in
  let colIndex := build_colIndex header in
  let timeIdx := getColIndexWithAliases colIndex "Time" in
  let warnings0 :=
    if (timeIdx <? 0)%Z then ["Could not find 'Time' column; times will be NaN."] else [] in
  let '(time_ref, h0) := Heap.alloc [] in
  let build := buildRole tbl headerRowIndex colIndex timeIdx time_ref in
  let '(p, st1) := build pitcher (mkStore h0 warnings0) in
  let '(q, st2) := build hitter st1 in
  if Nat.eqb (List.length (series p)) 0 && Nat.eqb (List.length (series q)) 0
  then Fail "No needed metrics could be extracted." (warnings st2)
  else Ok (heap st2) p q (warnings st2).

(** The body of the [try] block. *)
Definition parse_body (buf : buffer) : Exc.t error NeededParseResult :=
  wb <- read buf ;;
  match select_sheet (SheetNames wb) with
  | None => Exc.ret (Fail "No sheets found in workbook." [])
  | Some sheetName =>
      if negb (JsString.truthy sheetName)
      then Exc.ret (Fail "No sheets found in workbook." [])
      else
        match Sheets wb sheetName with
        | None => Exc.ret (Fail ("Sheet '" ++ sheetName ++ "' is empty or unreadable.")%string [])
        | Some ws =>
            tbl <- sheet_to_json ws ;;
            match tbl with
            | [] => Exc.ret (Fail ("Sheet '" ++ sheetName ++ "' has no data.")%string [])
            | _ :: _ => Exc.ret (extract tbl)
            end
        end
  end.

Definition parseWorkbookToNeededMetrics (buf : buffer) : Exc.t error NeededParseResult :=
  Exc.try_catch (parse_body buf)
    (fun err => Exc.ret (Fail (error_text err) [])).

(** The promise of the [async] wrapper, once settled: fulfilled is [inr],
    rejected is [inl]. *)
Definition parseExcelToNeededMetrics (f : file) : Exc.t error NeededParseResult :=
  Exc.try_catch
    (buf <- arrayBuffer f ;; parseWorkbookToNeededMetrics buf)
    (fun err => Exc.ret (Fail (error_text err) [])).

(** *** The generic header detector *)

(** [typeof c === "string" && c.trim() !== ""] *)
Definition is_nonempty_string (c : value) : bool :=
  match c with
  | VStr s => negb (String.eqb (JsString.trim s) "")
  | _ => false
  end.

(** [typeof c === "string" && re.test(String(c).trim())] *)
Definition string_matching (re : string -> bool) (c : value) : bool :=
  match c with
  | VStr s => re (JsString.trim s)
  | _ => false
  end.

(** The score the loop body gives a row. *)
Definition row_score (r : row) : Z :=
  let nonEmpty := Z.of_nat (List.length (filter is_nonempty_string r)) in
  let hasTime := existsb (string_matching Re.t_time_timestamp) r in
  let hasFrame := existsb (string_matching Re.has_frame) r in
  let score := (nonEmpty + (if hasTime then 3 else 0) + (if hasFrame then 2 else 0))%Z in
  if (nonEmpty <=? 1)%Z then (score - 3)%Z else score.

(** The loop over the rows still to scan, from index [i], carrying
    [(bestIdx, bestScore)]. *)
Fixpoint scan_best (rows : table) (i : nat) (best : nat * Z) : nat * Z :=
  match rows with
  | r :: rest =>
      let score := row_score (row_or_empty r) in
      scan_best rest (S i) (if (snd best <? score)%Z then (i, score) else best)
  | [] => best
  end.

(** [bestIdx] when the loop ends. *)
Definition bestIdx (tbl : table) : nat :=
  fst (scan_best (firstn (Nat.min (List.length tbl) 20) tbl) 0 (0, (-1)%Z)).

(** The callback that canonicalises a raw header. *)
Definition canonical_header (h : string) : string :=
  let s := JsString.trim h in
  if Re.frame_s s then "Frame"
  else if Re.timestamp_only s then "Timestamp"
  else if Re.t_or_time s then "Time"
  else s.

(** The callback of [dedupeHeaders], threaded through the list with [seen]. *)
Fixpoint dedupe_from (seen : JsMap.t nat) (headers : list string) : list string :=
  match headers with
  | h :: rest =>
      if negb (JsString.truthy h) then h :: dedupe_from seen rest
      else
        let count := (match JsMap.get seen h with Some c => c | None => 0 end) + 1 in
        let seen' := JsMap.set seen h count in
        (if Nat.eqb count 1 then h else (h ++ " (" ++ JsString.of_nat count ++ ")")%string)
          :: dedupe_from seen' rest
  | [] => []
  end.

Definition dedupeHeaders (headers : list string) : list string :=
  dedupe_from [] headers.

(** [v == null ? "" : String(v)] *)
Definition raw_header (v : value) : string :=
  match v with
  | VUndef | VNull => ""
  | _ => ToString v
  end.

(** Canonicalisation followed by the suffixing of duplicates. *)
Definition clean_headers (rawHeaders : list string) : list string :=
  dedupeHeaders (map canonical_header rawHeaders).

(** Returns [(headers, dataRows)]. *)
Definition detectHeaderAndExtract (tbl : table) : list string * table :=
  let best := bestIdx tbl in
  let rawHeaders := map raw_header (row_or_empty (nth best tbl None)) in
  (clean_headers rawHeaders, skipn (S best) tbl).

(** *** Rows as objects *)

Definition indexed {A : Type} (l : list A) : list (nat * A) :=
  combine (seq 0 (List.length l)) l.

Definition toObjects (headers : list string) (rows : list row) : list Obj.t :=
  map
    (fun r =>
       fold_left
         (fun obj ih =>
            let key := if JsString.truthy (snd ih) then snd ih
                       else ("Col" ++ JsString.of_nat (fst ih))%string in
            Obj.set obj key (nth (fst ih) r VUndef))
         (indexed headers) [])
    rows.

(** *** The generic row normaliser *)

(** [a || b] on keys that may be [undefined]. *)
Definition or_else (a b : option string) : option string :=
  match a with
  | Some k => if JsString.truthy k then a else b
  | None => b
  end.

(** Truthiness of a key that may be [undefined]. *)
Definition present (a : option string) : bool :=
  match a with
  | Some k => JsString.truthy k
  | None => false
  end.

(** [k === a] *)
Definition key_is (k : string) (a : option string) : bool :=
  match a with
  | Some k' => String.eqb k k'
  | None => false
  end.

(** A key used as a property name: [undefined] names the property ["undefined"]. *)
Definition property_name (a : option string) : string :=
  match a with
  | Some k => k
  | None => "undefined"
  end.

(** [Number(x)] on a cell that is not a number. *)
Definition Number_any (x : value) : float :=
  match x with
  | VNum n => n
  | VUndef => nan
  | VNull => 0
  | VBool true => 1
  | VBool false => 0
  | VStr s => Number_of_string s
  end.

(** The local [num] of [normalizeSheet]. *)
Definition num (v : value) : float :=
  match v with
  | VNum x => x
  | VUndef | VNull => nan
  | _ =>
      let s := JsString.strip_commas (JsString.trim (ToString v)) in
      let n := Number_of_string s in
      if PrimFloat.is_finite n then n else nan
  end.

(** A length as a number. *)
Definition float_of_nat (n : nat) : float :=
  PrimFloat.of_uint63 (Uint63.of_Z (Z.of_nat n)).

(** [for (i = 1; ...) sum += Math.abs(vals[i] - vals[i - 1])], with
    [vals[i - 1]] as [prev]. *)
Fixpoint sum_deltas (prev : float) (vals : list float) (sum : float) : float :=
  match vals with
  | v :: rest => sum_deltas v rest (sum + PrimFloat.abs (v - prev))
  | [] => sum
  end.

(** The array [vals] of [averageDelta]. *)
Definition finite_column (rows : list Obj.t) (k : string) : list float :=
  filter PrimFloat.is_finite
    (map (fun r => match Obj.get r k with VNum x => x | x => Number_any x end) rows).

Definition averageDelta (rows : list Obj.t) (k : string) : float :=
  match finite_column rows k with
  | v0 :: (_ :: _) as rest =>
      sum_deltas v0 rest 0 / float_of_nat (List.length (v0 :: rest) - 1)
  | _ => nan
  end.

Section NormalizeSheet.

Variable rowsRaw : list Obj.t.
Variable fpsGuess : float.

(** [Object.keys(rowsRaw[0] ?? {})] *)
Definition keys : list string := Obj.keys (hd [] rowsRaw).

Definition timeKey : option string :=
  or_else (find Re.t_or_time keys) (find Re.has_timestamp keys).

Definition msKey : option string := find Re.has_ms keys.

Definition frameKey : option string :=
  find (fun k => Re.frame_s k || Re.has_frame_index k) keys.

(** [v != null] *)
Definition not_nullish (v : value) : bool :=
  match v with
  | VUndef | VNull => false
  | _ => true
  end.

Definition ts0 : float :=
  if negb (present timeKey) && existsb Re.has_timestamp keys then
    let k := property_name (find Re.has_timestamp keys) in
    let first :=
      match find (fun r => not_nullish (Obj.get r k)) rowsRaw with
      | Some r => Obj.get r k
      | None => VUndef
      end in
    let p := match first with VNum x => x | _ => Date_parse (ToString first) end in
    if PrimFloat.is_finite p then p else 0
  else 0.

(** [fpsGuess && Number.isFinite(fpsGuess) ? fpsGuess : 120] *)
Definition fps : float :=
  if negb (PrimFloat.eqb fpsGuess 0 || PrimFloat.is_nan fpsGuess)
     && PrimFloat.is_finite fpsGuess
  then fpsGuess else 120.

(** [looksMs] for a row whose parsed time is [n], under the time key [tk]. *)
Definition looksMs (tk : string) (n : float) : bool :=
  present msKey
  || (PrimFloat.is_finite n && (50 <? n)%float && (10 <? averageDelta rowsRaw tk)%float).

(** The value of [tSec] when the body of the row loop reaches [row.t = tSec]. *)
Definition tSec (r : Obj.t) : float :=
  if present timeKey then
    let tk := property_name timeKey in
    let n := num (Obj.get r tk) in
    if looksMs tk n then n / 1000 else n
  else if present frameKey then
    let f := num (Obj.get r (property_name frameKey)) in
    if PrimFloat.is_finite f then f / fps else nan
  else if existsb Re.has_timestamp keys then
    let k := property_name (find Re.has_timestamp keys) in
    let p := match Obj.get r k with VNum x => x | v => Date_parse (ToString v) end in
    if PrimFloat.is_finite p then (p - ts0) / 1000 else nan
  else nan.

(** One turn of the row loop: the [Row] pushed to [out]. *)
Definition normalize_row (r : Obj.t) : JsMap.t float :=
  fold_left
    (fun out k =>
       if key_is k timeKey || key_is k msKey || key_is k frameKey then out
       else
         let n := num (Obj.get r k) in
         if PrimFloat.is_finite n then Obj.set out k n else out)
    keys (Obj.set [] "t" (tSec r)).

Definition normalizeSheet : list (JsMap.t float) :=
  match rowsRaw with
  | [] => []
  | _ :: _ => map normalize_row rowsRaw
  end.

End NormalizeSheet.

(** *** Vocabulary of the statements *)

(** The rows the row loop does not skip: present, with at least one cell. *)
Definition kept_rows (rows : table) : list row :=
  flat_map
    (fun r => match r with Some (c :: cs) => [c :: cs] | _ => [] end)
    rows.

(** A series of the whitelist filled with one sample per kept row. *)
Definition filled_series (colIndex : JsMap.t Z) (rows : list row) (lk : string * string)
  : Series :=
  mkSeries (fst lk) (snd lk) (map (series_sample colIndex (snd lk)) rows).

(** The warning pushed before the roles are built. *)
Definition time_warning (ti : Z) : list string :=
  if (ti <? 0)%Z then ["Could not find 'Time' column; times will be NaN."] else [].

(** Whether the row loop keeps a row. *)
Definition is_kept (r : option row) : bool :=
  match r with
  | Some (_ :: _) => true
  | _ => false
  end.

(** [buf] decodes without an exception to a workbook whose selected sheet,
    named [name], is readable and has the grid [tbl]. *)
Definition selected_grid (buf : buffer) (name : string) (tbl : table) : Prop :=
  exists wb ws,
    read buf = inr wb /\
    select_sheet (SheetNames wb) = Some name /\
    JsString.truthy name = true /\
    Sheets wb name = Some ws /\
    sheet_to_json ws = inr tbl.

(** *** Sample grids *)

(** A one-column sheet: a year in the first row, the header [Speed] below it. *)
Definition title_grid : table :=
  [ Some [VNum 2024]; Some [VStr "Speed"]; Some [VNum 1]; Some [VNum 2] ].

(** Epoch milliseconds under a [Timestamp] header, half a second apart. *)
Definition epoch_rows : list row :=
  [ [VNum 1700000000000; VNum 1]; [VNum 1700000000500; VNum 2] ].

Definition epoch_grid : table :=
  Some [VStr "Timestamp"; VStr "x"] :: map Some epoch_rows.

(** A header row in which a label already has the form of a suffixed one. *)
Definition suffixed_rows : list row := [ [VNum 1; VNum 2; VNum 3] ].

Definition suffixed_grid : table :=
  Some [VStr "a"; VStr "a"; VStr "a (2)"] :: map Some suffixed_rows.

(** Times in milliseconds written as text with a thousands separator. *)
Definition comma_rows : list row :=
  [ [VStr "1,000"; VNum 1]; [VStr "2,000"; VNum 2]; [VStr "3,000"; VNum 3] ].

Definition comma_grid : table :=
  Some [VStr "Time"; VStr "x"] :: map Some comma_rows.

(** The same times as numbers. *)
Definition plain_rows : list row :=
  [ [VNum 1000; VNum 1]; [VNum 2000; VNum 2]; [VNum 3000; VNum 3] ].

(** The same text beside a column whose name marks milliseconds. *)
Definition marked_rows : list row :=
  [ [VStr "1,000"; VNum 0; VNum 1]; [VStr "2,000"; VNum 0; VNum 2];
    [VStr "3,000"; VNum 0; VNum 3] ].

(** * Properties *)

(** ** The heap *)

Lemma push_length (h : Heap.t) (l : Heap.loc) (x : float) :
  List.length (Heap.push h l x) = List.length h.
Proof.
  revert l; induction h as [|a h IH]; intros [|l]; simpl; auto.
Qed.

Lemma deref_push (h : Heap.t) (l : Heap.loc) (x : float) :
  l < List.length h ->
  Heap.deref (Heap.push h l x) l = Heap.deref h l ++ [x].
Proof.
  unfold Heap.deref.
  revert l; induction h as [|a h IH]; intros [|l] Hl; simpl in *; try lia; auto.
  apply IH; lia.
Qed.

Lemma deref_push_all (xs : list float) (h : Heap.t) (l : Heap.loc) :
  l < List.length h ->
  Heap.deref (fold_left (fun h' x => Heap.push h' l x) xs h) l = Heap.deref h l ++ xs.
Proof.
  revert h; induction xs as [|x xs IH]; intros h Hl; simpl.
  - now rewrite app_nil_r.
  - rewrite IH by (rewrite push_length; exact Hl).
    rewrite deref_push by exact Hl.
    now rewrite <- app_assoc.
Qed.

(** ** The row loop of [buildRole] *)

Section RowLoop.

Variable colIndex : JsMap.t Z.
Variable timeIdx : Z.
Variable time_ref : Heap.loc.

Let step := row_step colIndex timeIdx time_ref.

Lemma row_loop_series (role : Role) (rows : table) (h : Heap.t) (ss : list Series) :
  snd (fold_left (step role) rows (h, ss)) =
  map (fun s =>
         mkSeries (label s) (key s)
           (values s ++ map (series_sample colIndex (key s)) (kept_rows rows)))
      ss.
Proof.
  revert h ss; induction rows as [|r rows IH]; intros h ss; simpl.
  - rewrite <- (map_id ss) at 1. apply map_ext.
    intros [l k v]; simpl. now rewrite app_nil_r.
  - destruct r as [[|c cs]|]; simpl; try apply IH.
    rewrite IH, map_map. apply map_ext.
    intros s; simpl. now rewrite <- app_assoc.
Qed.

Lemma row_loop_heap_pitcher (rows : table) (h : Heap.t) (ss : list Series) :
  fst (fold_left (step pitcher) rows (h, ss)) =
  fold_left (fun h' x => Heap.push h' time_ref x)
    (map (time_sample timeIdx) (kept_rows rows)) h.
Proof.
  revert h ss; induction rows as [|r rows IH]; intros h ss; simpl; auto.
  destruct r as [[|c cs]|]; simpl; apply IH.
Qed.

Lemma row_loop_heap_hitter (rows : table) (h : Heap.t) (ss : list Series) :
  fst (fold_left (step hitter) rows (h, ss)) = h.
Proof.
  revert h ss; induction rows as [|r rows IH]; intros h ss; simpl; auto.
  destruct r as [[|c cs]|]; simpl; apply IH.
Qed.

End RowLoop.

Lemma push_all_single (xs a : list float) :
  fold_left (fun h' x => Heap.push h' 0 x) xs [a] = [a ++ xs].
Proof.
  revert a; induction xs as [|x xs IH]; intros a; simpl.
  - now rewrite app_nil_r.
  - rewrite IH. now rewrite <- app_assoc.
Qed.

(** ** [buildRole] and [extract] in closed form *)

Lemma buildRole_series (tbl : table) (hri : nat) (ci : JsMap.t Z) (ti : Z)
    (tr : Heap.loc) (role : Role) (st : store) :
  series (fst (buildRole tbl hri ci ti tr role st)) =
  map (filled_series ci (kept_rows (data_rows tbl hri))) (NEEDED_MAP role).
Proof.
  unfold buildRole.
  pose proof (row_loop_series ci ti tr role (data_rows tbl hri) (heap st) (init_series role)) as E.
  destruct (fold_left _ _ _) as [h ss]; simpl in *.
  rewrite E. unfold init_series. rewrite map_map. reflexivity.
Qed.

Lemma buildRole_time (tbl : table) (hri : nat) (ci : JsMap.t Z) (ti : Z)
    (tr : Heap.loc) (role : Role) (st : store) :
  time (fst (buildRole tbl hri ci ti tr role st)) = tr.
Proof.
  unfold buildRole. now destruct (fold_left _ _ _).
Qed.

Lemma buildRole_warnings (tbl : table) (hri : nat) (ci : JsMap.t Z) (ti : Z)
    (tr : Heap.loc) (role : Role) (st : store) :
  warnings (snd (buildRole tbl hri ci ti tr role st)) =
  warnings st ++
  missing_warnings ci (map (filled_series ci (kept_rows (data_rows tbl hri))) (NEEDED_MAP role)).
Proof.
  rewrite <- buildRole_series with (ti := ti) (tr := tr) (st := st).
  unfold buildRole. now destruct (fold_left _ _ _).
Qed.

Lemma buildRole_heap_pitcher (tbl : table) (hri : nat) (ci : JsMap.t Z) (ti : Z)
    (tr : Heap.loc) (st : store) :
  heap (snd (buildRole tbl hri ci ti tr pitcher st)) =
  fold_left (fun h' x => Heap.push h' tr x)
    (map (time_sample ti) (kept_rows (data_rows tbl hri))) (heap st).
Proof.
  unfold buildRole.
  pose proof (row_loop_heap_pitcher ci ti tr (data_rows tbl hri) (heap st) (init_series pitcher)) as E.
  now destruct (fold_left _ _ _).
Qed.

Lemma buildRole_heap_hitter (tbl : table) (hri : nat) (ci : JsMap.t Z) (ti : Z)
    (tr : Heap.loc) (st : store) :
  heap (snd (buildRole tbl hri ci ti tr hitter st)) = heap st.
Proof.
  unfold buildRole.
  pose proof (row_loop_heap_hitter ci ti tr (data_rows tbl hri) (heap st) (init_series hitter)) as E.
  now destruct (fold_left _ _ _).
Qed.

Lemma whitelist_length (role : Role) : List.length (NEEDED_MAP role) = 14.
Proof. destruct role; reflexivity. Qed.

Lemma extract_closed_form (tbl : table) :
  let hdr := findHeaderRowWithTime tbl in
  let ci := build_colIndex (snd hdr) in
  let ti := getColIndexWithAliases ci "Time" in
  let rows := kept_rows (skipn (S (fst hdr)) tbl) in
  extract tbl =
  Ok [map (time_sample ti) rows]
     (mkNeededMetrics 0 (map (filled_series ci rows) (NEEDED_MAP pitcher)))
     (mkNeededMetrics 0 (map (filled_series ci rows) (NEEDED_MAP hitter)))
     (time_warning ti
      ++ missing_warnings ci (map (filled_series ci rows) (NEEDED_MAP pitcher))
      ++ missing_warnings ci (map (filled_series ci rows) (NEEDED_MAP hitter))).
Proof.
  intros hdr ci ti rows. unfold extract.
  fold hdr. destruct hdr as [hri header] eqn:Hhdr. simpl fst in *; simpl snd in *.
  fold ci. fold ti. change (Heap.alloc []) with (0, [@nil float]).
  cbv beta iota zeta.
  fold (time_warning ti).
  set (st0 := mkStore [[]] (time_warning ti)).
  pose proof (buildRole_series tbl hri ci ti 0 pitcher st0) as Sp.
  pose proof (buildRole_time tbl hri ci ti 0 pitcher st0) as Tp.
  pose proof (buildRole_warnings tbl hri ci ti 0 pitcher st0) as Wp.
  pose proof (buildRole_heap_pitcher tbl hri ci ti 0 st0) as Hp.
  destruct (buildRole tbl hri ci ti 0 pitcher st0) as [p st1].
  pose proof (buildRole_series tbl hri ci ti 0 hitter st1) as Sq.
  pose proof (buildRole_time tbl hri ci ti 0 hitter st1) as Tq.
  pose proof (buildRole_warnings tbl hri ci ti 0 hitter st1) as Wq.
  pose proof (buildRole_heap_hitter tbl hri ci ti 0 st1) as Hq.
  destruct (buildRole tbl hri ci ti 0 hitter st1) as [q st2].
  simpl fst in *; simpl snd in *. unfold data_rows in *. fold rows in Sp, Sq, Wp, Wq, Hp.
  rewrite Sp, Sq, !length_map, !whitelist_length.
  change (Nat.eqb 14 0 && Nat.eqb 14 0) with false. cbv iota.
  destruct p as [tp sp], q as [tq sq]; simpl in Sp, Sq, Tp, Tq; subst tp tq sp sq.
  rewrite Hq, Hp, Wq, Wp. subst st0. cbv [heap warnings].
  rewrite push_all_single. now rewrite <- app_assoc.
Qed.

(** ** The parse, case by case *)

Ltac unfold_parse :=
  unfold parseWorkbookToNeededMetrics, parse_body, Exc.bind, Exc.try_catch, Exc.ret.

Lemma parse_selected (buf : buffer) (name : string) (tbl : table) :
  selected_grid buf name tbl ->
  tbl <> [] ->
  parseWorkbookToNeededMetrics buf = inr (extract tbl).
Proof.
  intros (wb & ws & Hr & Hs & Ht & Hw & Hj) Hne. unfold_parse.
  rewrite Hr, Hs, Ht, Hw, Hj. simpl negb. cbv iota.
  destruct tbl; [contradiction|reflexivity].
Qed.

Lemma parse_ok_inv (buf : buffer) (h : Heap.t) (p q : NeededMetrics) (w : list string) :
  parseWorkbookToNeededMetrics buf = inr (Ok h p q w) ->
  exists name tbl, selected_grid buf name tbl /\ tbl <> [] /\ extract tbl = Ok h p q w.
Proof.
  unfold_parse.
  destruct (read buf) as [e|wb] eqn:Hr; [discriminate|].
  destruct (select_sheet (SheetNames wb)) as [name|] eqn:Hs; [|discriminate].
  destruct (JsString.truthy name) eqn:Ht; simpl negb; cbv iota; [|discriminate].
  destruct (Sheets wb name) as [ws|] eqn:Hw; [|discriminate].
  destruct (sheet_to_json ws) as [e|tbl] eqn:Hj; [discriminate|].
  destruct tbl as [|r tbl]; [discriminate|].
  intros E. exists name, (r :: tbl). split; [|split].
  - exists wb, ws. auto.
  - discriminate.
  - congruence.
Qed.

Lemma Ok_inj (h h' : Heap.t) (p p' q q' : NeededMetrics) (w w' : list string) :
  Ok h p q w = Ok h' p' q' w' -> h = h' /\ p = p' /\ q = q' /\ w = w'.
Proof. intros E. repeat split; congruence. Qed.

Lemma parse_total (buf : buffer) :
  exists r, parseWorkbookToNeededMetrics buf = inr r.
Proof.
  unfold parseWorkbookToNeededMetrics, Exc.try_catch, Exc.ret.
  destruct (parse_body buf) as [e|r]; eauto.
Qed.

Lemma kept_rows_length (rows : table) :
  List.length (kept_rows rows) = List.length (filter is_kept rows).
Proof.
  induction rows as [|[[|c cs]|] rows IH]; simpl; auto.
Qed.

Lemma finite_or_nan_nan : finite_or_nan nan = nan.
Proof. reflexivity. Qed.

Lemma toNumber_blank (r : row) (i : Z) :
  Forall (fun c => c = VNull) r -> toNumber (cell r i) = nan.
Proof.
  intros Hr. unfold cell.
  destruct (nth_in_or_default (Z.to_nat i) r VUndef) as [Hin|Hd].
  - rewrite Forall_forall in Hr. now rewrite (Hr _ Hin).
  - now rewrite Hd.
Qed.

Lemma buildRole_fst (tbl : table) (hri : nat) (ci : JsMap.t Z) (ti : Z)
    (tr : Heap.loc) (role : Role) (st : store) :
  fst (buildRole tbl hri ci ti tr role st) =
  mkNeededMetrics tr (map (filled_series ci (kept_rows (data_rows tbl hri))) (NEEDED_MAP role)).
Proof.
  rewrite <- (buildRole_series tbl hri ci ti tr role st).
  rewrite <- (buildRole_time tbl hri ci ti tr role st) at 2.
  now destruct (fst _).
Qed.

(** ** Needed metrics: alignment of time and values *)

(** C1. On a result with [ok: true] every series of either role has as many
    values as the time array has entries; both records hold the same time
    reference, hence read the same time sequence; and the heap holding the
    time array is already final when the pitcher has been built from the
    empty array: building the hitter leaves it as it is. *)
Theorem time_and_values_aligned (buf : buffer) (h : Heap.t) (p q : NeededMetrics)
    (w : list string) :
  parseWorkbookToNeededMetrics buf = inr (Ok h p q w) ->
  (forall s, In s (series p) -> List.length (values s) = List.length (time_of h p)) /\
  (forall s, In s (series q) -> List.length (values s) = List.length (time_of h q)) /\
  time p = time q /\
  time_of h p = time_of h q /\
  exists tbl hri ci ti w0 st1 st2,
    buildRole tbl hri ci ti (time p) pitcher (mkStore [[]] w0) = (p, st1) /\
    buildRole tbl hri ci ti (time p) hitter st1 = (q, st2) /\
    heap st1 = h /\ heap st2 = h.
Proof.
  intros Hok.
  destruct (parse_ok_inv buf h p q w Hok) as (name & tbl & _ & _ & E).
  rewrite extract_closed_form in E.
  set (hdr := findHeaderRowWithTime tbl) in *.
  set (ci := build_colIndex (snd hdr)) in *.
  set (ti := getColIndexWithAliases ci "Time") in *.
  set (rows := kept_rows (skipn (S (fst hdr)) tbl)) in *.
  apply Ok_inj in E as (Eh & Ep & Eq & Ew).
  assert (Hlen : forall role s,
             In s (map (filled_series ci rows) (NEEDED_MAP role)) ->
             List.length (values s) = List.length (map (time_sample ti) rows)).
  { intros role s Hin. apply in_map_iff in Hin as (lk & <- & _).
    simpl. now rewrite !length_map. }
  subst h p q. unfold time_of; cbn [time series Heap.deref nth].
  split; [now apply Hlen|]. split; [now apply Hlen|].
  split; [reflexivity|]. split; [reflexivity|].
  exists tbl, (fst hdr), ci, ti, (time_warning ti).
  set (st0 := mkStore [[]] (time_warning ti)).
  exists (snd (buildRole tbl (fst hdr) ci ti 0 pitcher st0)).
  exists (snd (buildRole tbl (fst hdr) ci ti 0 hitter
                 (snd (buildRole tbl (fst hdr) ci ti 0 pitcher st0)))).
  assert (Hheap : heap (snd (buildRole tbl (fst hdr) ci ti 0 pitcher st0))
                  = [map (time_sample ti) rows]).
  { rewrite buildRole_heap_pitcher. simpl heap. now rewrite push_all_single. }
  repeat split.
  - rewrite (surjective_pairing (buildRole _ _ _ _ _ pitcher _)) at 1.
    now rewrite buildRole_fst.
  - rewrite (surjective_pairing (buildRole _ _ _ _ _ hitter _)) at 1.
    now rewrite buildRole_fst.
  - exact Hheap.
  - now rewrite buildRole_heap_hitter.
Qed.

(** ** Needed metrics: failures are results *)

(** C2. [parseWorkbookToNeededMetrics] and its wrapper always return a
    result and never throw. A workbook without a sheet, a selected sheet
    that cannot be read and a sheet without rows each give [ok: false] with
    their reason and no warnings; an exception of the decoder, or of reading
    the file, gives [ok: false] with the text of the error and no warnings. *)
Theorem failures_are_structured :
  (forall buf, exists r, parseWorkbookToNeededMetrics buf = inr r) /\
  (forall f, exists r, parseExcelToNeededMetrics f = inr r) /\
  (forall buf wb,
      read buf = inr wb -> SheetNames wb = [] ->
      parseWorkbookToNeededMetrics buf = inr (Fail "No sheets found in workbook." [])) /\
  (forall buf wb name,
      read buf = inr wb -> select_sheet (SheetNames wb) = Some name ->
      JsString.truthy name = true -> Sheets wb name = None ->
      parseWorkbookToNeededMetrics buf =
      inr (Fail ("Sheet '" ++ name ++ "' is empty or unreadable.")%string [])) /\
  (forall buf name, selected_grid buf name [] ->
      parseWorkbookToNeededMetrics buf =
      inr (Fail ("Sheet '" ++ name ++ "' has no data.")%string [])) /\
  (forall buf err,
      read buf = inl err ->
      parseWorkbookToNeededMetrics buf = inr (Fail (error_text err) [])) /\
  (forall buf wb name ws err,
      read buf = inr wb -> select_sheet (SheetNames wb) = Some name ->
      JsString.truthy name = true -> Sheets wb name = Some ws ->
      sheet_to_json ws = inl err ->
      parseWorkbookToNeededMetrics buf = inr (Fail (error_text err) [])) /\
  (forall f err,
      arrayBuffer f = inl err ->
      parseExcelToNeededMetrics f = inr (Fail (error_text err) [])) /\
  (forall f buf,
      arrayBuffer f = inr buf ->
      parseExcelToNeededMetrics f = parseWorkbookToNeededMetrics buf).
Proof.
  split; [exact parse_total|].
  split.
  { intros f. unfold parseExcelToNeededMetrics, Exc.bind, Exc.try_catch, Exc.ret.
    destruct (arrayBuffer f) as [e|buf]; [eauto|].
    destruct (parse_total buf) as [r Hr]. rewrite Hr. eauto. }
  split.
  { intros buf wb Hr Hn. unfold_parse. rewrite Hr. unfold select_sheet.
    rewrite Hn. reflexivity. }
  split.
  { intros buf wb name Hr Hs Ht Hw. unfold_parse. rewrite Hr, Hs, Ht, Hw. reflexivity. }
  split.
  { intros buf name (wb & ws & Hr & Hs & Ht & Hw & Hj). unfold_parse.
    rewrite Hr, Hs, Ht, Hw, Hj. reflexivity. }
  split.
  { intros buf err Hr. unfold_parse. rewrite Hr. reflexivity. }
  split.
  { intros buf wb name ws err Hr Hs Ht Hw Hj. unfold_parse.
    rewrite Hr, Hs, Ht, Hw, Hj. reflexivity. }
  split.
  { intros f err Hf. unfold parseExcelToNeededMetrics, Exc.bind. rewrite Hf. reflexivity. }
  intros f buf Hf. unfold parseExcelToNeededMetrics, Exc.bind. rewrite Hf.
  destruct (parse_total buf) as [r Hr]. rewrite Hr. reflexivity.
Qed.

(** ** Needed metrics: a missing Time column *)

(** C5. When the selected sheet has at least one row and the resolver finds
    no column for [Time], the parse still has [ok: true]; its warnings
    contain the Time warning, and every entry of the time array, read from
    either role, is [NaN]. *)
Theorem missing_time_is_not_fatal (buf : buffer) (name : string) (tbl : table) :
  selected_grid buf name tbl ->
  tbl <> [] ->
  (getColIndexWithAliases (build_colIndex (snd (findHeaderRowWithTime tbl))) "Time" < 0)%Z ->
  exists h p q w,
    parseWorkbookToNeededMetrics buf = inr (Ok h p q w) /\
    In "Could not find 'Time' column; times will be NaN." w /\
    Forall (fun t => t = nan) (time_of h p) /\
    Forall (fun t => t = nan) (time_of h q).
Proof.
  intros Hsel Hne Hti.
  rewrite (parse_selected buf name tbl Hsel Hne), extract_closed_form.
  set (ci := build_colIndex _) in *.
  set (ti := getColIndexWithAliases ci "Time") in *.
  set (rows := kept_rows _).
  do 4 eexists. split; [reflexivity|].
  assert (Hneg : (ti <? 0)%Z = true) by (apply Z.ltb_lt; exact Hti).
  assert (Hnonneg : (0 <=? ti)%Z = false) by (apply Z.leb_gt; exact Hti).
  split.
  - unfold time_warning. rewrite Hneg. apply in_or_app. left. now left.
  - unfold time_of; cbn [time Heap.deref nth].
    assert (Hall : Forall (fun t => t = nan) (map (time_sample ti) rows)).
    { apply Forall_forall. intros t Hin. apply in_map_iff in Hin as (r & <- & _).
      unfold time_sample. rewrite Hnonneg. reflexivity. }
    split; exact Hall.
Qed.

(** ** Needed metrics: the whitelist always yields its series *)

(** C9. Each role's series list has the 14 entries of the whitelist,
    whatever the grid and whether or not a column resolves; so once a sheet
    with at least one row is decoded the result has [ok: true], and is never
    the failure whose reason is [No needed metrics could be extracted.]. *)
Theorem no_metrics_failure_unreachable (buf : buffer) (name : string) (tbl : table) :
  selected_grid buf name tbl ->
  tbl <> [] ->
  (forall hri ci ti tr role st,
      List.length (series (fst (buildRole tbl hri ci ti tr role st))) = 14) /\
  (exists h p q w,
      parseWorkbookToNeededMetrics buf = inr (Ok h p q w) /\
      List.length (series p) = 14 /\ List.length (series q) = 14) /\
  (forall w, parseWorkbookToNeededMetrics buf
             <> inr (Fail "No needed metrics could be extracted." w)).
Proof.
  intros Hsel Hne.
  split.
  { intros. rewrite buildRole_series, length_map. apply whitelist_length. }
  rewrite (parse_selected buf name tbl Hsel Hne), extract_closed_form.
  split.
  - do 4 eexists. split; [reflexivity|].
    cbn [series]. rewrite !length_map, !whitelist_length. auto.
  - intros w. discriminate.
Qed.

(** ** Needed metrics: which rows count *)

(** C10. After the header row, a row that is missing or has no cell adds
    nothing, and every other row adds one entry to the time array and one to
    each series of both roles: the arrays list the samples of the kept rows,
    in order, and their common length is the number of kept rows. A kept row
    whose cells are all [null] adds [NaN] to the time array and to every
    series. *)
Theorem empty_rows_are_skipped (buf : buffer) (name : string) (tbl : table) :
  selected_grid buf name tbl ->
  tbl <> [] ->
  let hdr := findHeaderRowWithTime tbl in
  let ci := build_colIndex (snd hdr) in
  let ti := getColIndexWithAliases ci "Time" in
  let after_header := skipn (S (fst hdr)) tbl in
  exists h p q w,
    parseWorkbookToNeededMetrics buf = inr (Ok h p q w) /\
    time_of h p = map (time_sample ti) (kept_rows after_header) /\
    (forall s, In s (series p ++ series q) ->
       values s = map (series_sample ci (key s)) (kept_rows after_header)) /\
    List.length (time_of h p) = List.length (filter is_kept after_header) /\
    (forall rows, kept_rows (None :: rows) = kept_rows rows) /\
    (forall rows, kept_rows (Some [] :: rows) = kept_rows rows) /\
    (forall c cs rows, kept_rows (Some (c :: cs) :: rows) = (c :: cs) :: kept_rows rows) /\
    (forall r k, Forall (fun c => c = VNull) r ->
       time_sample ti r = nan /\ series_sample ci k r = nan).
Proof.
  intros Hsel Hne hdr ci ti after_header.
  rewrite (parse_selected buf name tbl Hsel Hne), extract_closed_form.
  fold hdr ci ti after_header.
  do 4 eexists. split; [reflexivity|].
  unfold time_of; cbn [time series Heap.deref nth].
  split; [reflexivity|]. split.
  { intros s Hin. apply in_app_or in Hin.
    destruct Hin as [Hin|Hin]; apply in_map_iff in Hin as (lk & <- & _); reflexivity. }
  split; [now rewrite length_map, kept_rows_length|].
  do 3 (split; [reflexivity|]).
  intros r k Hr. unfold time_sample, series_sample.
  split.
  - destruct (0 <=? ti)%Z; [rewrite toNumber_blank by exact Hr|]; reflexivity.
  - destruct (0 <=? _)%Z; [rewrite toNumber_blank by exact Hr|]; reflexivity.
Qed.

(** ** The column resolver *)

Lemma aliases_are_truthy (key alias : string) :
  JsMap.get HEADER_ALIASES key = Some alias -> JsString.truthy alias = true.
Proof.
  unfold HEADER_ALIASES, JsMap.get.
  repeat match goal with
         | |- context [String.eqb ?a key] =>
             destruct (String.eqb a key); [intros E; injection E as <-; reflexivity|]
         end.
  discriminate.
Qed.

Lemma first_stripped_match_found (before after : JsMap.t Z) (h : string) (i : Z)
    (key : string) :
  JsString.strip_spaces h = JsString.strip_spaces key ->
  (forall h' i', In (h', i') before ->
                 JsString.strip_spaces h' <> JsString.strip_spaces key) ->
  first_stripped_match (before ++ (h, i) :: after) key = Some i.
Proof.
  intros Hh. induction before as [|[h' i'] before IH]; intros Hb; simpl.
  - rewrite Hh. now rewrite String.eqb_refl.
  - destruct (String.eqb_spec (JsString.strip_spaces h') (JsString.strip_spaces key)) as [E|_].
    + exfalso. apply (Hb h' i'); [now left|exact E].
    + apply IH. intros h'' i'' Hin. apply (Hb h'' i''). now right.
Qed.

Lemma first_stripped_match_none (colIndex : JsMap.t Z) (key : string) :
  (forall h i, In (h, i) colIndex ->
               JsString.strip_spaces h <> JsString.strip_spaces key) ->
  first_stripped_match colIndex key = None.
Proof.
  induction colIndex as [|[h i] m IH]; intros Hm; simpl; auto.
  destruct (String.eqb_spec (JsString.strip_spaces h) (JsString.strip_spaces key)) as [E|_].
  - exfalso. apply (Hm h i); [now left|exact E].
  - apply IH. intros h' i' Hin. apply (Hm h' i'). now right.
Qed.

Lemma alias_lookup_none (colIndex : JsMap.t Z) (key : string) :
  (forall alias, JsMap.get HEADER_ALIASES key = Some alias ->
                 JsMap.get colIndex alias = None) ->
  alias_lookup colIndex key = None.
Proof.
  intros Ha. unfold alias_lookup.
  destruct (JsMap.get HEADER_ALIASES key) as [alias|]; auto.
  rewrite (Ha alias eq_refl). now destruct (JsString.truthy alias).
Qed.

(** C3. The resolver has three tiers. A key that is in the column index
    resolves to its own position. Otherwise, a key whose alias is in the
    column index resolves to the position of the alias. Otherwise it
    resolves to the position of the first entry of the column index, in the
    order of the map, whose header without white space equals the key
    without white space. When no tier matches the result is -1. *)
Theorem resolver_three_tiers (colIndex : JsMap.t Z) (key : string) :
  (forall i,
      JsMap.get colIndex key = Some i ->
      getColIndexWithAliases colIndex key = i) /\
  (forall alias i,
      JsMap.get colIndex key = None ->
      JsMap.get HEADER_ALIASES key = Some alias ->
      JsMap.get colIndex alias = Some i ->
      getColIndexWithAliases colIndex key = i) /\
  (forall before h i after,
      JsMap.get colIndex key = None ->
      (forall alias, JsMap.get HEADER_ALIASES key = Some alias ->
                     JsMap.get colIndex alias = None) ->
      colIndex = before ++ (h, i) :: after ->
      JsString.strip_spaces h = JsString.strip_spaces key ->
      (forall h' i', In (h', i') before ->
                     JsString.strip_spaces h' <> JsString.strip_spaces key) ->
      getColIndexWithAliases colIndex key = i) /\
  (JsMap.get colIndex key = None ->
   (forall alias, JsMap.get HEADER_ALIASES key = Some alias ->
                  JsMap.get colIndex alias = None) ->
   (forall h i, In (h, i) colIndex ->
                JsString.strip_spaces h <> JsString.strip_spaces key) ->
   getColIndexWithAliases colIndex key = (-1)%Z).
Proof.
  unfold getColIndexWithAliases.
  split; [|split; [|split]].
  - intros i Hk. now rewrite Hk.
  - intros alias i Hk Ha Hi. rewrite Hk. unfold alias_lookup.
    now rewrite Ha, (aliases_are_truthy key alias Ha), Hi.
  - intros before h i after Hk Ha -> Hh Hb.
    rewrite Hk, (alias_lookup_none _ key Ha).
    now rewrite (first_stripped_match_found before after h i key Hh Hb).
  - intros Hk Ha Hm.
    rewrite Hk, (alias_lookup_none _ key Ha).
    now rewrite (first_stripped_match_none colIndex key Hm).
Qed.

(** ** Numbers *)

Lemma SFcompare_finite_refl (s : bool) (m : positive) (e : Z) :
  SFcompare (S754_finite s m e) (S754_finite s m e) = Some Eq.
Proof.
  simpl. destruct s; rewrite Z.compare_refl, Pos.compare_cont_refl; reflexivity.
Qed.

(** A number above 50 that is not finite is [Infinity]. *)
Lemma above_50_not_finite (n : float) :
  PrimFloat.is_finite n = false -> (50 <? n)%float = true -> n = infinity.
Proof.
  intros Hfin H50.
  rewrite ltb_spec in H50.
  unfold PrimFloat.is_finite, PrimFloat.is_nan, PrimFloat.is_infinity in Hfin.
  rewrite !eqb_spec, abs_spec in Hfin.
  rewrite <- (SF2Prim_Prim2SF n).
  destruct (Prim2SF n) as [s|s| |s m e].
  - discriminate Hfin.
  - destruct s; [discriminate H50|reflexivity].
  - discriminate H50.
  - unfold SFeqb in Hfin. rewrite SFcompare_finite_refl in Hfin. discriminate Hfin.
Qed.

Lemma infinity_in_seconds : (infinity / 1000)%float = infinity.
Proof. reflexivity. Qed.

(** ** The generic row normaliser: seconds and milliseconds *)

Lemma present_property_name (a : option string) :
  present a = true -> a = Some (property_name a).
Proof. destruct a; [reflexivity|discriminate]. Qed.

Lemma get_set_other {V : Type} (m : JsMap.t V) (k k' : string) (v : V) :
  k <> k' -> JsMap.get (JsMap.set m k v) k' = JsMap.get m k'.
Proof.
  intros Hk. induction m as [|[k0 v0] m IH]; simpl.
  - destruct (String.eqb_spec k k'); [contradiction|reflexivity].
  - destruct (String.eqb_spec k0 k) as [->|Hk0]; simpl.
    + destruct (String.eqb_spec k k'); [contradiction|reflexivity].
    + now rewrite IH.
Qed.

Lemma get_assign_other {V : Type} (m : JsMap.t V) (k k' : string) (v : V) :
  k <> k' -> JsMap.get (Obj.set m k v) k' = JsMap.get m k'.
Proof.
  intros Hk. unfold Obj.set.
  destruct (String.eqb k "__proto__"); [reflexivity|now apply get_set_other].
Qed.

(** The copying loop leaves [row.t] alone unless a column other than the
    time key is itself named [t]. *)
Lemma normalize_row_t (rowsRaw : list Obj.t) (fpsGuess : float) (r : Obj.t) :
  (In "t" (keys rowsRaw) -> timeKey rowsRaw = Some "t") ->
  JsMap.get (normalize_row rowsRaw fpsGuess r) "t" = Some (tSec rowsRaw fpsGuess r).
Proof.
  intros Ht. unfold normalize_row.
  assert (Hinit : JsMap.get (Obj.set [] "t" (tSec rowsRaw fpsGuess r)) "t"
                  = Some (tSec rowsRaw fpsGuess r)) by reflexivity.
  revert Ht Hinit.
  generalize (Obj.set [] "t" (tSec rowsRaw fpsGuess r)) as out.
  generalize (tSec rowsRaw fpsGuess r) as x.
  induction (keys rowsRaw) as [|k ks IH]; intros x out Ht Hout; simpl; auto.
  apply IH; [intros Hin; apply Ht; now right|].
  destruct (String.eqb_spec k "t") as [->|Hk].
  - rewrite (Ht (or_introl eq_refl)). exact Hout.
  - destruct (_ || _); auto.
    destruct (PrimFloat.is_finite _); auto.
    now rewrite get_assign_other.
Qed.

Lemma finite_column_of_cells (rows : list Obj.t) (k : string) :
  finite_column rows k =
  filter PrimFloat.is_finite (map Number_any (map (fun r => Obj.get r k) rows)).
Proof.
  unfold finite_column. rewrite map_map.
  apply f_equal, map_ext. intros r. now destruct (Obj.get r k).
Qed.

(** The time branch as the code has it. When a time key exists, the time
    of a row is its parsed time divided by 1000 if a millisecond-marker key
    is present or if the parsed time exceeds 50 and [averageDelta] of the
    time column exceeds 10, and is the parsed time itself otherwise; this is
    the value stored at [t] unless another column is itself named [t]. A
    time column 0, 120, 240, 360 without a millisecond-marker key gives the
    times 0, 0.12, 0.24, 0.36. *)
Theorem time_in_milliseconds (rowsRaw : list Obj.t) (fpsGuess : float) :
  present (timeKey rowsRaw) = true ->
  let tk := property_name (timeKey rowsRaw) in
  (forall r,
      let n := num (Obj.get r tk) in
      tSec rowsRaw fpsGuess r =
      if present (msKey rowsRaw)
         || ((50 <? n)%float && (10 <? averageDelta rowsRaw tk)%float)
      then (n / 1000)%float else n) /\
  (forall r,
      (In "t" (keys rowsRaw) -> tk = "t") ->
      JsMap.get (normalize_row rowsRaw fpsGuess r) "t" = Some (tSec rowsRaw fpsGuess r)) /\
  (present (msKey rowsRaw) = false ->
   map (fun r => Obj.get r tk) rowsRaw = [VNum 0; VNum 120; VNum 240; VNum 360] ->
   map (tSec rowsRaw fpsGuess) rowsRaw = [0; 0.12; 0.24; 0.36]%float).
Proof.
  intros Hp tk.
  assert (Hgeneral : forall r,
             tSec rowsRaw fpsGuess r =
             if present (msKey rowsRaw)
                || ((50 <? num (Obj.get r tk))%float
                    && (10 <? averageDelta rowsRaw tk)%float)
             then (num (Obj.get r tk) / 1000)%float else num (Obj.get r tk)).
  { intros r. unfold tSec. rewrite Hp. fold tk. unfold looksMs.
    destruct (present (msKey rowsRaw)); [reflexivity|]. simpl orb.
    destruct (PrimFloat.is_finite (num (Obj.get r tk))) eqn:Hfin; [reflexivity|].
    simpl andb.
    destruct (50 <? num (Obj.get r tk))%float eqn:H50; [|reflexivity].
    rewrite (above_50_not_finite _ Hfin H50).
    destruct (10 <? averageDelta rowsRaw tk)%float; reflexivity. }
  split; [exact Hgeneral|]. split.
  - intros r Ht. apply normalize_row_t.
    intros Hin. rewrite (present_property_name _ Hp). fold tk. now rewrite (Ht Hin).
  - intros Hms Hcol.
    assert (Havg : averageDelta rowsRaw tk = 120%float).
    { unfold averageDelta. rewrite finite_column_of_cells, Hcol. reflexivity. }
    rewrite (map_ext _ _ Hgeneral), Hms, Havg.
    rewrite <- (map_map (fun r => Obj.get r tk)
                  (fun v => if false || ((50 <? num v)%float && (10 <? 120)%float)
                            then (num v / 1000)%float else num v)).
    rewrite Hcol. reflexivity.
Qed.

(** C6. On the sheet [comma_grid], whose [Time] column holds the texts
    1,000 2,000 and 3,000, there is a time key and no millisecond-marker
    key, the parsed times 1000, 2000 and 3000 all exceed 50 and their mean
    absolute successive difference is 1000, above 10; yet the times computed
    are 1000, 2000 and 3000, not 1, 2 and 3: [averageDelta] reads the cells
    again with [Number], which gives [NaN] on a text with a comma, where
    [num] strips the commas first. The same times as numbers, and the same
    texts beside a millisecond-marker column, are divided by 1000. *)
Theorem comma_times_are_not_rescaled :
  map Number_of_string ["1000"; "2000"; "3000"] = [1000; 2000; 3000]%float ->
  map Number_of_string ["1,000"; "2,000"; "3,000"] = [nan; nan; nan] ->
  detectHeaderAndExtract comma_grid = (["Time"; "x"], map Some comma_rows) /\
  let rowsRaw := toObjects ["Time"; "x"] comma_rows in
  timeKey rowsRaw = Some "Time" /\
  msKey rowsRaw = None /\
  map (fun r => num (Obj.get r "Time")) rowsRaw = [1000; 2000; 3000]%float /\
  map (PrimFloat.ltb 50) [1000; 2000; 3000]%float = [true; true; true] /\
  (10 <? (PrimFloat.abs (2000 - 1000) + PrimFloat.abs (3000 - 2000)) / 2)%float = true /\
  averageDelta rowsRaw "Time" = nan /\
  normalizeSheet rowsRaw 120 =
  [ [("t", 1000); ("x", 1)]; [("t", 2000); ("x", 2)]; [("t", 3000); ("x", 3)] ]%float /\
  normalizeSheet (toObjects ["Time"; "x"] plain_rows) 120 =
  [ [("t", 1); ("x", 1)]; [("t", 2); ("x", 2)]; [("t", 3); ("x", 3)] ]%float /\
  normalizeSheet (toObjects ["Time"; "ms"; "x"] marked_rows) 120 =
  [ [("t", 1); ("x", 1)]; [("t", 2); ("x", 2)]; [("t", 3); ("x", 3)] ]%float.
Proof.
  intros Hplain Hcomma.
  cbn [map] in Hplain, Hcomma.
  injection Hplain as P1 P2 P3. injection Hcomma as C1 C2 C3.
  split; [reflexivity|]. cbv zeta.
  split; [reflexivity|]. split; [reflexivity|].
  assert (Hnum : map (fun r => num (Obj.get r "Time")) (toObjects ["Time"; "x"] comma_rows)
                 = [1000; 2000; 3000]%float).
  { cbv. rewrite P1, P2, P3. reflexivity. }
  split; [exact Hnum|]. split; [reflexivity|]. split; [reflexivity|].
  assert (Havg : averageDelta (toObjects ["Time"; "x"] comma_rows) "Time" = nan).
  { cbv. rewrite C1, C2, C3. reflexivity. }
  split; [exact Havg|]. split; [|split].
  - cbv. rewrite P1, P2, P3, C1, C2, C3. reflexivity.
  - reflexivity.
  - cbv. rewrite P1, P2, P3. reflexivity.
Qed.

(** ** The generic row normaliser: timestamps *)


(** C7. On the sheet [epoch_grid], whose only time-like column is
    [Timestamp] with the values 1700000000000 and 1700000000500, there is no
    [t]/[time] key and no frame key; the times computed are 1700000000 and
    1700000000.5, the cells divided by 1000 by the millisecond heuristic,
    and not 0 and 0.5, the offsets from the first timestamp. *)
Theorem timestamp_offset_not_subtracted :
  detectHeaderAndExtract epoch_grid = (["Timestamp"; "x"], map Some epoch_rows) /\
  let rowsRaw := toObjects ["Timestamp"; "x"] epoch_rows in
  find Re.t_or_time (keys rowsRaw) = None /\
  frameKey rowsRaw = None /\
  existsb Re.has_timestamp (keys rowsRaw) = true /\
  normalizeSheet rowsRaw 120 =
  [ [("t", 1700000000%float); ("x", 1%float)];
    [("t", 1700000000.5%float); ("x", 2%float)] ].
Proof.
  repeat split.
Qed.

(** ** The generic header detector *)

(** The rows the detector scans, and their scores. *)
Lemma scan_best_spec (rows : table) (i b : nat) (s : Z) :
  let scores := map (fun r => row_score (row_or_empty r)) rows in
  (Forall (fun x => (x <= s)%Z) scores -> scan_best rows i (b, s) = (b, s)) /\
  (forall j,
      j < List.length scores ->
      (s < nth j scores 0)%Z ->
      (forall j', j' < j -> (nth j' scores 0 < nth j scores 0)%Z) ->
      (forall j', j' < List.length scores -> (nth j' scores 0 <= nth j scores 0)%Z) ->
      scan_best rows i (b, s) = (i + j, nth j scores 0%Z)).
Proof.
  revert i b s. induction rows as [|r rows IH]; intros i b s scores.
  - split; [reflexivity|]. intros j Hj. simpl in Hj. lia.
  - subst scores. cbn [map scan_best snd].
    set (x := row_score (row_or_empty r)).
    set (scores := map (fun r0 => row_score (row_or_empty r0)) rows).
    split.
    + intros Hall. apply Forall_cons_iff in Hall as [Hx Hall].
      destruct (Z.ltb_spec s x) as [Hlt|_]; [lia|].
      now apply (IH (S i) b s).
    + intros [|j] Hj Hs Hfirst Hmax; cbn [nth List.length] in *.
      * destruct (Z.ltb_spec s x) as [_|Hge]; [|lia].
        replace (i + 0) with i by lia.
        apply (IH (S i) i x). apply Forall_forall. intros y Hy.
        apply (In_nth _ _ 0%Z) in Hy as (k & Hk & <-).
        apply (Hmax (S k)). fold scores in Hk. lia.
      * assert (Hx : (x < nth j scores 0)%Z) by (apply (Hfirst 0); lia).
        replace (i + S j) with (S i + j) by lia.
        assert (Hfirst' : forall j', j' < j -> (nth j' scores 0 < nth j scores 0)%Z).
        { intros j' Hj'. apply (Hfirst (S j')). lia. }
        assert (Hmax' : forall j', j' < List.length scores ->
                                   (nth j' scores 0 <= nth j scores 0)%Z).
        { intros j' Hj'. apply (Hmax (S j')). lia. }
        assert (Hj' : j < List.length scores) by (simpl in Hj; lia).
        destruct (Z.ltb_spec s x) as [_|_].
        -- apply (IH (S i) i x); [exact Hj'|exact Hx|exact Hfirst'|exact Hmax'].
        -- apply (IH (S i) b s); [exact Hj'|exact Hs|exact Hfirst'|exact Hmax'].
Qed.

(** The detector selects the first row of greatest score among the rows it
    scans when that score is at least 0, and row 0 when every score is
    negative. *)
Lemma bestIdx_spec (tbl : table) :
  let scanned := firstn (Nat.min (List.length tbl) 20) tbl in
  let scores := map (fun r => row_score (row_or_empty r)) scanned in
  (Forall (fun x => (x < 0)%Z) scores -> bestIdx tbl = 0) /\
  (forall j,
      j < List.length scores ->
      (0 <= nth j scores 0)%Z ->
      (forall j', j' < j -> (nth j' scores 0 < nth j scores 0)%Z) ->
      (forall j', j' < List.length scores -> (nth j' scores 0 <= nth j scores 0)%Z) ->
      bestIdx tbl = j).
Proof.
  intros scanned scores. unfold bestIdx. fold scanned.
  destruct (scan_best_spec scanned 0 0 (-1)) as [Hnone Hsome]. fold scores in Hnone, Hsome.
  split.
  - intros Hall. rewrite Hnone; [reflexivity|].
    eapply Forall_impl; [|exact Hall]. simpl. intros; lia.
  - intros j Hj Hpos Hfirst Hmax.
    rewrite (Hsome j Hj); [reflexivity|lia|exact Hfirst|exact Hmax].
Qed.

(** C4. On the sheet [title_grid] the rows score -3, -2, -3 and -3, so the
    row with the greatest score is row 1, the header [Speed]; the detector
    selects row 0, because no score exceeds the initial best score -1: the
    headers are those of the year cell and [Speed] becomes a data row. *)
Theorem best_score_floor :
  map (fun r => row_score (row_or_empty r)) title_grid = [-3; -2; -3; -3]%Z /\
  bestIdx title_grid = 0 /\
  detectHeaderAndExtract title_grid =
  (clean_headers [Number_toString 2024],
   [Some [VStr "Speed"]; Some [VNum 1]; Some [VNum 2]]).
Proof.
  repeat split.
Qed.

(** ** Header cleanup *)

(** C8. On the header row [a], [a], [a (2)] the cleanup returns [a],
    [a (2)], [a (2)]: the suffixed duplicate collides with the third label,
    and the objects built over these headers lose the second column. *)
Theorem suffix_collision :
  detectHeaderAndExtract suffixed_grid = (["a"; "a (2)"; "a (2)"], map Some suffixed_rows) /\
  clean_headers ["a"; "a"; "a (2)"] = ["a"; "a (2)"; "a (2)"] /\
  ~ NoDup (filter JsString.truthy (clean_headers ["a"; "a"; "a (2)"])) /\
  toObjects ["a"; "a (2)"; "a (2)"] suffixed_rows = [ [("a", VNum 1); ("a (2)", VNum 3)] ].
Proof.
  split; [reflexivity|]. split; [reflexivity|]. split; [|reflexivity].
  intros Hnd. apply NoDup_cons_iff in Hnd as [_ Hnd].
  apply NoDup_cons_iff in Hnd as [Hnotin _]. apply Hnotin. now left.
Qed.

End Excel.

(** * A sample run time and sample workbooks *)

Module Sample.

(** A buffer that decodes lists its sheets by name; a sheet can be listed
    yet missing, fail to convert, or convert to its grid. A buffer that does
    not decode makes [read] throw. *)
Definition error : Type := string.
Definition worksheet : Type := Exc.t error table.
Definition buffer : Type := option (JsMap.t (option worksheet)).
Definition file : Type := Exc.t error buffer.

Definition error_text (err : error) : string := err.

Definition read (buf : buffer) : Exc.t error (workbook worksheet) :=
  match buf with
  | Some sheets =>
      inr (mkWorkbook worksheet (JsMap.keys sheets)
             (fun n => match JsMap.get sheets n with Some ws => ws | None => None end))
  | None => inl "File is not a workbook."
  end.

Definition sheet_to_json (ws : worksheet) : Exc.t error table := ws.
Definition arrayBuffer (f : file) : Exc.t error buffer := f.

(** [Number] on the strings of decimal digits and on the empty string;
    the samples hold no other numeric text. *)
Definition Number_of_string (s : string) : float :=
  match s with
  | EmptyString => 0
  | _ =>
      match Obj.digits s 0 with
      | Some n => PrimFloat.of_uint63 (Uint63.of_Z (Z.of_N n))
      | None => nan
      end
  end.

(** The samples print no number and parse no date. *)
Definition Number_toString (x : float) : string := "0".
Definition Date_parse (s : string) : float := nan.

Definition parse : buffer -> Exc.t error NeededParseResult :=
  parseWorkbookToNeededMetrics Number_of_string Number_toString
    buffer worksheet error error_text read sheet_to_json.

Definition parse_file : file -> Exc.t error NeededParseResult :=
  parseExcelToNeededMetrics Number_of_string Number_toString
    buffer worksheet error file error_text read sheet_to_json arrayBuffer.

Definition selected : buffer -> string -> table -> Prop :=
  selected_grid buffer worksheet error read sheet_to_json.

(** The scenario of the specification, with a row without cells, a missing
    row and a row of [null] cells added between the two samples. *)
Definition scenario_grid : table :=
  [ Some [VStr "Name"];
    Some [VStr "Time"; VStr "/Calc/Pelvis/Twist/Velocity_x"];
    Some [VNum 0; VNum 1.5];
    Some [];
    None;
    Some [VNull; VNull];
    Some [VNum 1; VNum 2.5] ].

Definition scenario_buffer : buffer :=
  Some [ ("Notes", Some (inr [])); ("Baseball Data", Some (inr scenario_grid)) ].

(** A sheet with one metric column and no time column. *)
Definition untimed_grid : table :=
  [ Some [VStr "/Calc/Pelvis/Twist/Velocity_x"]; Some [VNum 1.5]; Some [VNum 2.5] ].

Definition untimed_buffer : buffer := Some [ ("Sheet1", Some (inr untimed_grid)) ].

(** Buffers for the failures. *)
Definition no_sheets_buffer : buffer := Some [].
Definition unreadable_buffer : buffer := Some [ ("Sheet1", None) ].
Definition no_rows_buffer : buffer := Some [ ("Sheet1", Some (inr [])) ].
Definition broken_sheet_buffer : buffer := Some [ ("Sheet1", Some (inl "Bad range")) ].

(** What the parse of the scenario returns, part by part. *)
Definition scenario_heap : Heap.t :=
  Eval vm_compute in
    match parse scenario_buffer with inr (Ok h _ _ _) => h | _ => [] end.

Definition scenario_pitcher : NeededMetrics :=
  Eval vm_compute in
    match parse scenario_buffer with
    | inr (Ok _ p _ _) => p
    | _ => mkNeededMetrics 0 []
    end.

Definition scenario_hitter : NeededMetrics :=
  Eval vm_compute in
    match parse scenario_buffer with
    | inr (Ok _ _ q _) => q
    | _ => mkNeededMetrics 0 []
    end.

Definition scenario_warnings : list string :=
  Eval vm_compute in
    match parse scenario_buffer with inr (Ok _ _ _ w) => w | _ => [] end.

(** Objects of a sheet with a [Time] column in milliseconds. *)
Definition millisecond_rows : list Obj.t :=
  toObjects ["Time"; "x"]
    [ [VNum 0; VNum 5]; [VNum 120; VNum 6]; [VNum 240; VNum 7]; [VNum 360; VNum 8] ].

End Sample.

(** * The properties on the samples *)

Example trim_ex : JsString.trim "  Time " = "Time".
Proof. reflexivity. Qed.

Example regexes_ex :
  Re.has_baseball_data "My Baseball  Data" = true /\
  Re.has_ms "Arms" = true /\
  Re.frame_s "FRAMES" = true /\
  Re.t_or_time "times" = false.
Proof. repeat split. Qed.

Example of_nat_ex : JsString.of_nat 0 = "0" /\ JsString.of_nat 12 = "12".
Proof. split; reflexivity. Qed.

Example object_keys_ex :
  Obj.keys [("b", VNull); ("10", VNull); ("a", VNull); ("2", VNull); ("01", VNull)]
  = ["2"; "10"; "b"; "a"; "01"].
Proof. reflexivity. Qed.

(** The scenario of the specification: the pitcher's series for the pelvis
    twist velocity and the time array, [NaN] standing for the row of [null]
    cells. *)
Example scenario_ex :
  Sample.parse Sample.scenario_buffer =
  inr (Ok Sample.scenario_heap Sample.scenario_pitcher Sample.scenario_hitter
         Sample.scenario_warnings) /\
  time_of Sample.scenario_heap Sample.scenario_pitcher = [0; nan; 1]%float /\
  hd_error (series Sample.scenario_pitcher) =
  Some (mkSeries "Pelvis Twist Velocity" "/Calc/Pelvis/Twist/Velocity_x"
          [1.5; nan; 2.5]%float).
Proof. repeat split. Qed.

Lemma scenario_selected :
  Sample.selected Sample.scenario_buffer "Baseball Data" Sample.scenario_grid.
Proof.
  eexists. exists (inr Sample.scenario_grid).
  split; [reflexivity|]. repeat split.
Defined.

Lemma untimed_selected :
  Sample.selected Sample.untimed_buffer "Sheet1" Sample.untimed_grid.
Proof.
  eexists. exists (inr Sample.untimed_grid).
  split; [reflexivity|]. repeat split.
Defined.

(** C1 on the scenario: the parse succeeds and both roles read the same
    time sequence. *)
Lemma time_and_values_aligned_witness :
  Sample.parse Sample.scenario_buffer =
  inr (Ok Sample.scenario_heap Sample.scenario_pitcher Sample.scenario_hitter
         Sample.scenario_warnings) /\
  (forall s, In s (series Sample.scenario_pitcher) ->
             List.length (values s)
             = List.length (time_of Sample.scenario_heap Sample.scenario_pitcher)) /\
  time_of Sample.scenario_heap Sample.scenario_pitcher
  = time_of Sample.scenario_heap Sample.scenario_hitter.
Proof.
  assert (E : Sample.parse Sample.scenario_buffer =
              inr (Ok Sample.scenario_heap Sample.scenario_pitcher
                     Sample.scenario_hitter Sample.scenario_warnings))
    by (vm_compute; reflexivity).
  split; [exact E|].
  destruct (time_and_values_aligned _ _ _ _ _ _ _ _ _ _ _ _ _ E)
    as (Hp & _ & _ & Htime & _).
  split; [exact Hp|exact Htime].
Defined.

(** C2 on the sample buffers, one failure each. *)
Lemma failures_are_structured_witness :
  Sample.parse Sample.no_sheets_buffer = inr (Fail "No sheets found in workbook." []) /\
  Sample.parse Sample.unreadable_buffer
  = inr (Fail "Sheet 'Sheet1' is empty or unreadable." []) /\
  Sample.parse Sample.no_rows_buffer = inr (Fail "Sheet 'Sheet1' has no data." []) /\
  Sample.parse None = inr (Fail "File is not a workbook." []) /\
  Sample.parse Sample.broken_sheet_buffer = inr (Fail "Bad range" []) /\
  Sample.parse_file (inl "File not readable") = inr (Fail "File not readable" []).
Proof.
  destruct (failures_are_structured Sample.Number_of_string Sample.Number_toString
              Sample.buffer Sample.worksheet Sample.error Sample.file
              Sample.error_text Sample.read Sample.sheet_to_json Sample.arrayBuffer)
    as (_ & _ & Hnone & Hunreadable & Hempty & Hread & Hsheet & Hfile & _).
  unfold Sample.parse, Sample.parse_file.
  split; [eapply Hnone; reflexivity|].
  split.
  { exact (Hunreadable Sample.unreadable_buffer _ "Sheet1"
             eq_refl eq_refl eq_refl eq_refl). }
  split.
  { apply (Hempty Sample.no_rows_buffer "Sheet1").
    eexists. exists (inr []). split; [reflexivity|]. repeat split. }
  split; [apply (Hread None "File is not a workbook."); reflexivity|].
  split.
  { eapply (Hsheet Sample.broken_sheet_buffer _ "Sheet1" (inl "Bad range") "Bad range");
      reflexivity. }
  apply (Hfile (inl "File not readable") "File not readable"). reflexivity.
Defined.

(** C3 on four lookups, one for each tier and one that finds nothing. *)
Lemma resolver_three_tiers_witness :
  getColIndexWithAliases [("Time", 0%Z); ("a b", 1%Z)] "Time" = 0%Z /\
  getColIndexWithAliases
    [("Time", 0%Z); ("/Calc/Knee/Lead/FlexionExtension_x", 4%Z)]
    "/Calc/Knee/Lead/Flexion/Extension_x" = 4%Z /\
  getColIndexWithAliases [("x", 0%Z); ("a b", 2%Z); ("ab", 1%Z)] "a  b" = 2%Z /\
  getColIndexWithAliases [("x", 0%Z)] "y" = (-1)%Z.
Proof.
  split; [|split; [|split]].
  - apply (proj1 (resolver_three_tiers [("Time", 0%Z); ("a b", 1%Z)] "Time")).
    reflexivity.
  - apply (proj1 (proj2 (resolver_three_tiers
                           [("Time", 0%Z); ("/Calc/Knee/Lead/FlexionExtension_x", 4%Z)]
                           "/Calc/Knee/Lead/Flexion/Extension_x"))
             "/Calc/Knee/Lead/FlexionExtension_x"); reflexivity.
  - apply (proj1 (proj2 (proj2 (resolver_three_tiers
                                  [("x", 0%Z); ("a b", 2%Z); ("ab", 1%Z)] "a  b")))
             [("x", 0%Z)] "a b" 2%Z [("ab", 1%Z)]); try reflexivity.
    + intros alias E. discriminate E.
    + intros h' i' [E|[]]. injection E as <- <-. discriminate.
  - apply (proj2 (proj2 (proj2 (resolver_three_tiers [("x", 0%Z)] "y")))).
    + reflexivity.
    + intros alias E. discriminate E.
    + intros h i [E|[]]. injection E as <- <-. discriminate.
Defined.

(** C5 on the sheet without a time column. *)
Lemma missing_time_is_not_fatal_witness :
  Sample.selected Sample.untimed_buffer "Sheet1" Sample.untimed_grid /\
  exists h p q w,
    Sample.parse Sample.untimed_buffer = inr (Ok h p q w) /\
    In "Could not find 'Time' column; times will be NaN." w /\
    Forall (fun t => t = nan) (time_of h p) /\
    Forall (fun t => t = nan) (time_of h q).
Proof.
  split; [exact untimed_selected|].
  apply (missing_time_is_not_fatal _ _ _ _ _ _ _ _ _ _ _ untimed_selected).
  - discriminate.
  - reflexivity.
Defined.

(** The time branch on the sheet with times in milliseconds. *)
Lemma time_in_milliseconds_witness :
  present (timeKey Sample.millisecond_rows) = true /\
  map (tSec Sample.Number_of_string Sample.Number_toString Sample.Date_parse
         Sample.millisecond_rows 120)
      Sample.millisecond_rows
  = [0; 0.12; 0.24; 0.36]%float /\
  normalizeSheet Sample.Number_of_string Sample.Number_toString Sample.Date_parse
    Sample.millisecond_rows 120
  = [ [("t", 0); ("x", 5)]; [("t", 0.12); ("x", 6)];
      [("t", 0.24); ("x", 7)]; [("t", 0.36); ("x", 8)] ]%float.
Proof.
  split; [reflexivity|]. split; [|reflexivity].
  apply (time_in_milliseconds Sample.Number_of_string Sample.Number_toString
           Sample.Date_parse Sample.millisecond_rows 120 eq_refl);
    reflexivity.
Defined.

(** C6 with the sample [Number], which reads the decimal digits and gives
    [NaN] on a text with a comma. *)
Lemma comma_times_are_not_rescaled_witness :
  map Sample.Number_of_string ["1000"; "2000"; "3000"] = [1000; 2000; 3000]%float /\
  map Sample.Number_of_string ["1,000"; "2,000"; "3,000"] = [nan; nan; nan] /\
  normalizeSheet Sample.Number_of_string Sample.Number_toString Sample.Date_parse
    (toObjects ["Time"; "x"] comma_rows) 120
  = [ [("t", 1000); ("x", 1)]; [("t", 2000); ("x", 2)]; [("t", 3000); ("x", 3)] ]%float.
Proof.
  split; [reflexivity|]. split; [reflexivity|].
  destruct (comma_times_are_not_rescaled Sample.Number_of_string Sample.Number_toString
              Sample.Date_parse eq_refl eq_refl)
    as (_ & _ & _ & _ & _ & _ & _ & Hrows & _).
  exact Hrows.
Defined.

(** C9 on the scenario. *)
Lemma no_metrics_failure_unreachable_witness :
  Sample.selected Sample.scenario_buffer "Baseball Data" Sample.scenario_grid /\
  exists h p q w,
    Sample.parse Sample.scenario_buffer = inr (Ok h p q w) /\
    List.length (series p) = 14 /\ List.length (series q) = 14.
Proof.
  split; [exact scenario_selected|].
  apply (no_metrics_failure_unreachable Sample.Number_of_string Sample.Number_toString
           Sample.buffer Sample.worksheet Sample.error Sample.error_text Sample.read
           Sample.sheet_to_json _ _ _ scenario_selected).
  discriminate.
Defined.

(** C10 on the scenario: of the five rows after the header, three are kept. *)
Lemma empty_rows_are_skipped_witness :
  Sample.selected Sample.scenario_buffer "Baseball Data" Sample.scenario_grid /\
  exists h p q w,
    Sample.parse Sample.scenario_buffer = inr (Ok h p q w) /\
    List.length (time_of h p) = 3.
Proof.
  split; [exact scenario_selected|].
  destruct (empty_rows_are_skipped Sample.Number_of_string Sample.Number_toString
              Sample.buffer Sample.worksheet Sample.error Sample.error_text Sample.read
              Sample.sheet_to_json _ _ _ scenario_selected)
    as (h & p & q & w & Hparse & _ & _ & Hlen & _).
  - discriminate.
  - exists h, p, q, w. split; [exact Hparse|]. rewrite Hlen. reflexivity.
Defined.

(** * Further properties of the module *)

(** ** Maps *)

Lemma get_set_same {V : Type} (m : JsMap.t V) (k : string) (v : V) :
  JsMap.get (JsMap.set m k v) k = Some v.
Proof.
  induction m as [|[k0 v0] m IH]; simpl.
  - now rewrite String.eqb_refl.
  - destruct (String.eqb_spec k0 k) as [->|Hk]; simpl.
    + now rewrite String.eqb_refl.
    + destruct (String.eqb_spec k0 k); [contradiction|exact IH].
Qed.

Lemma in_set {V : Type} (m : JsMap.t V) (k k' : string) (v v' : V) :
  In (k', v') (JsMap.set m k v) -> (k', v') = (k, v) \/ In (k', v') m.
Proof.
  induction m as [|[k0 v0] m IH]; simpl.
  - intros [E|[]]. left. now symmetry.
  - destruct (String.eqb_spec k0 k) as [->|Hk]; simpl.
    + intros [E|Hin]; [left; now symmetry|right; now right].
    + intros [E|Hin]; [right; now left|].
      destruct (IH Hin) as [E|Hin']; [now left|right; now right].
Qed.

Lemma get_in {V : Type} (m : JsMap.t V) (k : string) (v : V) :
  JsMap.get m k = Some v -> In (k, v) m.
Proof.
  induction m as [|[k0 v0] m IH]; simpl; [discriminate|].
  destruct (String.eqb_spec k0 k) as [->|Hk].
  - intros E. injection E as ->. now left.
  - intros E. right. now apply IH.
Qed.

Lemma in_get_some {V : Type} (m : JsMap.t V) (k : string) (v : V) :
  In (k, v) m -> exists v', JsMap.get m k = Some v'.
Proof.
  induction m as [|[k0 v0] m IH]; simpl; [intros []|].
  intros [E|Hin].
  - injection E as -> ->. rewrite String.eqb_refl. eauto.
  - destruct (String.eqb k0 k); eauto.
Qed.

Lemma set_keeps_keys {V : Type} (m : JsMap.t V) (k k' : string) (v : V) :
  In k' (JsMap.keys m) -> In k' (JsMap.keys (JsMap.set m k v)).
Proof.
  unfold JsMap.keys.
  induction m as [|[k0 v0] m IH]; simpl; [intros []|].
  destruct (String.eqb_spec k0 k) as [->|Hk]; simpl; [auto|].
  intros [E|Hin]; [now left|right; now apply IH].
Qed.

Lemma set_adds_key {V : Type} (m : JsMap.t V) (k : string) (v : V) :
  In k (JsMap.keys (JsMap.set m k v)).
Proof.
  unfold JsMap.keys.
  induction m as [|[k0 v0] m IH]; simpl; [now left|].
  destruct (String.eqb_spec k0 k) as [->|Hk]; simpl; [now left|now right].
Qed.

(** ** The column index of a header row *)

(** The entries of the column index point at string cells of the header,
    under their trimmed label. *)
Definition labels_cell (header : row) (h : string) (i : Z) : Prop :=
  exists j h', i = Z.of_nat j /\ nth_error header j = Some (VStr h') /\ JsString.trim h' = h.

Lemma index_header_entries (before rest : row) (m : JsMap.t Z) :
  (forall h i, In (h, i) m -> labels_cell (before ++ rest) h i) ->
  forall h i, In (h, i) (index_header rest (List.length before) m) ->
              labels_cell (before ++ rest) h i.
Proof.
  revert before m. induction rest as [|c rest IH]; intros before m Hm h i; simpl.
  - apply Hm.
  - assert (Hshift : (before ++ [c]) ++ rest = before ++ c :: rest)
      by now rewrite <- app_assoc.
    assert (Hlen : List.length (before ++ [c]) = S (List.length before))
      by (rewrite length_app; simpl; lia).
    destruct c as [| |x|s|b];
      try (rewrite <- Hlen, <- Hshift; apply IH; rewrite Hshift; exact Hm).
    rewrite <- Hlen, <- Hshift. apply IH. rewrite Hshift.
    intros h0 i0 Hin. apply in_set in Hin as [E|Hin]; [|now apply Hm].
    injection E as -> ->. exists (List.length before), s.
    split; [reflexivity|]. split; [|reflexivity].
    rewrite nth_error_app2 by lia. now rewrite Nat.sub_diag.
Qed.

Lemma index_header_keeps (rest : row) (i : nat) (m : JsMap.t Z) (k : string) :
  In k (JsMap.keys m) -> In k (JsMap.keys (index_header rest i m)).
Proof.
  revert i m. induction rest as [|c rest IH]; intros i m Hk; simpl; auto.
  destruct c; auto. apply IH. now apply set_keeps_keys.
Qed.

Lemma index_header_labels (rest : row) (i : nat) (m : JsMap.t Z) (j : nat) (h : string) :
  nth_error rest j = Some (VStr h) ->
  In (JsString.trim h) (JsMap.keys (index_header rest i m)).
Proof.
  revert i m j. induction rest as [|c rest IH]; intros i m [|j] Hj; simpl in *;
    try discriminate.
  - injection Hj as ->. apply index_header_keeps, set_adds_key.
  - destruct c; eauto.
Qed.

Lemma keys_in {V : Type} (m : JsMap.t V) (k : string) :
  In k (JsMap.keys m) -> exists v, In (k, v) m.
Proof.
  unfold JsMap.keys. intros Hin. apply in_map_iff in Hin as ([k' v] & E & Hin).
  simpl in E. subst k'. eauto.
Qed.

Lemma first_stripped_match_some (m : JsMap.t Z) (key : string) (i : Z) :
  first_stripped_match m key = Some i ->
  exists h, In (h, i) m /\ JsString.strip_spaces h = JsString.strip_spaces key.
Proof.
  induction m as [|[h0 i0] m IH]; simpl; [discriminate|].
  destruct (String.eqb_spec (JsString.strip_spaces h0) (JsString.strip_spaces key)) as [E|_].
  - intros E'. injection E' as ->. exists h0. split; [now left|exact E].
  - intros E'. destruct (IH E') as (h & Hin & Hh). exists h. split; [now right|exact Hh].
Qed.

Lemma first_stripped_match_complete (m : JsMap.t Z) (key h : string) (i : Z) :
  In (h, i) m ->
  JsString.strip_spaces h = JsString.strip_spaces key ->
  exists i', first_stripped_match m key = Some i'.
Proof.
  intros Hin Hh. destruct (first_stripped_match m key) as [i'|] eqn:E; [eauto|].
  exfalso. revert Hin E. induction m as [|[h0 i0] m IH]; simpl; [intros []|].
  destruct (String.eqb_spec (JsString.strip_spaces h0) (JsString.strip_spaces key)) as [_|Hne];
    [discriminate|].
  intros [E|Hin] Hnone; [|now apply IH].
  injection E as -> ->. contradiction.
Qed.

Lemma build_colIndex_entries (header : row) (h : string) (i : Z) :
  In (h, i) (build_colIndex header) -> labels_cell header h i.
Proof.
  unfold build_colIndex. apply (index_header_entries [] header []). intros ? ? [].
Qed.

Lemma build_colIndex_has_label (header : row) (j : nat) (h : string) :
  nth_error header j = Some (VStr h) ->
  exists i, JsMap.get (build_colIndex header) (JsString.trim h) = Some i.
Proof.
  intros Hj. unfold build_colIndex.
  destruct (keys_in _ _ (index_header_labels header 0 [] j h Hj)) as [v Hin].
  exact (in_get_some _ _ _ Hin).
Qed.

Lemma resolution_cases (header : row) (key : string) :
  let i := getColIndexWithAliases (build_colIndex header) key in
  (i = (-1)%Z \/
   exists j h,
     i = Z.of_nat j /\ nth_error header j = Some (VStr h) /\
     (JsString.trim h = key \/
      JsMap.get HEADER_ALIASES key = Some (JsString.trim h) \/
      JsString.strip_spaces (JsString.trim h) = JsString.strip_spaces key)) /\
  (i = (-1)%Z <->
   forall j h,
     nth_error header j = Some (VStr h) ->
     JsString.strip_spaces (JsString.trim h) <> JsString.strip_spaces key /\
     JsMap.get HEADER_ALIASES key <> Some (JsString.trim h)).
Proof.
  set (ci := build_colIndex header). unfold getColIndexWithAliases. cbv zeta.
  assert (Hcell : forall h i, In (h, i) ci -> labels_cell header h i)
    by (intros h i; apply build_colIndex_entries).
  destruct (JsMap.get ci key) as [i|] eqn:Hk.
  { destruct (Hcell key i (get_in _ _ _ Hk)) as (j & h & -> & Hj & Hh).
    split; [right; exists j, h; auto|].
    split; [lia|]. intros Hno. destruct (Hno j h Hj) as [Hne _]. now rewrite Hh in Hne. }
  destruct (alias_lookup ci key) as [i|] eqn:Ha.
  { unfold alias_lookup in Ha.
    destruct (JsMap.get HEADER_ALIASES key) as [alias|] eqn:Hal; [|discriminate].
    destruct (JsString.truthy alias); [|discriminate].
    destruct (Hcell alias i (get_in _ _ _ Ha)) as (j & h & -> & Hj & Hh).
    split; [right; exists j, h; rewrite Hh; auto|].
    split; [lia|]. intros Hno. destruct (Hno j h Hj) as [_ Hne]. now rewrite Hh in Hne. }
  destruct (first_stripped_match ci key) as [i|] eqn:Hf.
  { destruct (first_stripped_match_some _ _ _ Hf) as (h0 & Hin & Hs).
    destruct (Hcell h0 i Hin) as (j & h & -> & Hj & Hh).
    split; [right; exists j, h; rewrite Hh; auto|].
    split; [lia|]. intros Hno. destruct (Hno j h Hj) as [Hne _]. now rewrite Hh in Hne. }
  split; [now left|]. split; [|reflexivity].
  intros _ j h Hj.
  destruct (build_colIndex_has_label header j h Hj) as [i Hi]. fold ci in Hi.
  split.
  - intros Hs.
    destruct (first_stripped_match_complete ci key _ i (get_in _ _ _ Hi) Hs) as [i' Hi'].
    congruence.
  - intros Hal. unfold alias_lookup in Ha. rewrite Hal in Ha.
    rewrite (aliases_are_truthy key _ Hal), Hi in Ha. discriminate.
Qed.

(** X1. Resolution against the column index of a header row is sound and
    complete. The result is -1 or the position of a string cell of the
    header whose trimmed label is the key, is the alias the table gives the
    key, or equals the key once white space is removed from both; and it is
    -1 exactly when no string cell of the header has such a label. *)
Theorem resolver_sound_and_complete (header : row) (key : string) :
  let i := getColIndexWithAliases (build_colIndex header) key in
  (i = (-1)%Z \/
   exists j h,
     i = Z.of_nat j /\ nth_error header j = Some (VStr h) /\
     (JsString.trim h = key \/
      JsMap.get HEADER_ALIASES key = Some (JsString.trim h) \/
      JsString.strip_spaces (JsString.trim h) = JsString.strip_spaces key)) /\
  (i = (-1)%Z <->
   forall j h,
     nth_error header j = Some (VStr h) ->
     JsString.strip_spaces (JsString.trim h) <> JsString.strip_spaces key /\
     JsMap.get HEADER_ALIASES key <> Some (JsString.trim h)).
Proof. exact (resolution_cases header key). Qed.

Lemma index_header_get_last (rest : row) (i0 : nat) (m : JsMap.t Z) (k : string) (i : Z) :
  JsMap.get (index_header rest i0 m) k = Some i ->
  (JsMap.get m k = Some i /\
   forall j h, nth_error rest j = Some (VStr h) -> JsString.trim h <> k) \/
  (exists j h,
      i = Z.of_nat (i0 + j) /\ nth_error rest j = Some (VStr h) /\ JsString.trim h = k /\
      forall j' h', j < j' -> nth_error rest j' = Some (VStr h') -> JsString.trim h' <> k).
Proof.
  revert i0 m. induction rest as [|c rest IH]; intros i0 m Hget; simpl in Hget.
  - left. split; [exact Hget|]. intros [|j] h Hj; discriminate Hj.
  - assert (Hlater : forall m',
               JsMap.get (index_header rest (S i0) m') k = Some i ->
               (JsMap.get m' k = Some i /\
                forall j h, nth_error rest j = Some (VStr h) -> JsString.trim h <> k) \/
               (exists j h,
                   i = Z.of_nat (i0 + j) /\ nth_error (c :: rest) j = Some (VStr h) /\
                   JsString.trim h = k /\
                   forall j' h', j < j' -> nth_error (c :: rest) j' = Some (VStr h') ->
                                 JsString.trim h' <> k)).
    { intros m' Hm'. destruct (IH (S i0) m' Hm') as [Hl|(j & h & -> & Hj & Hh & Hlast)];
        [now left|right].
      exists (S j), h. split; [f_equal; lia|]. split; [exact Hj|]. split; [exact Hh|].
      intros [|j'] h' Hlt Hj'; [lia|]. apply (Hlast j' h'); [lia|exact Hj']. }
    assert (Hskip : forall m',
               (forall h, c <> VStr h) ->
               JsMap.get m' k = Some i /\
               (forall j h, nth_error rest j = Some (VStr h) -> JsString.trim h <> k) ->
               JsMap.get m' k = Some i /\
               (forall j h, nth_error (c :: rest) j = Some (VStr h) -> JsString.trim h <> k)).
    { intros m' Hc [Hm' Hno]. split; [exact Hm'|].
      intros [|j] h Hj; simpl in Hj; [injection Hj as ->; now destruct (Hc h)|eauto]. }
    destruct c as [| |x|s|b];
      try (destruct (Hlater m Hget) as [Hl|Hr]; [left; apply Hskip; [discriminate|exact Hl]|now right]).
    destruct (Hlater _ Hget) as [[Hm' Hno]|Hr]; [|now right].
    destruct (String.eqb_spec (JsString.trim s) k) as [Hs|Hs].
    + right. exists 0, s. subst k. rewrite get_set_same in Hm'. injection Hm' as <-.
      split; [f_equal; lia|]. split; [reflexivity|]. split; [reflexivity|].
      intros [|j'] h' Hlt Hj'; [lia|]. simpl in Hj'. eauto.
    + left. rewrite get_set_other in Hm' by exact Hs. split; [exact Hm'|].
      intros [|j] h Hj; simpl in Hj; [injection Hj as <-; exact Hs|eauto].
Qed.

(** X2. When a label occurs in several columns of the header row, the key
    resolves to the last of them: a key equal to the trimmed label of some
    string cell resolves to the greatest position of such a cell. *)
Theorem resolver_last_duplicate_wins (header : row) (key : string) :
  (exists j h, nth_error header j = Some (VStr h) /\ JsString.trim h = key) ->
  exists j h,
    getColIndexWithAliases (build_colIndex header) key = Z.of_nat j /\
    nth_error header j = Some (VStr h) /\ JsString.trim h = key /\
    forall j' h', j < j' -> nth_error header j' = Some (VStr h') -> JsString.trim h' <> key.
Proof.
  intros (j0 & h0 & Hj0 & Hh0).
  destruct (build_colIndex_has_label header j0 h0 Hj0) as [i Hi]. rewrite Hh0 in Hi.
  unfold getColIndexWithAliases. rewrite Hi.
  destruct (index_header_get_last header 0 [] key i Hi) as [[Hnil _]|(j & h & -> & Hj & Hh & Hlast)];
    [discriminate Hnil|].
  exists j, h. auto.
Qed.

(** X2 on a header with the label [Time] in columns 0 and 2. *)
Lemma resolver_last_duplicate_wins_witness :
  exists j h,
    getColIndexWithAliases
      (build_colIndex [VStr "Time"; VStr "x"; VStr " Time "]) "Time" = Z.of_nat j /\
    nth_error [VStr "Time"; VStr "x"; VStr " Time "] j = Some (VStr h) /\
    JsString.trim h = "Time" /\
    forall j' h', j < j' ->
                  nth_error [VStr "Time"; VStr "x"; VStr " Time "] j' = Some (VStr h') ->
                  JsString.trim h' <> "Time".
Proof.
  apply (resolver_last_duplicate_wins [VStr "Time"; VStr "x"; VStr " Time "] "Time").
  exists 0, "Time". split; reflexivity.
Defined.

Example last_duplicate_ex :
  getColIndexWithAliases (build_colIndex [VStr "Time"; VStr "x"; VStr " Time "]) "Time" = 2%Z.
Proof. reflexivity. Qed.

(** The keys the needed-metrics path asks the resolver for. *)
Definition requested_keys : list string :=
  "Time" :: map snd (NEEDED_MAP pitcher) ++ map snd (NEEDED_MAP hitter).

(** X3. No key the needed-metrics path requests is a key of the alias
    table, whose keys are the variant spellings: for [Time] and every key
    of either whitelist the alias tier never applies, and the resolver
    reduces to the exact match followed by the match without white space. *)
Theorem requested_keys_have_no_alias :
  (forall k, In k requested_keys -> JsMap.get HEADER_ALIASES k = None) /\
  (forall colIndex k,
      In k requested_keys ->
      getColIndexWithAliases colIndex k =
      match JsMap.get colIndex k with
      | Some i => i
      | None =>
          match first_stripped_match colIndex k with
          | Some i => i
          | None => (-1)%Z
          end
      end).
Proof.
  assert (Hnone : forall k, In k requested_keys -> JsMap.get HEADER_ALIASES k = None).
  { intros k Hin. unfold requested_keys in Hin. cbn [NEEDED_MAP map snd app] in Hin.
    repeat (destruct Hin as [<-|Hin]; [reflexivity|]). destruct Hin. }
  split; [exact Hnone|].
  intros colIndex k Hin. unfold getColIndexWithAliases, alias_lookup.
  now rewrite (Hnone k Hin).
Qed.

(** A sheet that spells a column as the alias table's variant: the variant
    is a key of the table, not the whitelist key, so the column is not found. *)
Example variant_header_ex :
  getColIndexWithAliases
    (build_colIndex [VStr "Time"; VStr "/Calc/Knee/Lead/Flexion/Extension_x"])
    "/Calc/Knee/Lead/FlexionExtension_x" = (-1)%Z /\
  getColIndexWithAliases
    (build_colIndex [VStr "Time"; VStr "/Calc/Knee/Lead/FlexionExtension_x"])
    "/Calc/Knee/Lead/Flexion/Extension_x" = 1%Z.
Proof. split; reflexivity. Qed.

(** ** Needed metrics: what a successful result holds *)

(** A number a series or the time array may hold. *)
Definition finite_or_NaN (x : float) : Prop :=
  PrimFloat.is_finite x = true \/ x = nan.

Lemma finite_or_nan_range (x : float) : finite_or_NaN (finite_or_nan x).
Proof.
  unfold finite_or_NaN, finite_or_nan.
  destruct (PrimFloat.is_finite x) eqn:E; [now left|now right].
Qed.

Section NeededResult.

Variable Number_of_string : string -> float.
Variable Number_toString : float -> string.
Variables buffer worksheet error : Type.
Variable error_text : error -> string.
Variable read : buffer -> Exc.t error (workbook worksheet).
Variable sheet_to_json : worksheet -> Exc.t error table.

Local Abbreviation parse :=
  (parseWorkbookToNeededMetrics Number_of_string Number_toString
     buffer worksheet error error_text read sheet_to_json).
Local Abbreviation selected := (selected_grid buffer worksheet error read sheet_to_json).
Local Abbreviation sample_of := (series_sample Number_of_string Number_toString).
Local Abbreviation filled := (filled_series Number_of_string Number_toString).

(** X4. A successful result lists, for each role, one series per entry of
    that role's whitelist, in the order of the whitelist and under its label
    and key; and every number of the time array and of every series is
    finite or [NaN], never an infinity. *)
Theorem result_follows_whitelist (buf : buffer) (name : string) (tbl : table) :
  selected buf name tbl ->
  tbl <> [] ->
  exists h p q w,
    parse buf = inr (Ok h p q w) /\
    map (fun s => (label s, key s)) (series p) = NEEDED_MAP pitcher /\
    map (fun s => (label s, key s)) (series q) = NEEDED_MAP hitter /\
    Forall finite_or_NaN (time_of h p) /\
    (forall s, In s (series p ++ series q) -> Forall finite_or_NaN (values s)).
Proof.
  intros Hsel Hne.
  rewrite (parse_selected _ _ _ _ _ _ _ _ buf name tbl Hsel Hne), extract_closed_form.
  do 4 eexists. split; [reflexivity|].
  unfold time_of; cbn [time series Heap.deref nth].
  assert (Hmap : forall ci rows role,
             map (fun s => (label s, key s)) (map (filled ci rows) (NEEDED_MAP role))
             = NEEDED_MAP role).
  { intros ci rows role. rewrite map_map. rewrite <- (map_id (NEEDED_MAP role)) at 2.
    apply map_ext. now intros [l k]. }
  split; [apply Hmap|]. split; [apply Hmap|]. split.
  - apply Forall_forall. intros x Hin. apply in_map_iff in Hin as (r & <- & _).
    apply finite_or_nan_range.
  - intros s Hin. apply in_app_or in Hin.
    destruct Hin as [Hin|Hin]; apply in_map_iff in Hin as (lk & <- & _);
      apply Forall_forall; intros x Hx; apply in_map_iff in Hx as (r & <- & _);
      apply finite_or_nan_range.
Qed.

Lemma missing_warnings_in (ci : JsMap.t Z) (ss : list Series) (x : string) :
  In x (missing_warnings ci ss) <->
  exists s, In s ss /\ (getColIndexWithAliases ci (key s) < 0)%Z /\
            x = ("Missing column in sheet: " ++ key s)%string.
Proof.
  unfold missing_warnings. rewrite in_flat_map. split.
  - intros (s & Hin & Hx). exists s. split; [exact Hin|].
    destruct (Z.ltb_spec (getColIndexWithAliases ci (key s)) 0) as [Hlt|_].
    + destruct Hx as [<-|[]]. split; [exact Hlt|reflexivity].
    + destruct Hx.
  - intros (s & Hin & Hlt & ->). exists s. split; [exact Hin|].
    apply Z.ltb_lt in Hlt. rewrite Hlt. now left.
Qed.

(** X5. On a successful result a column is reported missing exactly when a
    series' key does not resolve: a series whose key resolves to no column
    holds only [NaN] and the warnings contain [Missing column in sheet: ]
    followed by its key; and every warning of that form names the key of a
    series of the result whose key does not resolve. *)
Theorem missing_columns_are_reported (buf : buffer) (name : string) (tbl : table) :
  selected buf name tbl ->
  tbl <> [] ->
  let ci := build_colIndex (snd (findHeaderRowWithTime tbl)) in
  exists h p q w,
    parse buf = inr (Ok h p q w) /\
    (forall s, In s (series p ++ series q) ->
               (getColIndexWithAliases ci (key s) < 0)%Z ->
               In ("Missing column in sheet: " ++ key s)%string w /\
               Forall (fun x => x = nan) (values s)) /\
    (forall k, In ("Missing column in sheet: " ++ k)%string w ->
               (getColIndexWithAliases ci k < 0)%Z /\
               exists s, In s (series p ++ series q) /\ key s = k).
Proof.
  intros Hsel Hne ci.
  rewrite (parse_selected _ _ _ _ _ _ _ _ buf name tbl Hsel Hne), extract_closed_form.
  fold ci. set (rows := kept_rows _). set (ti := getColIndexWithAliases ci "Time").
  set (sp := map (filled ci rows) (NEEDED_MAP pitcher)).
  set (sq := map (filled ci rows) (NEEDED_MAP hitter)).
  do 4 eexists. split; [reflexivity|]. cbn [series]. split.
  - intros s Hin Hlt. split.
    + apply in_or_app. right. apply in_app_or in Hin.
      apply in_or_app. destruct Hin as [Hin|Hin]; [left|right];
        apply missing_warnings_in; exists s; auto.
    + assert (Hs : exists lk, filled ci rows lk = s).
      { apply in_app_or in Hin. destruct Hin as [Hin|Hin];
          apply in_map_iff in Hin as (lk & E & _); eauto. }
      destruct Hs as [lk <-]. cbn [values filled_series key] in *.
      apply Forall_forall. intros x Hx. apply in_map_iff in Hx as (r & <- & _).
      unfold series_sample. apply Z.leb_gt in Hlt. now rewrite Hlt.
  - intros k Hin. apply in_app_or in Hin. destruct Hin as [Hin|Hin].
    { unfold time_warning in Hin. destruct (ti <? 0)%Z; [|destruct Hin].
      destruct Hin as [E|[]]. discriminate E. }
    assert (Hk : exists s, In s (sp ++ sq) /\ (getColIndexWithAliases ci (key s) < 0)%Z /\
                           ("Missing column in sheet: " ++ k)%string
                           = ("Missing column in sheet: " ++ key s)%string).
    { apply in_app_or in Hin. destruct Hin as [Hin|Hin];
        apply missing_warnings_in in Hin as (s & Hs & Hlt & E);
        exists s; (split; [apply in_or_app; auto|auto]). }
    destruct Hk as (s & Hs & Hlt & E). simpl in E.
    assert (Ek : k = key s) by congruence. subst k. eauto.
Qed.

End NeededResult.

(** ** The header row of the needed-metrics path *)

Lemma scan_time_row_found (rows : table) (i0 i : nat) (header : row) :
  scan_time_row rows i0 = Some (i, header) ->
  exists j,
    i = i0 + j /\ j < List.length rows /\
    row_has_time (row_or_empty (nth j rows None)) = true /\
    header = map trim_cell (row_or_empty (nth j rows None)) /\
    forall j', j' < j -> row_has_time (row_or_empty (nth j' rows None)) = false.
Proof.
  revert i0. induction rows as [|r rows IH]; intros i0; simpl; [discriminate|].
  destruct (row_has_time (row_or_empty r)) eqn:Hr.
  - intros E. injection E as <- <-. exists 0.
    split; [lia|]. split; [lia|]. split; [exact Hr|]. split; [reflexivity|]. intros; lia.
  - intros E. destruct (IH (S i0) E) as (j & -> & Hj & Ht & Hh & Hfirst).
    exists (S j). split; [lia|]. split; [lia|]. split; [exact Ht|]. split; [exact Hh|].
    intros [|j'] Hlt; [exact Hr|]. apply Hfirst. lia.
Qed.

Lemma scan_time_row_none (rows : table) (i0 : nat) :
  scan_time_row rows i0 = None ->
  forall j, j < List.length rows -> row_has_time (row_or_empty (nth j rows None)) = false.
Proof.
  revert i0. induction rows as [|r rows IH]; intros i0; simpl; [intros; lia|].
  destruct (row_has_time (row_or_empty r)) eqn:Hr; [discriminate|].
  intros E [|j] Hj; [exact Hr|]. apply (IH (S i0) E). lia.
Qed.

Lemma nth_firstn_lt {A : Type} (n j : nat) (l : list A) (d : A) :
  j < n -> nth j (firstn n l) d = nth j l d.
Proof.
  revert n l. induction j as [|j IH]; intros [|n] [|x l] Hj; simpl; try lia; auto.
  apply IH. lia.
Qed.

(** X6. The header row of the needed-metrics path is the first of the first
    20 rows with a string cell that, trimmed, is [time] in any case; the
    header returned is that row with its string cells trimmed. When none of
    those rows has such a cell the header is row 0, or empty for an empty
    grid. The row index returned is always below 20, and below the number
    of rows of a grid that has rows. *)
Theorem time_header_row_is_first (tbl : table) :
  let scanned := Nat.min (List.length tbl) 20 in
  let has_time j := row_has_time (row_or_empty (nth j tbl None)) in
  let i := fst (findHeaderRowWithTime tbl) in
  snd (findHeaderRowWithTime tbl) = map trim_cell (row_or_empty (nth i tbl None)) /\
  i < 20 /\
  (tbl <> [] -> i < List.length tbl) /\
  ((exists j, j < scanned /\ has_time j = true) ->
   i < scanned /\ has_time i = true /\ forall j, j < i -> has_time j = false) /\
  ((forall j, j < scanned -> has_time j = false) -> i = 0).
Proof.
  intros scanned has_time. unfold findHeaderRowWithTime. fold scanned.
  assert (Hlen : List.length (firstn scanned tbl) = scanned)
    by (rewrite length_firstn; subst scanned; lia).
  destruct (scan_time_row (firstn scanned tbl) 0) as [[i header]|] eqn:E; cbn [fst snd].
  - destruct (scan_time_row_found _ _ _ _ E) as (j & -> & Hj & Ht & Hh & Hfirst).
    rewrite Hlen in Hj. cbn [Nat.add].
    rewrite nth_firstn_lt in Ht, Hh by exact Hj.
    split; [exact Hh|]. split; [subst scanned; lia|]. split; [subst scanned; lia|].
    split.
    + intros _. split; [exact Hj|]. split; [exact Ht|].
      intros j' Hj'. specialize (Hfirst j' Hj').
      rewrite nth_firstn_lt in Hfirst by lia. exact Hfirst.
    + intros Hnone. specialize (Hnone j Hj). unfold has_time in Hnone. congruence.
  - split; [reflexivity|]. split; [lia|]. split.
    { intros Hne. destruct tbl; [contradiction|simpl; lia]. }
    split; [|reflexivity].
    intros (j & Hj & Ht). exfalso.
    pose proof (scan_time_row_none _ _ E j) as Hn. rewrite Hlen in Hn.
    specialize (Hn Hj). rewrite nth_firstn_lt in Hn by exact Hj.
    unfold has_time in Ht. congruence.
Qed.

(** ** The generic header detector: the row selected *)

Lemma scan_best_cases (rows : table) (i b : nat) (s : Z) :
  let scores := map (fun r => row_score (row_or_empty r)) rows in
  let res := scan_best rows i (b, s) in
  (res = (b, s) /\ Forall (fun x => (x <= s)%Z) scores) \/
  (exists j,
      res = (i + j, nth j scores 0%Z) /\ j < List.length scores /\
      (s < nth j scores 0)%Z /\
      (forall j', j' < j -> (nth j' scores 0 < nth j scores 0)%Z) /\
      Forall (fun x => (x <= nth j scores 0)%Z) scores).
Proof.
  revert i b s. induction rows as [|r rows IH]; intros i b s; cbn [map scan_best snd].
  - left. split; [reflexivity|constructor].
  - set (x := row_score (row_or_empty r)).
    set (scores := map (fun r0 => row_score (row_or_empty r0)) rows).
    destruct (Z.ltb_spec s x) as [Hlt|Hge].
    + right. destruct (IH (S i) i x) as [[Hres Hall]|(j & Hres & Hj & Hs & Hfirst & Hall)];
        fold scores in Hres, Hall.
      * exists 0. cbn [nth List.length]. replace (i + 0) with i by lia.
        split; [exact Hres|]. split; [lia|]. split; [exact Hlt|].
        split; [intros; lia|]. constructor; [lia|exact Hall].
      * fold scores in Hj, Hs, Hfirst. exists (S j). cbn [nth List.length].
        replace (i + S j) with (S i + j) by lia.
        split; [exact Hres|]. split; [lia|]. split; [lia|]. split.
        -- intros [|j'] Hj'; [exact Hs|]. apply Hfirst. lia.
        -- constructor; [lia|exact Hall].
    + destruct (IH (S i) b s) as [[Hres Hall]|(j & Hres & Hj & Hs & Hfirst & Hall)];
        fold scores in Hres, Hall.
      * left. split; [exact Hres|]. constructor; [lia|exact Hall].
      * fold scores in Hj, Hs, Hfirst. right. exists (S j). cbn [nth List.length].
        replace (i + S j) with (S i + j) by lia.
        split; [exact Hres|]. split; [lia|]. split; [exact Hs|]. split.
        -- intros [|j'] Hj'; [lia|]. apply Hfirst. lia.
        -- constructor; [lia|exact Hall].
Qed.

(** X7. The generic detector scores the first 20 rows, or all rows of a
    shorter grid. When every score is negative it selects row 0. Otherwise
    the row it selects is among the rows scored, its score is at least 0 and
    is the greatest score, and every earlier row scores strictly less. The
    index selected is always below 20, and below the number of rows of a
    grid that has rows. *)
Theorem detector_selects_first_best (tbl : table) :
  let scanned := firstn (Nat.min (List.length tbl) 20) tbl in
  let scores := map (fun r => row_score (row_or_empty r)) scanned in
  let best := bestIdx tbl in
  ((best = 0 /\ Forall (fun x => (x < 0)%Z) scores) \/
   (best < List.length scores /\
    (0 <= nth best scores 0)%Z /\
    Forall (fun x => (x <= nth best scores 0)%Z) scores /\
    forall j, j < best -> (nth j scores 0 < nth best scores 0)%Z)) /\
  best < 20 /\
  (tbl <> [] -> best < List.length tbl).
Proof.
  intros scanned scores best.
  assert (Hlen : List.length scores = Nat.min (List.length tbl) 20).
  { unfold scores, scanned. rewrite length_map, length_firstn. lia. }
  assert (Hcases := scan_best_cases scanned 0 0 (-1)). cbv zeta in Hcases.
  fold scores in Hcases. unfold best, bestIdx. fold scanned.
  destruct Hcases as [[-> Hall]|(j & -> & Hj & Hs & Hfirst & Hall)]; cbn [fst Nat.add].
  - split; [|split; [lia|intros Hne; destruct tbl; [contradiction|simpl; lia]]].
    left. split; [reflexivity|]. eapply Forall_impl; [|exact Hall]. simpl. intros; lia.
  - split; [|split; lia].
    right. split; [exact Hj|]. split; [lia|]. split; [exact Hall|exact Hfirst].
Qed.

(** ** Header cleanup: what [dedupeHeaders] returns *)

(** The label [dedupeHeaders] writes for the [c]-th occurrence of [h]. *)
Definition numbered (h : string) (c : nat) : string :=
  if Nat.eqb c 1 then h else (h ++ " (" ++ JsString.of_nat c ++ ")")%string.

(** [seen] holds the counts [cnt]: no entry for a count of 0. *)
Definition holds_counts (seen : JsMap.t nat) (cnt : string -> nat) : Prop :=
  forall h, JsMap.get seen h = if Nat.eqb (cnt h) 0 then None else Some (cnt h).

Lemma dedupe_from_length (seen : JsMap.t nat) (headers : list string) :
  List.length (dedupe_from seen headers) = List.length headers.
Proof.
  revert seen. induction headers as [|h rest IH]; intros seen; simpl; auto.
  destruct (negb (JsString.truthy h)); simpl; now rewrite IH.
Qed.

Lemma dedupe_from_nth (headers : list string) (seen : JsMap.t nat) (cnt : string -> nat)
    (i : nat) :
  holds_counts seen cnt ->
  i < List.length headers ->
  nth i (dedupe_from seen headers) "" =
  let h := nth i headers "" in
  if JsString.truthy h
  then numbered h (cnt h + count_occ string_dec (firstn (S i) headers) h)
  else h.
Proof.
  revert seen cnt i. induction headers as [|h0 rest IH]; intros seen cnt i Hseen Hi;
    [simpl in Hi; lia|].
  cbn [dedupe_from]. destruct (JsString.truthy h0) eqn:Ht0; cbn [negb].
  - set (c0 := match JsMap.get seen h0 with Some c => c | None => 0 end + 1).
    assert (Hc0 : c0 = cnt h0 + 1).
    { unfold c0. rewrite (Hseen h0). destruct (Nat.eqb_spec (cnt h0) 0) as [->|_]; lia. }
    destruct i as [|i]; rewrite firstn_cons; cbn [nth count_occ].
    + rewrite Ht0, firstn_O. destruct (string_dec h0 h0) as [_|Hne]; [|contradiction].
      cbn [count_occ]. rewrite Hc0. reflexivity.
    + set (cnt' := fun h => if String.eqb h h0 then cnt h0 + 1 else cnt h).
      assert (Hseen' : holds_counts (JsMap.set seen h0 c0) cnt').
      { intros h. unfold cnt'. destruct (String.eqb_spec h h0) as [->|Hne].
        - rewrite get_set_same, Hc0.
          destruct (Nat.eqb_spec (cnt h0 + 1) 0); [lia|reflexivity].
        - rewrite get_set_other by congruence. apply Hseen. }
      rewrite (IH _ cnt' i Hseen') by (simpl in Hi; lia). cbv zeta.
      destruct (JsString.truthy (nth i rest "")); [|reflexivity].
      f_equal. unfold cnt'.
      destruct (string_dec h0 (nth i rest "")) as [<-|Hne].
      * rewrite String.eqb_refl. lia.
      * destruct (String.eqb_spec (nth i rest "") h0); [congruence|reflexivity].
  - destruct i as [|i]; rewrite firstn_cons; cbn [nth count_occ].
    + now rewrite Ht0.
    + rewrite (IH seen cnt i Hseen) by (simpl in Hi; lia). cbv zeta.
      destruct (JsString.truthy (nth i rest "")) eqn:Ht; [|reflexivity].
      destruct (string_dec h0 (nth i rest "")) as [E|Hne]; [|reflexivity].
      rewrite <- E in Ht. congruence.
Qed.

(** X8. [dedupeHeaders] keeps the number and the order of the labels. An
    empty label stays empty; the first occurrence of a label is kept as it
    is; its [c]-th occurrence, for [c] at least 2, becomes the label
    followed by a space and [c] in brackets. *)
Theorem dedupe_numbers_occurrences (headers : list string) :
  List.length (dedupeHeaders headers) = List.length headers /\
  forall i,
    i < List.length headers ->
    nth i (dedupeHeaders headers) "" =
    let h := nth i headers "" in
    if JsString.truthy h
    then numbered h (count_occ string_dec (firstn (S i) headers) h)
    else h.
Proof.
  split; [apply dedupe_from_length|].
  intros i Hi. unfold dedupeHeaders.
  rewrite (dedupe_from_nth headers [] (fun _ => 0) i); [reflexivity| |exact Hi].
  intros h. reflexivity.
Qed.

Example dedupe_ex :
  dedupeHeaders ["x"; ""; "x"; "y"; ""; "x"] = ["x"; ""; "x (2)"; "y"; ""; "x (3)"].
Proof. reflexivity. Qed.

(** ** Header cleanup: when the labels come out distinct *)

(** The code units of a string. *)
Lemma units_app (a b : string) :
  list_ascii_of_string (a ++ b) = list_ascii_of_string a ++ list_ascii_of_string b.
Proof. induction a as [|c a IH]; simpl; [reflexivity|now rewrite IH]. Qed.

Lemma units_inj (a b : string) :
  list_ascii_of_string a = list_ascii_of_string b -> a = b.
Proof.
  intros E. rewrite <- (string_of_list_ascii_of_string a), E.
  apply string_of_list_ascii_of_string.
Qed.

(** Whether a string ends with a closing bracket. *)
Definition ends_with_bracket (s : string) : bool :=
  match rev (list_ascii_of_string s) with
  | c :: _ => Ascii.eqb c ")"%char
  | [] => false
  end.

Lemma decimal_has_no_bracket (d : Decimal.uint) :
  ~ In "("%char (list_ascii_of_string (NilEmpty.string_of_uint d)).
Proof.
  induction d; simpl; try tauto; intros [E|Hin]; try discriminate E; now apply IHd.
Qed.

Lemma of_nat_inj (c c' : nat) : JsString.of_nat c = JsString.of_nat c' -> c = c'.
Proof.
  unfold JsString.of_nat. intros E.
  assert (Eu : Some (Nat.to_uint c) = Some (Nat.to_uint c'))
    by now rewrite <- !NilEmpty.usu, E.
  injection Eu as Eu. now rewrite <- (Unsigned.of_to c), Eu, Unsigned.of_to.
Qed.

(** Two lists cut at their last opening bracket agree part by part. *)
Lemma split_at_last_bracket (a a' d d' : list ascii) :
  ~ In "("%char d -> ~ In "("%char d' ->
  a ++ "("%char :: d = a' ++ "("%char :: d' -> a = a' /\ d = d'.
Proof.
  intros Hd Hd'. revert a'. induction a as [|x a IH]; intros [|x' a']; simpl; intros E.
  - injection E as E. auto.
  - injection E as _ E. exfalso. apply Hd. rewrite E. apply in_or_app. right. now left.
  - injection E as _ E. exfalso. apply Hd'. rewrite <- E. apply in_or_app. right. now left.
  - injection E as -> E. destruct (IH a' E) as [-> ->]. auto.
Qed.

Lemma suffixed_inj (h h' : string) (c c' : nat) :
  (h ++ " (" ++ JsString.of_nat c ++ ")")%string
  = (h' ++ " (" ++ JsString.of_nat c' ++ ")")%string ->
  h = h' /\ c = c'.
Proof.
  intros E. apply (f_equal list_ascii_of_string) in E.
  rewrite !units_app in E. cbn [list_ascii_of_string app] in E.
  set (d := list_ascii_of_string (JsString.of_nat c)) in *.
  set (d' := list_ascii_of_string (JsString.of_nat c')) in *.
  change (list_ascii_of_string h ++ " "%char :: "("%char :: d ++ [")"%char])
    with (list_ascii_of_string h ++ [" "%char] ++ "("%char :: d ++ [")"%char]) in E.
  change (list_ascii_of_string h' ++ " "%char :: "("%char :: d' ++ [")"%char])
    with (list_ascii_of_string h' ++ [" "%char] ++ "("%char :: d' ++ [")"%char]) in E.
  rewrite !app_assoc in E. rewrite <- !app_assoc in E.
  rewrite (app_assoc (list_ascii_of_string h)), (app_assoc (list_ascii_of_string h')) in E.
  assert (Hno : forall n, ~ In "("%char (list_ascii_of_string (JsString.of_nat n) ++ [")"%char])).
  { intros n Hin. apply in_app_or in Hin as [Hin|[Eb|[]]].
    - exact (decimal_has_no_bracket _ Hin).
    - discriminate Eb. }
  apply split_at_last_bracket in E as [Eh Ed]; [|apply Hno|apply Hno].
  apply app_inv_tail in Eh, Ed. split.
  - now apply units_inj.
  - apply of_nat_inj. now apply units_inj.
Qed.

Lemma suffixed_ends_with_bracket (h : string) (c : nat) :
  ends_with_bracket (h ++ " (" ++ JsString.of_nat c ++ ")")%string = true.
Proof.
  unfold ends_with_bracket.
  rewrite !units_app. cbn [list_ascii_of_string].
  rewrite !rev_app_distr. reflexivity.
Qed.

Lemma count_prefix_positive (l : list string) (i : nat) :
  i < List.length l -> 1 <= count_occ string_dec (firstn (S i) l) (nth i l "").
Proof.
  revert i. induction l as [|a l IH]; intros [|i] Hi; simpl in Hi; try lia;
    rewrite firstn_cons; cbn [nth count_occ].
  - destruct (string_dec a a); [lia|contradiction].
  - specialize (IH i ltac:(lia)). destruct (string_dec a (nth i l "")); lia.
Qed.

Lemma count_prefix_grows (l : list string) (i j : nat) :
  i < j -> j < List.length l ->
  count_occ string_dec (firstn (S i) l) (nth j l "")
  < count_occ string_dec (firstn (S j) l) (nth j l "").
Proof.
  revert i j. induction l as [|a l IH]; intros i [|j] Hij Hj; simpl in Hj; try lia.
  rewrite !firstn_cons. cbn [nth count_occ].
  destruct i as [|i].
  - rewrite firstn_O. cbn [count_occ].
    pose proof (count_prefix_positive l j ltac:(lia)).
    destruct (string_dec a (nth j l "")); lia.
  - specialize (IH i j ltac:(lia) ltac:(lia)).
    destruct (string_dec a (nth j l "")); lia.
Qed.

Lemma NoDup_filter_nth {A : Type} (f : A -> bool) (l : list A) (d : A) :
  (forall i j, i < j -> j < List.length l ->
               f (nth i l d) = true -> f (nth j l d) = true -> nth i l d <> nth j l d) ->
  NoDup (filter f l).
Proof.
  induction l as [|a l IH]; intros Hd; simpl; [constructor|].
  assert (Hl : NoDup (filter f l)).
  { apply IH. intros i j Hij Hj. apply (Hd (S i) (S j)); simpl; lia. }
  destruct (f a) eqn:Ha; [|exact Hl].
  constructor; [|exact Hl].
  intros Hin. apply filter_In in Hin as [Hin Hf].
  apply (In_nth _ _ d) in Hin as (j & Hj & E).
  apply (Hd 0 (S j)); simpl; try lia; congruence.
Qed.

Lemma numbered_truthy (h : string) (c : nat) :
  JsString.truthy h = true -> JsString.truthy (numbered h c) = true.
Proof.
  unfold numbered. destruct (Nat.eqb c 1); [auto|].
  destruct h; [discriminate|reflexivity].
Qed.

(** X9. When no label ends with a closing bracket, the labels
    [dedupeHeaders] returns are pairwise distinct, the empty ones apart. *)
Theorem dedupe_makes_labels_distinct (headers : list string) :
  (forall h, In h headers -> ends_with_bracket h = false) ->
  NoDup (filter JsString.truthy (dedupeHeaders headers)).
Proof.
  intros Hplain. apply (NoDup_filter_nth _ _ "").
  assert (Hnth : forall i, i < List.length headers ->
             nth i (dedupeHeaders headers) "" =
             if JsString.truthy (nth i headers "")
             then numbered (nth i headers "")
                    (count_occ string_dec (firstn (S i) headers) (nth i headers ""))
             else nth i headers "").
  { intros i Hi. unfold dedupeHeaders.
    rewrite (dedupe_from_nth headers [] (fun _ => 0) i); [reflexivity| |exact Hi].
    intros h. reflexivity. }
  assert (Hlen : List.length (dedupeHeaders headers) = List.length headers)
    by apply dedupe_from_length.
  intros i j Hij Hj Hti Htj. rewrite Hlen in Hj.
  rewrite Hnth in Hti, Htj |- * by lia. rewrite (Hnth j) by lia.
  set (hi := nth i headers "") in *. set (hj := nth j headers "") in *.
  set (ci := count_occ string_dec (firstn (S i) headers) hi).
  set (cj := count_occ string_dec (firstn (S j) headers) hj).
  destruct (JsString.truthy hi) eqn:Ehi; [|congruence].
  destruct (JsString.truthy hj) eqn:Ehj; [|congruence].
  assert (Hgrow : hi = hj -> ci < cj).
  { intros E. unfold ci, cj. rewrite E. unfold hj. apply count_prefix_grows; lia. }
  assert (Hpos : 1 <= ci) by (apply count_prefix_positive; lia).
  assert (Hpi : ends_with_bracket hi = false) by (apply Hplain, nth_In; lia).
  assert (Hpj : ends_with_bracket hj = false) by (apply Hplain, nth_In; lia).
  unfold numbered.
  destruct (Nat.eqb_spec ci 1) as [Eci|Nci]; destruct (Nat.eqb_spec cj 1) as [Ecj|Ncj].
  - intros E. specialize (Hgrow E). lia.
  - intros E. rewrite E, suffixed_ends_with_bracket in Hpi. discriminate.
  - intros E. rewrite <- E, suffixed_ends_with_bracket in Hpj. discriminate.
  - intros E. apply suffixed_inj in E as [Eh Ec]. specialize (Hgrow Eh). lia.
Qed.

(** X9 on a header row with a repeated label. *)
Lemma dedupe_makes_labels_distinct_witness :
  (forall h, In h ["x"; ""; "x"; "y"; "x"] -> ends_with_bracket h = false) /\
  NoDup (filter JsString.truthy (dedupeHeaders ["x"; ""; "x"; "y"; "x"])).
Proof.
  assert (Hplain : forall h, In h ["x"; ""; "x"; "y"; "x"] -> ends_with_bracket h = false).
  { intros h Hin. repeat (destruct Hin as [<-|Hin]; [reflexivity|]). destruct Hin. }
  split; [exact Hplain|].
  exact (dedupe_makes_labels_distinct ["x"; ""; "x"; "y"; "x"] Hplain).
Defined.

(** ** Rows as objects: keys and cells *)

(** The key [toObjects] uses for column [i] under the header [h]. *)
Definition column_key (ih : nat * string) : string :=
  if JsString.truthy (snd ih) then snd ih
  else ("Col" ++ JsString.of_nat (fst ih))%string.

Definition column_keys (headers : list string) : list string :=
  map column_key (indexed headers).

Lemma set_fresh {V : Type} (m : JsMap.t V) (k : string) (v : V) :
  ~ In k (JsMap.keys m) -> JsMap.set m k v = m ++ [(k, v)].
Proof.
  unfold JsMap.keys. induction m as [|[k0 v0] m IH]; simpl; intros Hk; [reflexivity|].
  destruct (String.eqb_spec k0 k) as [->|_]; [tauto|].
  rewrite IH; [reflexivity|tauto].
Qed.

Lemma fill_object (r : row) (cols : list (nat * string)) (acc : Obj.t) :
  NoDup (map column_key cols) ->
  ~ In "__proto__" (map column_key cols) ->
  (forall k, In k (map column_key cols) -> ~ In k (JsMap.keys acc)) ->
  fold_left
    (fun obj ih =>
       let key := if JsString.truthy (snd ih) then snd ih
                  else ("Col" ++ JsString.of_nat (fst ih))%string in
       Obj.set obj key (nth (fst ih) r VUndef))
    cols acc
  = acc ++ map (fun ih => (column_key ih, nth (fst ih) r VUndef)) cols.
Proof.
  revert acc. induction cols as [|ih cols IH]; intros acc Hnd Hproto Hfresh;
    cbn [fold_left map].
  - now rewrite app_nil_r.
  - cbn [map] in Hnd, Hproto, Hfresh. apply NoDup_cons_iff in Hnd as [Hnotin Hnd].
    cbv zeta. fold (column_key ih).
    assert (Hset : Obj.set acc (column_key ih) (nth (fst ih) r VUndef)
                   = acc ++ [(column_key ih, nth (fst ih) r VUndef)]).
    { unfold Obj.set.
      destruct (String.eqb_spec (column_key ih) "__proto__") as [E|_];
        [exfalso; apply Hproto; left; now symmetry|].
      apply set_fresh, Hfresh. now left. }
    rewrite Hset.
    rewrite IH; [now rewrite <- app_assoc| exact Hnd | |].
    + intros Hin. apply Hproto. now right.
    + intros k Hk. unfold JsMap.keys. rewrite map_app, in_app_iff. cbn [map fst In].
      intros [Hin|[E|[]]].
      * apply (Hfresh k); [now right|exact Hin].
      * subst k. contradiction.
Qed.

Lemma get_paired {A : Type} (f : A -> string) (g : A -> value) (l : list A) (a : A) :
  NoDup (map f l) -> In a l ->
  Obj.get (map (fun x => (f x, g x)) l) (f a) = g a.
Proof.
  unfold Obj.get. induction l as [|x l IH]; simpl; intros Hnd Hin; [destruct Hin|].
  apply NoDup_cons_iff in Hnd as [Hnotin Hnd].
  destruct (String.eqb_spec (f x) (f a)) as [E|Hne].
  - destruct Hin as [->|Hin]; [reflexivity|].
    exfalso. apply Hnotin. rewrite E. now apply in_map.
  - destruct Hin as [->|Hin]; [contradiction|]. now apply IH.
Qed.

Lemma indexed_nth (headers : list string) (i : nat) :
  i < List.length headers ->
  nth i (indexed headers) (0, "") = (i, nth i headers "").
Proof.
  intros Hi. unfold indexed.
  rewrite (combine_nth (seq 0 (List.length headers)) headers i 0 "")
    by now rewrite length_seq.
  now rewrite seq_nth.
Qed.

(** X10. When the column keys, a header's label or [Col] followed by the
    column number for an empty label, are pairwise distinct and none is
    [__proto__], the object built for a row lists the columns in order, each
    key with the row's cell in that column, [undefined] past the end of the
    row; so reading the key of column [i] gives back the cell [r[i]]. *)
Theorem objects_hold_the_cells (headers : list string) (rows : list row) :
  NoDup (column_keys headers) ->
  ~ In "__proto__" (column_keys headers) ->
  toObjects headers rows =
  map (fun r => map (fun ih => (column_key ih, nth (fst ih) r VUndef)) (indexed headers))
      rows /\
  (forall obj, In obj (toObjects headers rows) -> JsMap.keys obj = column_keys headers) /\
  (forall n i,
      n < List.length rows -> i < List.length headers ->
      Obj.get (nth n (toObjects headers rows) []) (nth i (column_keys headers) "")
      = nth i (nth n rows []) VUndef).
Proof.
  intros Hnd Hproto.
  assert (Hform : toObjects headers rows =
                  map (fun r => map (fun ih => (column_key ih, nth (fst ih) r VUndef))
                                    (indexed headers)) rows).
  { unfold toObjects. apply map_ext. intros r.
    refine (fill_object r (indexed headers) [] Hnd Hproto _).
    intros k _ []. }
  split; [exact Hform|]. rewrite Hform. split.
  - intros obj Hin. apply in_map_iff in Hin as (r & <- & _).
    unfold JsMap.keys, column_keys. rewrite map_map. reflexivity.
  - intros n i Hn Hi.
    rewrite (nth_indep _ [] (map (fun ih => (column_key ih, nth (fst ih) (@nil value) VUndef))
                                 (indexed headers)))
      by now rewrite length_map.
    rewrite (map_nth (fun r => map (fun ih => (column_key ih, nth (fst ih) r VUndef))
                                   (indexed headers)) rows [] n).
    unfold column_keys.
    rewrite (nth_indep _ "" (column_key (0, "")))
      by (rewrite length_map; unfold indexed; rewrite length_combine, length_seq; lia).
    rewrite (map_nth column_key (indexed headers) (0, "") i).
    rewrite (get_paired column_key (fun ih => nth (fst ih) (nth n rows []) VUndef)).
    + now rewrite indexed_nth.
    + exact Hnd.
    + apply nth_In. unfold indexed. rewrite length_combine, length_seq. lia.
Qed.

(** X10 on a header row with an empty label. *)
Lemma objects_hold_the_cells_witness :
  NoDup (column_keys ["Time"; ""; "x"]) /\
  ~ In "__proto__" (column_keys ["Time"; ""; "x"]) /\
  toObjects ["Time"; ""; "x"] [[VNum 0; VStr "a"; VNum 5]; [VNum 1]] =
  [ [("Time", VNum 0); ("Col1", VStr "a"); ("x", VNum 5)];
    [("Time", VNum 1); ("Col1", VUndef); ("x", VUndef)] ].
Proof.
  assert (Hnd : NoDup (column_keys ["Time"; ""; "x"])).
  { repeat constructor; simpl; intuition discriminate. }
  assert (Hproto : ~ In "__proto__" (column_keys ["Time"; ""; "x"])).
  { simpl. intuition discriminate. }
  split; [exact Hnd|]. split; [exact Hproto|].
  rewrite (proj1 (objects_hold_the_cells ["Time"; ""; "x"]
                    [[VNum 0; VStr "a"; VNum 5]; [VNum 1]] Hnd Hproto)).
  reflexivity.
Defined.

(** ** The generic row normaliser: the fields of a row *)

Section NormalizedRows.

Variable Number_of_string : string -> float.
Variable Number_toString : float -> string.
Variable Date_parse : string -> float.

Local Abbreviation num' := (num Number_of_string Number_toString).
Local Abbreviation tSec' := (tSec Number_of_string Number_toString Date_parse).
Local Abbreviation normalize_row' :=
  (normalize_row Number_of_string Number_toString Date_parse).
Local Abbreviation normalizeSheet' :=
  (normalizeSheet Number_of_string Number_toString Date_parse).

(** Whether the copying loop writes the column [k] of the row [r]: [k] is a
    key of the first row other than the time, millisecond and frame keys and
    other than [__proto__], and the cell parses to a finite number. *)
Definition copied (rowsRaw : list Obj.t) (r : Obj.t) (k : string) : bool :=
  existsb (String.eqb k) (keys rowsRaw)
  && negb (key_is k (timeKey rowsRaw) || key_is k (msKey rowsRaw)
           || key_is k (frameKey rowsRaw))
  && negb (String.eqb k "__proto__")
  && PrimFloat.is_finite (num' (Obj.get r k)).

Lemma copy_loop (rowsRaw : list Obj.t) (r : Obj.t) (ks : list string)
    (acc : JsMap.t float) (k : string) :
  JsMap.get
    (fold_left
       (fun out k0 =>
          if key_is k0 (timeKey rowsRaw) || key_is k0 (msKey rowsRaw)
             || key_is k0 (frameKey rowsRaw)
          then out
          else
            let n := num' (Obj.get r k0) in
            if PrimFloat.is_finite n then Obj.set out k0 n else out)
       ks acc) k
  = if existsb (String.eqb k) ks
       && negb (key_is k (timeKey rowsRaw) || key_is k (msKey rowsRaw)
                || key_is k (frameKey rowsRaw))
       && negb (String.eqb k "__proto__")
       && PrimFloat.is_finite (num' (Obj.get r k))
    then Some (num' (Obj.get r k))
    else JsMap.get acc k.
Proof.
  revert acc. induction ks as [|k0 ks IH]; intros acc; cbn [fold_left existsb];
    [reflexivity|].
  rewrite IH. cbv zeta.
  set (skip := fun x => key_is x (timeKey rowsRaw) || key_is x (msKey rowsRaw)
                        || key_is x (frameKey rowsRaw)).
  change (key_is k0 (timeKey rowsRaw) || key_is k0 (msKey rowsRaw)
          || key_is k0 (frameKey rowsRaw)) with (skip k0).
  change (key_is k (timeKey rowsRaw) || key_is k (msKey rowsRaw)
          || key_is k (frameKey rowsRaw)) with (skip k).
  destruct (existsb (String.eqb k) ks && negb (skip k) && negb (String.eqb k "__proto__")
            && PrimFloat.is_finite (num' (Obj.get r k))) eqn:Hlater.
  - apply andb_prop in Hlater as [Hl Hfin]. apply andb_prop in Hl as [Hl Hproto].
    apply andb_prop in Hl as [Hex Hskip]. rewrite Hex, Hskip, Hproto, Hfin, orb_true_r.
    reflexivity.
  - destruct (String.eqb_spec k k0) as [<-|Hne]; cbn [orb].
    + destruct (skip k); cbn [negb andb]; [reflexivity|].
      destruct (PrimFloat.is_finite (num' (Obj.get r k))) eqn:Hfin;
        rewrite ?andb_false_r; [|reflexivity].
      unfold Obj.set. destruct (String.eqb k "__proto__"); cbn [negb andb];
        [reflexivity|apply get_set_same].
    + assert (Hsame : forall v, JsMap.get (Obj.set acc k0 v) k = JsMap.get acc k)
        by (intros v; apply get_assign_other; congruence).
      rewrite Hlater.
      destruct (skip k0); [reflexivity|].
      destruct (PrimFloat.is_finite (num' (Obj.get r k0))); [apply Hsame|reflexivity].
Qed.

Lemma normalizeSheet_nth (rowsRaw : list Obj.t) (fpsGuess : float) (i : nat) :
  i < List.length rowsRaw ->
  nth i (normalizeSheet' rowsRaw fpsGuess) []
  = normalize_row' rowsRaw fpsGuess (nth i rowsRaw []).
Proof.
  intros Hi. unfold normalizeSheet.
  destruct rowsRaw as [|r0 rows] eqn:E; [cbn in Hi; lia|]. rewrite <- E in *.
  rewrite (nth_indep _ [] (normalize_row' rowsRaw fpsGuess []))
    by (now rewrite length_map).
  apply map_nth.
Qed.

Lemma key_is_false (k : string) (a : option string) :
  key_is k a = false <-> a <> Some k.
Proof.
  destruct a as [k'|]; cbn [key_is]; [|split; [discriminate|reflexivity]].
  destruct (String.eqb_spec k k') as [->|Hne]; split; congruence.
Qed.

Lemma copied_cases (rowsRaw : list Obj.t) (r : Obj.t) (k : string) :
  copied rowsRaw r k = true <->
  In k (keys rowsRaw) /\
  timeKey rowsRaw <> Some k /\ msKey rowsRaw <> Some k /\ frameKey rowsRaw <> Some k /\
  k <> "__proto__" /\
  PrimFloat.is_finite (num' (Obj.get r k)) = true.
Proof.
  unfold copied. rewrite !andb_true_iff, !negb_true_iff, !orb_false_iff, !key_is_false.
  rewrite existsb_exists.
  assert (Hin : (exists x, In x (keys rowsRaw) /\ String.eqb k x = true)
                <-> In k (keys rowsRaw)).
  { split.
    - intros (x & Hx & E). apply String.eqb_eq in E. now subst x.
    - intros Hk. exists k. split; [exact Hk|apply String.eqb_refl]. }
  rewrite Hin.
  destruct (String.eqb_spec k "__proto__"); intuition congruence.
Qed.

Lemma normalizeSheet_length (rowsRaw : list Obj.t) (fpsGuess : float) :
  List.length (normalizeSheet' rowsRaw fpsGuess) = List.length rowsRaw.
Proof. unfold normalizeSheet. destruct rowsRaw; [reflexivity|now rewrite length_map]. Qed.

Lemma normalize_row_get (rowsRaw : list Obj.t) (fpsGuess : float) (r : Obj.t) (k : string) :
  JsMap.get (normalize_row' rowsRaw fpsGuess r) k =
  if copied rowsRaw r k then Some (num' (Obj.get r k))
  else if String.eqb k "t" then Some (tSec' rowsRaw fpsGuess r)
  else None.
Proof.
  unfold normalize_row, copied. rewrite copy_loop.
  destruct (_ && _ && _ && _); [reflexivity|].
  cbn. now rewrite String.eqb_sym.
Qed.

(** X11. [normalizeSheet] returns one row per input row, and its row at
    position [i] is read from the input row at position [i] as follows: at a
    key the copying loop writes, the parsed cell of that column; otherwise
    at [t] the time computed for the row; otherwise nothing. So each row
    returned has a field [t]; a field other than [t] belongs to a key of the
    first row that is not the time, millisecond or frame key nor
    [__proto__], and holds the parsed cell, a finite number; and every such
    key whose cell parses to a finite number is a field of the row. *)
Theorem normalized_row_fields (rowsRaw : list Obj.t) (fpsGuess : float) :
  List.length (normalizeSheet' rowsRaw fpsGuess) = List.length rowsRaw /\
  forall i, i < List.length rowsRaw ->
    let r := nth i rowsRaw [] in
    let out := nth i (normalizeSheet' rowsRaw fpsGuess) [] in
    (forall k,
        JsMap.get out k =
        if copied rowsRaw r k then Some (num' (Obj.get r k))
        else if String.eqb k "t" then Some (tSec' rowsRaw fpsGuess r)
        else None) /\
    (exists x, JsMap.get out "t" = Some x) /\
    (forall k x,
        JsMap.get out k = Some x -> k <> "t" ->
        In k (keys rowsRaw) /\
        timeKey rowsRaw <> Some k /\ msKey rowsRaw <> Some k /\
        frameKey rowsRaw <> Some k /\ k <> "__proto__" /\
        x = num' (Obj.get r k) /\ PrimFloat.is_finite x = true) /\
    (forall k,
        In k (keys rowsRaw) ->
        timeKey rowsRaw <> Some k -> msKey rowsRaw <> Some k ->
        frameKey rowsRaw <> Some k -> k <> "__proto__" ->
        PrimFloat.is_finite (num' (Obj.get r k)) = true ->
        JsMap.get out k = Some (num' (Obj.get r k))).
Proof.
  split; [apply normalizeSheet_length|].
  - intros i Hi r out.
    assert (Hget : forall k,
               JsMap.get out k =
               if copied rowsRaw r k then Some (num' (Obj.get r k))
               else if String.eqb k "t" then Some (tSec' rowsRaw fpsGuess r)
               else None).
    { intros k. unfold out. rewrite (normalizeSheet_nth rowsRaw fpsGuess i Hi). fold r.
      apply normalize_row_get. }
    split; [exact Hget|]. split; [|split].
    + rewrite Hget. destruct (copied rowsRaw r "t"); eexists; reflexivity.
    + intros k x Hk Hne. rewrite Hget in Hk.
      destruct (copied rowsRaw r k) eqn:Hc.
      * apply copied_cases in Hc as (Hin & Ht & Hm & Hf & Hp & Hfin).
        injection Hk as <-. auto 10.
      * destruct (String.eqb_spec k "t"); [contradiction|discriminate].
    + intros k Hin Ht Hm Hf Hp Hfin. rewrite Hget.
      assert (Hc : copied rowsRaw r k = true) by (apply copied_cases; auto 10).
      now rewrite Hc.
Qed.

(** ** The generic row normaliser: times without a time column *)

(** [fps] is never 0, [NaN] or an infinity. *)
Lemma fps_is_usable (fpsGuess : float) :
  PrimFloat.is_finite (fps fpsGuess) = true /\ PrimFloat.eqb (fps fpsGuess) 0 = false.
Proof.
  unfold fps.
  destruct (PrimFloat.eqb fpsGuess 0) eqn:Ez; cbn [orb negb andb]; [split; reflexivity|].
  destruct (PrimFloat.is_nan fpsGuess); cbn [negb andb]; [split; reflexivity|].
  destruct (PrimFloat.is_finite fpsGuess) eqn:Ef; [split; assumption|split; reflexivity].
Qed.

Lemma find_all_false {A : Type} (f : A -> bool) (l : list A) :
  (forall x, In x l -> f x = false) -> find f l = None.
Proof.
  induction l as [|a l IH]; intros Hl; simpl; [reflexivity|].
  rewrite (Hl a (or_introl eq_refl)). apply IH. intros x Hx. apply Hl. now right.
Qed.

(** The frame rate in plain terms: [fpsGuess] when it is finite and not
    zero, 120 otherwise. *)
Lemma fps_rate (fpsGuess : float) :
  fps fpsGuess =
  if PrimFloat.is_finite fpsGuess && negb (PrimFloat.eqb fpsGuess 0)
  then fpsGuess else 120%float.
Proof.
  unfold fps, PrimFloat.is_finite.
  destruct (PrimFloat.eqb fpsGuess 0), (PrimFloat.is_nan fpsGuess),
    (PrimFloat.is_infinity fpsGuess); reflexivity.
Qed.

Lemma no_time_key (rowsRaw : list Obj.t) :
  (forall k, In k (keys rowsRaw) ->
             Re.t_or_time k = false /\ Re.has_timestamp k = false) ->
  timeKey rowsRaw = None /\ existsb Re.has_timestamp (keys rowsRaw) = false /\
  ~ In "t" (keys rowsRaw).
Proof.
  intros Hkeys. split; [|split].
  - unfold timeKey.
    rewrite (find_all_false Re.t_or_time), (find_all_false Re.has_timestamp);
      [reflexivity|intros k Hk; apply (Hkeys k Hk)|intros k Hk; apply (Hkeys k Hk)].
  - destruct (existsb _ _) eqn:E; [|reflexivity].
    apply existsb_exists in E as (k & Hk & Ek). destruct (Hkeys k Hk). congruence.
  - intros Hin. destruct (Hkeys "t" Hin) as [Ht _]. discriminate Ht.
Qed.

(** X12. When no key of the first row is [t] or [time] or contains
    [timestamp], the time of a row comes from the frame column. The frame
    rate is [fpsGuess] when that is finite and not zero, and 120 otherwise
    (for 0, [NaN] and the infinities), so it is never 0, [NaN] or infinite.
    With a frame key, the time is the parsed frame number divided by the
    frame rate when that number is finite and [NaN] otherwise; without a
    frame key it is [NaN] for every row. This time is the field [t] of the
    row [normalizeSheet] returns at the same position. Frames 0, 1, 2, 3
    give the fields 0, 1, 2, 3 divided by the frame rate. *)
Theorem time_from_frames (rowsRaw : list Obj.t) (fpsGuess : float) :
  (forall k, In k (keys rowsRaw) ->
             Re.t_or_time k = false /\ Re.has_timestamp k = false) ->
  let rate :=
    if PrimFloat.is_finite fpsGuess && negb (PrimFloat.eqb fpsGuess 0)
    then fpsGuess else 120%float in
  (forall fk r,
      frameKey rowsRaw = Some fk ->
      let f := num' (Obj.get r fk) in
      tSec' rowsRaw fpsGuess r =
      if PrimFloat.is_finite f then (f / rate)%float else nan) /\
  (frameKey rowsRaw = None -> forall r, tSec' rowsRaw fpsGuess r = nan) /\
  (PrimFloat.is_finite rate = true /\ PrimFloat.eqb rate 0 = false) /\
  (forall i, i < List.length rowsRaw ->
      JsMap.get (nth i (normalizeSheet' rowsRaw fpsGuess) []) "t"
      = Some (tSec' rowsRaw fpsGuess (nth i rowsRaw []))) /\
  (forall fk,
      frameKey rowsRaw = Some fk ->
      map (fun r => Obj.get r fk) rowsRaw = [VNum 0; VNum 1; VNum 2; VNum 3] ->
      map (fun out => JsMap.get out "t") (normalizeSheet' rowsRaw fpsGuess)
      = map Some [0 / rate; 1 / rate; 2 / rate; 3 / rate]%float).
Proof.
  intros Hkeys rate.
  destruct (no_time_key rowsRaw Hkeys) as (Htime & Hts & Hnot).
  assert (Hframe : forall fk r,
             frameKey rowsRaw = Some fk ->
             tSec' rowsRaw fpsGuess r =
             if PrimFloat.is_finite (num' (Obj.get r fk))
             then (num' (Obj.get r fk) / rate)%float else nan).
  { intros fk r Hfk. unfold tSec. rewrite Htime, Hfk, fps_rate. cbn [present property_name].
    assert (Hfound := find_some _ _ Hfk). destruct Hfound as [_ Hre].
    destruct fk; [discriminate Hre|reflexivity]. }
  assert (Hfield : forall r,
             JsMap.get (normalize_row' rowsRaw fpsGuess r) "t"
             = Some (tSec' rowsRaw fpsGuess r)).
  { intros r. apply normalize_row_t. intros Hin. contradiction. }
  split; [exact Hframe|]. split.
  { intros Hnone r. unfold tSec. rewrite Htime, Hnone, Hts. reflexivity. }
  split.
  { unfold rate. rewrite <- fps_rate. apply fps_is_usable. }
  split.
  { intros i Hi. rewrite (normalizeSheet_nth rowsRaw fpsGuess i Hi). apply Hfield. }
  intros fk Hfk Hcol.
  assert (Hrows : normalizeSheet' rowsRaw fpsGuess
                  = map (normalize_row' rowsRaw fpsGuess) rowsRaw).
  { unfold normalizeSheet. now destruct rowsRaw. }
  rewrite Hrows, map_map, (map_ext _ _ Hfield).
  rewrite (map_ext _ (fun r => Some (if PrimFloat.is_finite (num' (Obj.get r fk))
                                     then (num' (Obj.get r fk) / rate)%float else nan)))
    by (intros r; now rewrite (Hframe fk r Hfk)).
  rewrite <- (map_map (fun r => Obj.get r fk)
                (fun v => Some (if PrimFloat.is_finite (num' v)
                                then (num' v / rate)%float else nan))).
  rewrite Hcol. reflexivity.
Qed.

(** ** The generic row normaliser: when times are left as they are *)

(** X13. Without a millisecond-marker key, a time column in which fewer
    than two cells read as finite numbers is never rescaled: the time of
    every row is its parsed time cell, whatever its size. This is so for
    every sheet with a single data row. *)
Theorem sparse_time_column_is_not_rescaled (rowsRaw : list Obj.t) (fpsGuess : float) :
  present (timeKey rowsRaw) = true ->
  present (msKey rowsRaw) = false ->
  List.length (finite_column Number_of_string rowsRaw (property_name (timeKey rowsRaw))) < 2 ->
  forall r,
    tSec' rowsRaw fpsGuess r = num' (Obj.get r (property_name (timeKey rowsRaw))).
Proof.
  intros Ht Hms Hfew r. unfold tSec, looksMs. rewrite Ht, Hms. cbn [orb].
  assert (Havg : averageDelta Number_of_string rowsRaw (property_name (timeKey rowsRaw)) = nan).
  { unfold averageDelta.
    destruct (finite_column _ _ _) as [|v0 [|v1 vs]]; try reflexivity.
    simpl in Hfew. lia. }
  rewrite Havg.
  change (10 <? nan)%float with false. now rewrite !andb_false_r.
Qed.

Lemma finite_column_length (rows : list Obj.t) (k : string) :
  List.length (finite_column Number_of_string rows k) <= List.length rows.
Proof.
  unfold finite_column.
  etransitivity; [apply filter_length_le|]. now rewrite length_map.
Qed.

(** ** The generic row normaliser: the first timestamp *)


End NormalizedRows.

(** Objects of a sheet with a frame column, and of a sheet with one row. *)
Definition frame_rows : list Obj.t :=
  toObjects ["Frame"; "x"]
    [ [VNum 0; VNum 5]; [VNum 1; VNum 6]; [VNum 2; VNum 7]; [VNum 3; VNum 8] ].

Definition single_row : list Obj.t := toObjects ["Time"; "x"] [ [VNum 5000; VNum 1] ].

(** A sheet with a time, a millisecond-marker and a frame column, a text
    that is no number and a missing cell: the three columns and the cells
    that do not parse are left out of the rows returned. *)
Example normalized_rows_ex :
  normalizeSheet Sample.Number_of_string Sample.Number_toString Sample.Date_parse
    (toObjects ["Time"; "ms"; "Frame"; "x"; "note"]
       [ [VNum 1; VNum 0; VNum 7; VNum 4; VStr "abc"];
         [VNum 2; VNum 0; VNum 8; VNull; VStr "12"] ])
    120
  = [ [("t", 0.001); ("x", 4)]; [("t", 0.002); ("note", 12)] ]%float.
Proof. reflexivity. Qed.

(** X12 on a sheet with a frame column, at 60 frames per second; and the
    same sheet when the frame rate given is 0, [NaN] or infinite. *)
Lemma time_from_frames_witness :
  (forall k, In k (keys frame_rows) ->
             Re.t_or_time k = false /\ Re.has_timestamp k = false) /\
  map (fun out => JsMap.get out "t")
      (normalizeSheet Sample.Number_of_string Sample.Number_toString Sample.Date_parse
         frame_rows 60)
  = map Some [0; 1 / 60; 2 / 60; 3 / 60]%float /\
  (forall bad, In bad [0; -0; nan; infinity; neg_infinity]%float ->
     map (fun out => JsMap.get out "t")
         (normalizeSheet Sample.Number_of_string Sample.Number_toString Sample.Date_parse
            frame_rows bad)
     = map Some [0; 1 / 120; 2 / 120; 3 / 120]%float).
Proof.
  assert (Hkeys : forall k, In k (keys frame_rows) ->
                            Re.t_or_time k = false /\ Re.has_timestamp k = false).
  { intros k Hin. repeat (destruct Hin as [<-|Hin]; [split; reflexivity|]). destruct Hin. }
  split; [exact Hkeys|]. split.
  - destruct (time_from_frames Sample.Number_of_string Sample.Number_toString
                Sample.Date_parse frame_rows 60 Hkeys) as (_ & _ & _ & _ & Hex).
    apply (Hex "Frame"); reflexivity.
  - intros bad Hin.
    repeat (destruct Hin as [<-|Hin]; [reflexivity|]). destruct Hin.
Defined.

(** X13 on a sheet with the single time 5000. *)
Lemma sparse_time_column_is_not_rescaled_witness :
  present (timeKey single_row) = true /\
  present (msKey single_row) = false /\
  map (tSec Sample.Number_of_string Sample.Number_toString Sample.Date_parse single_row 120)
      single_row
  = [5000%float].
Proof.
  split; [reflexivity|]. split; [reflexivity|].
  unfold single_row at 2. cbn [toObjects map].
  rewrite (sparse_time_column_is_not_rescaled Sample.Number_of_string
             Sample.Number_toString Sample.Date_parse single_row 120 eq_refl eq_refl).
  - reflexivity.
  - apply Nat.lt_succ_r. apply (finite_column_length Sample.Number_of_string single_row).
Defined.

(** X4 on the scenario. *)
Lemma result_follows_whitelist_witness :
  Sample.selected Sample.scenario_buffer "Baseball Data" Sample.scenario_grid /\
  exists h p q w,
    Sample.parse Sample.scenario_buffer = inr (Ok h p q w) /\
    map (fun s => (label s, key s)) (series p) = NEEDED_MAP pitcher /\
    map (fun s => (label s, key s)) (series q) = NEEDED_MAP hitter /\
    Forall finite_or_NaN (time_of h p).
Proof.
  split; [exact scenario_selected|].
  destruct (result_follows_whitelist Sample.Number_of_string Sample.Number_toString
              Sample.buffer Sample.worksheet Sample.error Sample.error_text Sample.read
              Sample.sheet_to_json _ _ _ scenario_selected)
    as (h & p & q & w & Hparse & Hp & Hq & Htime & _).
  - discriminate.
  - exists h, p, q, w. auto.
Defined.

(** X5 on the scenario, whose sheet has no column for the shoulder twist. *)
Lemma missing_columns_are_reported_witness :
  Sample.selected Sample.scenario_buffer "Baseball Data" Sample.scenario_grid /\
  exists h p q w,
    Sample.parse Sample.scenario_buffer = inr (Ok h p q w) /\
    In "Missing column in sheet: /Calc/Shoulder/Twist_x" w /\
    ~ In "Missing column in sheet: /Calc/Pelvis/Twist/Velocity_x" w.
Proof.
  split; [exact scenario_selected|].
  destruct (missing_columns_are_reported Sample.Number_of_string Sample.Number_toString
              Sample.buffer Sample.worksheet Sample.error Sample.error_text Sample.read
              Sample.sheet_to_json _ _ _ scenario_selected)
    as (h & p & q & w & Hparse & Hmissing & Honly).
  - discriminate.
  - exists h, p, q, w. split; [exact Hparse|]. split.
    + assert (E : Sample.parse Sample.scenario_buffer =
                  inr (Ok Sample.scenario_heap Sample.scenario_pitcher
                         Sample.scenario_hitter Sample.scenario_warnings))
        by (vm_compute; reflexivity).
      unfold Sample.parse in E. rewrite E in Hparse.
      apply (f_equal (fun r => match r with inr (Ok _ _ _ w') => w' | _ => [] end)) in Hparse.
      rewrite <- Hparse. vm_compute. tauto.
    + intros Hin. destruct (Honly _ Hin) as [Hlt _]. vm_compute in Hlt. discriminate Hlt.
Defined.

(** * The generic path: all sheets of a workbook *)

(** [Object.keys(o)] for an object with values of any type. *)
Definition Object_keys {V : Type} (o : JsMap.t V) : list string :=
  map snd (Obj.index_keys (JsMap.keys o)) ++ filter Obj.is_name (JsMap.keys o).

(** [/positions|velocity/i] *)
Definition has_positions_or_velocity (s : string) : bool :=
  JsString.includes "positions" (JsString.lower s)
  || JsString.includes "velocity" (JsString.lower s).

(** [/signal|data|sheet1/i] *)
Definition has_signal_data_sheet1 (s : string) : bool :=
  JsString.includes "signal" (JsString.lower s)
  || JsString.includes "data" (JsString.lower s)
  || JsString.includes "sheet1" (JsString.lower s).

(** [cleaned.some((r) => Object.keys(r).some((k) => k !== "t"))] *)
Definition has_data (cleaned : list (JsMap.t float)) : bool :=
  existsb (fun r => existsb (fun k => negb (String.eqb k "t")) (Object_keys r)) cleaned.

(** A parameter with the default value 120. *)
Definition or_120 (fpsGuess : option float) : float :=
  match fpsGuess with
  | Some x => x
  | None => 120
  end.

(** The body of the callback of [rows.map] in [toObjects], for a row that
    is present. *)
Definition to_object (headers : list string) (r : row) : Obj.t :=
  fold_left
    (fun obj ih =>
       let key := if JsString.truthy (snd ih) then snd ih
                  else ("Col" ++ JsString.of_nat (fst ih))%string in
       Obj.set obj key (nth (fst ih) r VUndef))
    (indexed headers) [].

Lemma toObjects_rows (headers : list string) (rows : list row) :
  toObjects headers rows = map (to_object headers) rows.
Proof. reflexivity. Qed.

Section GenericPath.

Variable Number_of_string : string -> float.
Variable Number_toString : float -> string.
Variable Date_parse : string -> float.
Variables buffer worksheet error file : Type.
Variable read : buffer -> Exc.t error (workbook worksheet).
Variable sheet_to_json : worksheet -> Exc.t error table.
Variable arrayBuffer : file -> Exc.t error buffer.

(** The [TypeError] of reading [r[i]] on a row that is [undefined]. *)
Variable undefined_row_error : error.

(** [fetch(url)]: the response, with [res.arrayBuffer()], or a rejection;
    [new Error(message)]. *)
Variable url : Type.
Record response : Type := mkResponse {
  ok : bool;
  status : float;
  statusText : string;
  body : Exc.t error buffer
}.
Variable fetch : url -> Exc.t error response.
Variable new_Error : string -> error.

(** The callback of [rows.map] in [toObjects], on a row that may be
    missing: with at least one header the first turn of the loop reads
    [r[0]] and throws; without a header the loop does not run. *)
Definition row_object (headers : list string) (r : option row) : Exc.t error Obj.t :=
  match headers, r with
  | _ :: _, None => Exc.throw undefined_row_error
  | _, _ => Exc.ret (to_object headers (row_or_empty r))
  end.

(** [rows.map(f)] for a callback that may throw. *)
Fixpoint map_throwing {A B : Type} (f : A -> Exc.t error B) (l : list A)
  : Exc.t error (list B) :=
  match l with
  | a :: rest =>
      b <- f a ;;
      bs <- map_throwing f rest ;;
      Exc.ret (b :: bs)
  | [] => Exc.ret []
  end.

(** [toObjects] on the rows of a grid. *)
Definition toObjects_of_grid (headers : list string) (rows : table)
  : Exc.t error (list Obj.t) :=
  map_throwing (row_object headers) rows.

(** One turn of the loop over the sheets, from [sheet_to_json] on: the rows
    to store under the sheet's name, or [None] for [continue]. *)
Definition sheet_rows (fpsGuess : float) (ws : worksheet)
  : Exc.t error (option (list (JsMap.t float))) :=
  tbl <- sheet_to_json ws ;;
  match tbl with
  | [] => Exc.ret None
  | _ :: _ =>
      let '(headers, dataRows) := detectHeaderAndExtract Number_toString tbl in
      if Nat.eqb (List.length headers) 0 || Nat.eqb (List.length dataRows) 0
      then Exc.ret None
      else
        rowsRaw <- toObjects_of_grid headers dataRows ;;
        let cleaned :=
          normalizeSheet Number_of_string Number_toString Date_parse rowsRaw fpsGuess in
        if negb (Nat.eqb (List.length cleaned) 0) && has_data cleaned
        then Exc.ret (Some cleaned)
        else Exc.ret None
  end.

(** [for (const sheetName of wb.SheetNames) { ... }], carrying [out]. *)
Fixpoint sheets_loop (fpsGuess : float) (wb : workbook worksheet) (names : list string)
    (out : JsMap.t (list (JsMap.t float))) : Exc.t error (JsMap.t (list (JsMap.t float))) :=
  match names with
  | sheetName :: rest =>
      match Sheets worksheet wb sheetName with
      | None => sheets_loop fpsGuess wb rest out
      | Some ws =>
          r <- sheet_rows fpsGuess ws ;;
          match r with
          | Some cleaned => sheets_loop fpsGuess wb rest (Obj.set out sheetName cleaned)
          | None => sheets_loop fpsGuess wb rest out
          end
      end
  | [] => Exc.ret out
  end.

Definition parseWorkbookArrayBuffer (buf : buffer) (fpsGuess : option float)
  : Exc.t error (JsMap.t (list (JsMap.t float))) :=
  wb <- read buf ;;
  sheets_loop (or_120 fpsGuess) wb (SheetNames worksheet wb) [].

(** The promise, once settled: fulfilled is [inr], rejected is [inl]. *)
Definition parseExcelToDataSets (f : file) (fpsGuess : option float)
  : Exc.t error (JsMap.t (list (JsMap.t float))) :=
  buf <- arrayBuffer f ;;
  parseWorkbookArrayBuffer buf (Some (or_120 fpsGuess)).

Definition parseExcelUrlToDataSets (u : url) (fpsGuess : option float)
  : Exc.t error (JsMap.t (list (JsMap.t float))) :=
  res <- fetch u ;;
  if negb (ok res)
  then Exc.throw
         (new_Error ("Failed to fetch Excel: " ++ Number_toString (status res)
                     ++ " " ++ statusText res)%string)
  else
    buf <- body res ;;
    parseWorkbookArrayBuffer buf (Some (or_120 fpsGuess)).

(** [find(/baseball/i) ?? find(/positions|velocity/i) ??
    find(/signal|data|sheet1/i) ?? names[0]] *)
Definition preferred_sheet (names : list string) : option string :=
  match find Re.has_baseball names with
  | Some n => Some n
  | None =>
      match find has_positions_or_velocity names with
      | Some n => Some n
      | None =>
          match find has_signal_data_sheet1 names with
          | Some n => Some n
          | None => hd_error names
          end
      end
  end.

Definition parseExcelToRows (f : file) (fpsGuess : option float)
  : Exc.t error (list (JsMap.t float)) :=
  sets <- parseExcelToDataSets f (Some (or_120 fpsGuess)) ;;
  match preferred_sheet (Object_keys sets) with
  | Some pref =>
      if JsString.truthy pref
      then Exc.ret (match JsMap.get sets pref with Some rows => rows | None => [] end)
      else Exc.ret []
  | None => Exc.ret []
  end.

End GenericPath.

(** ** The generic path: properties *)

Lemma insert_index_in (n : N) (k : string) (l : list (N * string)) (x : N * string) :
  In x (Obj.insert_index n k l) <-> x = (n, k) \/ In x l.
Proof.
  induction l as [|[m k'] l IH]; simpl; [intuition|].
  destruct (n <? m)%N; simpl; [intuition|].
  rewrite IH. intuition.
Qed.

Lemma index_keys_in (names : list string) (k : string) :
  In k (map snd (Obj.index_keys names)) <-> In k names /\ Obj.is_name k = false.
Proof.
  unfold Obj.is_name. induction names as [|a names IH]; simpl; [intuition|].
  destruct (Obj.array_index a) as [n|] eqn:Ea.
  - rewrite in_map_iff. split.
    + intros ([m k'] & Ek & Hin). simpl in Ek. subst k'.
      apply insert_index_in in Hin as [E|Hin].
      * injection E as -> ->. rewrite Ea. auto.
      * assert (Hk : In k (map snd (Obj.index_keys names)))
          by (apply in_map_iff; exists (m, k); auto).
        apply IH in Hk. intuition.
    + intros [[->|Hin] Hk].
      * exists (n, k). split; [reflexivity|]. apply insert_index_in. now left.
      * assert (Hin' : In k (map snd (Obj.index_keys names))) by (apply IH; auto).
        apply in_map_iff in Hin' as ([m k'] & Ek & Hin'). simpl in Ek. subst k'.
        exists (m, k). split; [reflexivity|]. apply insert_index_in. now right.
  - rewrite IH. split; [intuition|].
    intros [[->|Hin] Hk]; [rewrite Ea in Hk; discriminate|auto].
Qed.

(** [Object.keys] lists the keys of the object, each as often as it is held. *)
Lemma Object_keys_in {V : Type} (o : JsMap.t V) (k : string) :
  In k (Object_keys o) <-> In k (JsMap.keys o).
Proof.
  unfold Object_keys. rewrite in_app_iff, index_keys_in, filter_In.
  destruct (Obj.is_name k); intuition discriminate.
Qed.

Section GenericPathProperties.

Variable Number_of_string : string -> float.
Variable Number_toString : float -> string.
Variable Date_parse : string -> float.
Variables buffer worksheet error file : Type.
Variable read : buffer -> Exc.t error (workbook worksheet).
Variable sheet_to_json : worksheet -> Exc.t error table.
Variable arrayBuffer : file -> Exc.t error buffer.
Variable undefined_row_error : error.

Local Abbreviation normalize := (normalizeSheet Number_of_string Number_toString Date_parse).
Local Abbreviation detect := (detectHeaderAndExtract Number_toString).
Local Abbreviation objects_of_grid :=
  (toObjects_of_grid error undefined_row_error).
Local Abbreviation rows_of_sheet :=
  (sheet_rows Number_of_string Number_toString Date_parse worksheet error
     sheet_to_json undefined_row_error).
Local Abbreviation loop :=
  (sheets_loop Number_of_string Number_toString Date_parse worksheet error
     sheet_to_json undefined_row_error).
Local Abbreviation parse_all :=
  (parseWorkbookArrayBuffer Number_of_string Number_toString Date_parse
     buffer worksheet error read sheet_to_json undefined_row_error).
Local Abbreviation data_sets :=
  (parseExcelToDataSets Number_of_string Number_toString Date_parse
     buffer worksheet error file read sheet_to_json arrayBuffer undefined_row_error).
Local Abbreviation rows_of_file :=
  (parseExcelToRows Number_of_string Number_toString Date_parse
     buffer worksheet error file read sheet_to_json arrayBuffer undefined_row_error).

Lemma objects_of_complete_grid (headers : list string) (rows : list row) :
  objects_of_grid headers (map Some rows) = inr (toObjects headers rows).
Proof.
  unfold toObjects_of_grid. induction rows as [|r rows IH]; [reflexivity|].
  cbn [map map_throwing]. rewrite IH. unfold row_object.
  destruct headers; reflexivity.
Qed.

Lemma objects_of_grid_inv (headers : list string) (rows : table) (objs : list Obj.t) :
  objects_of_grid headers rows = inr objs ->
  objs = toObjects headers (map row_or_empty rows) /\
  (headers <> [] -> Forall (fun r => r <> None) rows).
Proof.
  unfold toObjects_of_grid. revert objs. induction rows as [|r rows IH]; intros objs.
  - intros E. injection E as <-. split; [reflexivity|constructor].
  - cbn [map map_throwing]. unfold Exc.bind at 1.
    destruct (row_object error undefined_row_error headers r) as [e|o] eqn:Er;
      [discriminate|].
    unfold Exc.bind at 1.
    destruct (map_throwing error (row_object error undefined_row_error headers) rows)
      as [e|os] eqn:Eos; [discriminate|].
    intros E. injection E as <-. destruct (IH os eq_refl) as [-> Hall].
    unfold row_object in Er. split.
    + destruct headers, r; try discriminate Er; injection Er as <-; reflexivity.
    + intros Hne. constructor; [|exact (Hall Hne)].
      destruct headers; [contradiction|]. destruct r; [discriminate|discriminate Er].
Qed.

Lemma objects_of_grid_throws (headers : list string) (rows : table) (e : error) :
  objects_of_grid headers rows = inl e ->
  e = undefined_row_error /\ headers <> [] /\ In None rows.
Proof.
  unfold toObjects_of_grid. induction rows as [|r rows IH]; [discriminate|].
  cbn [map_throwing]. unfold Exc.bind at 1.
  destruct (row_object error undefined_row_error headers r) as [e'|o] eqn:Er.
  - intros E. injection E as ->. unfold row_object in Er.
    destruct headers, r; try discriminate Er. injection Er as <-.
    split; [reflexivity|]. split; [discriminate|now left].
  - unfold Exc.bind at 1.
    destruct (map_throwing error (row_object error undefined_row_error headers) rows)
      as [e'|os]; [|discriminate].
    intros E. injection E as ->. destruct (IH eq_refl) as (He & Hh & Hin).
    split; [exact He|]. split; [exact Hh|now right].
Qed.

(** What one sheet contributes: its rows, or nothing when it is skipped or
    cannot be read. *)
Definition sheet_result (fpsGuess : float) (wb : workbook worksheet) (name : string)
  : option (list (JsMap.t float)) :=
  match Sheets worksheet wb name with
  | Some ws =>
      match rows_of_sheet fpsGuess ws with
      | inr r => r
      | inl _ => None
      end
  | None => None
  end.

Lemma sheet_rows_some (fpsGuess : float) (ws : worksheet) (rows : list (JsMap.t float)) :
  rows_of_sheet fpsGuess ws = inr (Some rows) ->
  exists tbl,
    sheet_to_json ws = inr tbl /\ tbl <> [] /\
    fst (detect tbl) <> [] /\
    Forall (fun r => r <> None) (snd (detect tbl)) /\
    rows = normalize (toObjects (fst (detect tbl)) (map row_or_empty (snd (detect tbl))))
             fpsGuess /\
    rows <> [] /\ has_data rows = true.
Proof.
  unfold sheet_rows, Exc.bind at 1.
  destruct (sheet_to_json ws) as [e|tbl] eqn:Ej; [discriminate|].
  destruct tbl as [|r0 tbl]; [discriminate|].
  set (grid := r0 :: tbl). destruct (detect grid) as [headers dataRows] eqn:Ed.
  destruct (Nat.eqb_spec (List.length headers) 0) as [|Hh]; [discriminate|].
  destruct (Nat.eqb_spec (List.length dataRows) 0) as [|Hd]; [discriminate|].
  cbn [orb]. unfold Exc.bind.
  destruct (objects_of_grid headers dataRows) as [e|objs] eqn:Eo; [discriminate|].
  destruct (Nat.eqb_spec (List.length (normalize objs fpsGuess)) 0) as [|Hc];
    [discriminate|].
  cbn [negb andb]. destruct (has_data (normalize objs fpsGuess)) eqn:Hdata; [|discriminate].
  intros E. injection E as <-.
  assert (Hne : headers <> []) by (destruct headers; [contradiction|discriminate]).
  destruct (objects_of_grid_inv _ _ _ Eo) as [-> Hall].
  exists grid. rewrite Ed. cbn [fst snd].
  split; [reflexivity|]. split; [discriminate|]. split; [exact Hne|].
  split; [exact (Hall Hne)|]. split; [reflexivity|]. split; [|exact Hdata].
  intros Hnil. rewrite Hnil in Hc. contradiction.
Qed.

Lemma get_assign_same {V : Type} (m : JsMap.t V) (k : string) (v : V) :
  String.eqb k "__proto__" = false -> JsMap.get (Obj.set m k v) k = Some v.
Proof. intros Hk. unfold Obj.set. rewrite Hk. apply get_set_same. Qed.

Lemma sheets_loop_get (fpsGuess : float) (wb : workbook worksheet) (names : list string)
    (acc out : JsMap.t (list (JsMap.t float))) (name : string) :
  loop fpsGuess wb names acc = inr out ->
  JsMap.get out name =
  if existsb (String.eqb name) names && negb (String.eqb name "__proto__")
  then match sheet_result fpsGuess wb name with
       | Some rows => Some rows
       | None => JsMap.get acc name
       end
  else JsMap.get acc name.
Proof.
  revert acc. induction names as [|n0 names IH]; intros acc; cbn [sheets_loop existsb].
  - intros E. injection E as <-. reflexivity.
  - assert (Hskip : sheet_result fpsGuess wb n0 = None ->
                    loop fpsGuess wb names acc = inr out ->
                    JsMap.get out name =
                    if (String.eqb name n0 || existsb (String.eqb name) names)
                       && negb (String.eqb name "__proto__")
                    then match sheet_result fpsGuess wb name with
                         | Some rows => Some rows
                         | None => JsMap.get acc name
                         end
                    else JsMap.get acc name).
    { intros Hnone E. rewrite (IH acc E).
      destruct (String.eqb_spec name n0) as [->|_]; [|reflexivity].
      rewrite Hnone. cbn [orb].
      destruct (existsb _ _ && _), (true && _); reflexivity. }
    unfold sheet_result at 1 in Hskip.
    destruct (Sheets worksheet wb n0) as [ws|] eqn:Ews; [|now apply Hskip].
    unfold Exc.bind.
    destruct (rows_of_sheet fpsGuess ws) as [e|[cleaned|]] eqn:Er;
      [discriminate| |now apply Hskip].
    intros E. rewrite (IH _ E).
    destruct (String.eqb_spec name n0) as [->|Hne]; cbn [orb].
    + assert (Hres : sheet_result fpsGuess wb n0 = Some cleaned)
        by (unfold sheet_result; now rewrite Ews, Er).
      rewrite Hres.
      destruct (String.eqb n0 "__proto__") eqn:Hproto; cbn [negb].
      * rewrite !andb_false_r. unfold Obj.set. now rewrite Hproto.
      * rewrite !andb_true_r, get_assign_same by exact Hproto.
        now destruct (existsb _ _).
    + rewrite get_assign_other by congruence. reflexivity.
Qed.

Lemma existsb_eqb_in (name : string) (names : list string) :
  existsb (String.eqb name) names = true <-> In name names.
Proof.
  rewrite existsb_exists. split.
  - intros (x & Hin & E). apply String.eqb_eq in E. now subst x.
  - intros Hin. exists name. split; [exact Hin|apply String.eqb_refl].
Qed.

Lemma sheets_in_the_result_aux (buf : buffer) (fpsGuess : option float)
    (out : JsMap.t (list (JsMap.t float))) :
  parse_all buf fpsGuess = inr out ->
  exists wb,
    read buf = inr wb /\
    forall name rows,
      JsMap.get out name = Some rows <->
      (In name (SheetNames worksheet wb) /\ name <> "__proto__" /\
       exists ws, Sheets worksheet wb name = Some ws /\
                  rows_of_sheet (or_120 fpsGuess) ws = inr (Some rows)).
Proof.
  unfold parseWorkbookArrayBuffer, Exc.bind.
  destruct (read buf) as [e|wb] eqn:Er; [discriminate|].
  intros E. exists wb. split; [reflexivity|]. intros name rows.
  rewrite (sheets_loop_get _ _ _ _ _ name E). cbn [JsMap.get].
  destruct (existsb (String.eqb name) (SheetNames worksheet wb)) eqn:Hin; cbn [andb].
  - apply existsb_eqb_in in Hin.
    destruct (String.eqb_spec name "__proto__") as [Hp|Hp]; cbn [negb].
    + split; [discriminate|]. intros (_ & Hne & _). contradiction.
    + unfold sheet_result.
      destruct (Sheets worksheet wb name) as [ws|].
      * destruct (rows_of_sheet (or_120 fpsGuess) ws) as [e|[rows'|]] eqn:Ers.
        -- split; [discriminate|]. intros (_ & _ & ws' & Ews & Hrows).
           injection Ews as <-. congruence.
        -- split.
           ++ intros Erows. injection Erows as ->. split; [exact Hin|]. split; [exact Hp|].
              exists ws. auto.
           ++ intros (_ & _ & ws' & Ews & Hrows). injection Ews as <-. congruence.
        -- split; [discriminate|]. intros (_ & _ & ws' & Ews & Hrows).
           injection Ews as <-. congruence.
      * split; [discriminate|]. intros (_ & _ & ws' & Ews & _). discriminate Ews.
  - split; [discriminate|]. intros (Hin' & _). apply existsb_eqb_in in Hin'. congruence.
Qed.

(** X15. When [parseWorkbookArrayBuffer] returns, a sheet is in the result
    exactly when it is listed in the workbook, is not named [__proto__], is
    readable, and its turn of the loop ends by storing rows; the rows under
    its name are those rows. *)
Theorem sheets_in_the_result (buf : buffer) (fpsGuess : option float)
    (out : JsMap.t (list (JsMap.t float))) :
  parse_all buf fpsGuess = inr out ->
  exists wb,
    read buf = inr wb /\
    forall name rows,
      JsMap.get out name = Some rows <->
      (In name (SheetNames worksheet wb) /\ name <> "__proto__" /\
       exists ws, Sheets worksheet wb name = Some ws /\
                  rows_of_sheet (or_120 fpsGuess) ws = inr (Some rows)).
Proof. exact (sheets_in_the_result_aux buf fpsGuess out). Qed.

(** X16. Every sheet [parseWorkbookArrayBuffer] returns has at least one
    row, and at least one of its rows has a field besides [t]; it has one
    row for each row of the grid after the header row the detector
    selected, and each of its rows has a field [t]. *)
Theorem returned_sheets_have_data (buf : buffer) (fpsGuess : option float)
    (out : JsMap.t (list (JsMap.t float))) (name : string) (rows : list (JsMap.t float)) :
  parse_all buf fpsGuess = inr out ->
  JsMap.get out name = Some rows ->
  exists wb ws tbl,
    read buf = inr wb /\ Sheets worksheet wb name = Some ws /\
    sheet_to_json ws = inr tbl /\
    rows <> [] /\
    has_data rows = true /\
    List.length rows = List.length tbl - S (bestIdx tbl) /\
    (forall r, In r rows -> exists x, JsMap.get r "t" = Some x).
Proof.
  intros Hparse Hget.
  destruct (sheets_in_the_result_aux buf fpsGuess out Hparse) as (wb & Er & Hiff).
  destruct (proj1 (Hiff name rows) Hget) as (_ & _ & ws & Ews & Hrows).
  destruct (sheet_rows_some _ _ _ Hrows) as (tbl & Ej & _ & _ & _ & Eq & Hne & Hdata).
  exists wb, ws, tbl.
  split; [exact Er|]. split; [exact Ews|]. split; [exact Ej|].
  split; [exact Hne|]. split; [exact Hdata|]. split.
  - rewrite Eq.
    rewrite normalizeSheet_length.
    unfold toObjects. rewrite !length_map. unfold detectHeaderAndExtract. cbn [snd].
    apply length_skipn.
  - intros r Hin. rewrite Eq in Hin. unfold normalizeSheet in Hin.
    destruct (toObjects _ _) as [|o objs] eqn:Eo; [destruct Hin|].
    apply in_map_iff in Hin as (r0 & <- & _).
    rewrite normalize_row_get.
    destruct (copied _ _ _ _ _); [eauto|].
    change (String.eqb "t" "t") with true. eauto.
Qed.

(** ** The generic path: exceptions *)

Lemma sheet_rows_throws (fpsGuess : float) (ws : worksheet) (e : error) :
  sheet_to_json ws = inl e -> rows_of_sheet fpsGuess ws = inl e.
Proof. intros E. unfold sheet_rows, Exc.bind. now rewrite E. Qed.

Lemma sheet_rows_returns (fpsGuess : float) (ws : worksheet) (tbl : table) :
  sheet_to_json ws = inr tbl ->
  Forall (fun r => r <> None) tbl ->
  exists r, rows_of_sheet fpsGuess ws = inr r.
Proof.
  intros E Hall. unfold sheet_rows, Exc.bind at 1. rewrite E.
  destruct tbl as [|r0 tbl]; [eexists; reflexivity|].
  set (grid := r0 :: tbl) in *.
  destruct (detect grid) as [headers dataRows] eqn:Ed.
  destruct (_ || _); [eexists; reflexivity|]. unfold Exc.bind.
  destruct (objects_of_grid headers dataRows) as [e|objs] eqn:Eo.
  - exfalso. destruct (objects_of_grid_throws _ _ _ Eo) as (_ & _ & Hin).
    assert (Hd : dataRows = skipn (S (bestIdx grid)) grid)
      by (unfold detectHeaderAndExtract in Ed; now injection Ed as _ <-).
    rewrite Forall_forall in Hall. apply (Hall None); [|reflexivity].
    rewrite <- (firstn_skipn (S (bestIdx grid)) grid). apply in_or_app. right.
    now rewrite <- Hd.
  - destruct (_ && _); eexists; reflexivity.
Qed.

Lemma sheets_loop_returns (fpsGuess : float) (wb : workbook worksheet)
    (names : list string) (acc : JsMap.t (list (JsMap.t float))) :
  (forall name ws, In name names -> Sheets worksheet wb name = Some ws ->
                   exists r, rows_of_sheet fpsGuess ws = inr r) ->
  exists out, loop fpsGuess wb names acc = inr out.
Proof.
  revert acc. induction names as [|n0 names IH]; intros acc Hok; cbn [sheets_loop].
  - eexists. reflexivity.
  - assert (Hrest : forall acc', exists out, loop fpsGuess wb names acc' = inr out).
    { intros acc'. apply IH. intros name ws Hin. apply Hok. now right. }
    destruct (Sheets worksheet wb n0) as [ws|] eqn:Ews; [|apply Hrest].
    destruct (Hok n0 ws (or_introl eq_refl) Ews) as [r Er].
    unfold Exc.bind. rewrite Er. destruct r; apply Hrest.
Qed.

Lemma sheets_loop_throws (fpsGuess : float) (wb : workbook worksheet)
    (names : list string) (acc : JsMap.t (list (JsMap.t float)))
    (name : string) (ws : worksheet) (e : error) :
  In name names -> Sheets worksheet wb name = Some ws ->
  rows_of_sheet fpsGuess ws = inl e ->
  exists e', loop fpsGuess wb names acc = inl e'.
Proof.
  intros Hin Ews Er. revert acc.
  induction names as [|n0 names IH]; intros acc; [destruct Hin|]. cbn [sheets_loop].
  destruct Hin as [->|Hin].
  - rewrite Ews. unfold Exc.bind. rewrite Er. eauto.
  - destruct (Sheets worksheet wb n0) as [ws0|]; [|now apply IH].
    unfold Exc.bind. destruct (rows_of_sheet fpsGuess ws0) as [e0|[cleaned|]];
      [eauto|now apply IH|now apply IH].
Qed.

(** X17. [parseWorkbookArrayBuffer] has no handler: an exception of [read]
    is the exception of the call, and a listed, readable sheet whose
    conversion throws makes the call throw. On a workbook whose listed,
    readable sheets all convert to grids without a missing row, the call
    returns. *)
Theorem generic_path_exceptions (buf : buffer) (fpsGuess : option float) :
  (forall e, read buf = inl e -> parse_all buf fpsGuess = inl e) /\
  (forall wb name ws e,
      read buf = inr wb -> In name (SheetNames worksheet wb) ->
      Sheets worksheet wb name = Some ws -> sheet_to_json ws = inl e ->
      exists e', parse_all buf fpsGuess = inl e') /\
  (forall wb,
      read buf = inr wb ->
      (forall name ws,
          In name (SheetNames worksheet wb) -> Sheets worksheet wb name = Some ws ->
          exists tbl, sheet_to_json ws = inr tbl /\ Forall (fun r => r <> None) tbl) ->
      exists out, parse_all buf fpsGuess = inr out).
Proof.
  unfold parseWorkbookArrayBuffer, Exc.bind. split; [|split].
  - intros e Er. now rewrite Er.
  - intros wb name ws e Er Hin Ews Ej. rewrite Er.
    apply (sheets_loop_throws _ wb _ [] name ws e Hin Ews).
    now apply sheet_rows_throws.
  - intros wb Er Hgrids. rewrite Er. apply sheets_loop_returns.
    intros name ws Hin Ews. destruct (Hgrids name ws Hin Ews) as (tbl & Ej & Hall).
    exact (sheet_rows_returns _ ws tbl Ej Hall).
Qed.

(** ** The single-sheet helper *)

Lemma returned_rows_qualify (buf : buffer) (fpsGuess : option float)
    (out : JsMap.t (list (JsMap.t float))) (name : string) (rows : list (JsMap.t float)) :
  parse_all buf fpsGuess = inr out ->
  JsMap.get out name = Some rows ->
  rows <> [] /\ has_data rows = true.
Proof.
  intros Hparse Hget.
  destruct (sheets_in_the_result_aux buf fpsGuess out Hparse) as (wb & Er & Hiff).
  destruct (proj1 (Hiff name rows) Hget) as (_ & _ & ws & Ews & Hrows).
  destruct (sheet_rows_some _ _ _ Hrows) as (tbl & _ & _ & _ & _ & _ & Hne & Hdata).
  auto.
Qed.

Lemma preferred_sheet_in (names : list string) (name : string) :
  preferred_sheet names = Some name -> In name names.
Proof.
  unfold preferred_sheet.
  destruct (find Re.has_baseball names) eqn:E1;
    [intros E; injection E as <-; exact (proj1 (find_some _ _ E1))|].
  destruct (find has_positions_or_velocity names) eqn:E2;
    [intros E; injection E as <-; exact (proj1 (find_some _ _ E2))|].
  destruct (find has_signal_data_sheet1 names) eqn:E3;
    [intros E; injection E as <-; exact (proj1 (find_some _ _ E3))|].
  destruct names; [discriminate|]. intros E. injection E as <-. now left.
Qed.

Lemma preferred_sheet_none (names : list string) :
  preferred_sheet names = None -> names = [].
Proof.
  unfold preferred_sheet.
  destruct (find Re.has_baseball names); [discriminate|].
  destruct (find has_positions_or_velocity names); [discriminate|].
  destruct (find has_signal_data_sheet1 names); [discriminate|].
  destruct names; [reflexivity|discriminate].
Qed.

(** X18. When [parseExcelToRows] returns, it returns the rows stored under
    the preferred sheet name of the data sets, which has at least one row
    and a row with a field besides [t]; or the empty list, and then no sheet
    qualified or the preferred name is the empty string. The preferred name
    contains [baseball] whenever the name of some sheet of the data sets
    does. *)
Theorem single_sheet_rows (f : file) (fpsGuess : option float)
    (rows : list (JsMap.t float)) :
  rows_of_file f fpsGuess = inr rows ->
  exists sets,
    data_sets f fpsGuess = inr sets /\
    ((rows = [] /\ (sets = [] \/ preferred_sheet (Object_keys sets) = Some "")) \/
     (exists name,
         preferred_sheet (Object_keys sets) = Some name /\ name <> "" /\
         JsMap.get sets name = Some rows /\ rows <> [] /\ has_data rows = true /\
         ((exists n, In n (Object_keys sets) /\ Re.has_baseball n = true) ->
          Re.has_baseball name = true))).
Proof.
  unfold parseExcelToRows. unfold Exc.bind at 1.
  change (parseExcelToDataSets Number_of_string Number_toString Date_parse buffer worksheet
            error file read sheet_to_json arrayBuffer undefined_row_error f
            (Some (or_120 fpsGuess)))
    with (data_sets f fpsGuess).
  destruct (data_sets f fpsGuess) as [e|sets] eqn:Esets; [discriminate|].
  intros E. exists sets. split; [reflexivity|].
  destruct (preferred_sheet (Object_keys sets)) as [pref|] eqn:Epref.
  - destruct pref as [|c pref'] eqn:Ep; cbn [JsString.truthy String.eqb negb] in E.
    + injection E as <-. left. auto.
    + set (name := String c pref') in *. right. exists name.
      assert (Hin : In name (JsMap.keys sets))
        by (apply Object_keys_in, preferred_sheet_in, Epref).
      destruct (keys_in _ _ Hin) as [rows' Hrows'].
      destruct (in_get_some _ _ _ Hrows') as [rows'' Hget]. rewrite Hget in E.
      injection E as <-.
      unfold parseExcelToDataSets, Exc.bind in Esets.
      destruct (arrayBuffer f) as [e|buf]; [discriminate|].
      destruct (returned_rows_qualify _ _ _ _ _ Esets Hget) as [Hne Hdata].
      split; [reflexivity|]. split; [discriminate|]. split; [exact Hget|].
      split; [exact Hne|]. split; [exact Hdata|].
      intros (n & Hn & Hb). unfold preferred_sheet in Epref.
      destruct (find Re.has_baseball (Object_keys sets)) as [n'|] eqn:Ef.
      * injection Epref as <-. exact (proj2 (find_some _ _ Ef)).
      * rewrite (find_none _ _ Ef n Hn) in Hb. discriminate.
  - injection E as <-. left. split; [reflexivity|]. left.
    apply preferred_sheet_none in Epref.
    destruct sets as [|[k v] sets]; [reflexivity|].
    exfalso. assert (Hin : In k (Object_keys ((k, v) :: sets)))
      by (apply Object_keys_in; now left).
    rewrite Epref in Hin. destruct Hin.
Qed.

End GenericPathProperties.

(** ** The generic path on a sample workbook *)

Module SampleWorkbook.

(** Two sheets: [Baseball] holds times only, [Positions] holds a time
    column in milliseconds and one metric. *)
Definition times_only_grid : table :=
  [ Some [VStr "Time"]; Some [VNum 0]; Some [VNum 1] ].

Definition positions_grid : table :=
  [ Some [VStr "Time"; VStr "x"]; Some [VNum 0; VNum 5]; Some [VNum 120; VNum 6];
    Some [VNum 240; VStr "n/a"] ].

Definition two_sheets : Sample.buffer :=
  Some [ ("Baseball", Some (inr times_only_grid));
         ("Positions", Some (inr positions_grid)) ].

Definition undefined_row_error : Sample.error := "TypeError: r is undefined".

Definition parse_all : Sample.buffer -> option float ->
                       Exc.t Sample.error (JsMap.t (list (JsMap.t float))) :=
  parseWorkbookArrayBuffer Sample.Number_of_string Sample.Number_toString
    Sample.Date_parse Sample.buffer Sample.worksheet Sample.error
    Sample.read Sample.sheet_to_json undefined_row_error.

Definition rows_of_file : Sample.file -> option float ->
                          Exc.t Sample.error (list (JsMap.t float)) :=
  parseExcelToRows Sample.Number_of_string Sample.Number_toString
    Sample.Date_parse Sample.buffer Sample.worksheet Sample.error Sample.file
    Sample.read Sample.sheet_to_json Sample.arrayBuffer undefined_row_error.

Definition positions_rows : list (JsMap.t float) :=
  [ [("t", 0); ("x", 5)]; [("t", 0.12); ("x", 6)]; [("t", 0.24)] ]%float.

End SampleWorkbook.

Example two_sheets_ex :
  SampleWorkbook.parse_all SampleWorkbook.two_sheets None
  = inr [("Positions", SampleWorkbook.positions_rows)] /\
  SampleWorkbook.rows_of_file (inr SampleWorkbook.two_sheets) None
  = inr SampleWorkbook.positions_rows /\
  SampleWorkbook.parse_all Sample.scenario_buffer None
  = inl SampleWorkbook.undefined_row_error.
Proof. repeat split. Qed.

(** X15 on the sample workbook. *)
Lemma sheets_in_the_result_witness :
  SampleWorkbook.parse_all SampleWorkbook.two_sheets None
  = inr [("Positions", SampleWorkbook.positions_rows)] /\
  exists wb,
    Sample.read SampleWorkbook.two_sheets = inr wb /\
    forall name rows,
      JsMap.get [("Positions", SampleWorkbook.positions_rows)] name = Some rows <->
      (In name (SheetNames Sample.worksheet wb) /\ name <> "__proto__" /\
       exists ws,
         Sheets Sample.worksheet wb name = Some ws /\
         sheet_rows Sample.Number_of_string Sample.Number_toString Sample.Date_parse
           Sample.worksheet Sample.error Sample.sheet_to_json
           SampleWorkbook.undefined_row_error (or_120 None) ws = inr (Some rows)).
Proof.
  assert (E : SampleWorkbook.parse_all SampleWorkbook.two_sheets None
              = inr [("Positions", SampleWorkbook.positions_rows)]) by reflexivity.
  split; [exact E|].
  exact (sheets_in_the_result _ _ _ _ _ _ _ _ _ _ _ _ E).
Defined.

(** X16 on the sample workbook. *)
Lemma returned_sheets_have_data_witness :
  SampleWorkbook.parse_all SampleWorkbook.two_sheets None
  = inr [("Positions", SampleWorkbook.positions_rows)] /\
  SampleWorkbook.positions_rows <> [] /\
  has_data SampleWorkbook.positions_rows = true.
Proof.
  assert (E : SampleWorkbook.parse_all SampleWorkbook.two_sheets None
              = inr [("Positions", SampleWorkbook.positions_rows)]) by reflexivity.
  split; [exact E|].
  destruct (returned_sheets_have_data _ _ _ _ _ _ _ _ _ _ _ _ "Positions"
              SampleWorkbook.positions_rows E eq_refl)
    as (wb & ws & tbl & _ & _ & _ & Hne & Hdata & _).
  split; [exact Hne|exact Hdata].
Defined.

(** X17 on the sample buffers: an undecodable buffer, and the workbook of
    two complete sheets. *)
Lemma generic_path_exceptions_witness :
  SampleWorkbook.parse_all None None = inl "File is not a workbook." /\
  exists out, SampleWorkbook.parse_all SampleWorkbook.two_sheets None = inr out.
Proof.
  destruct (generic_path_exceptions Sample.Number_of_string Sample.Number_toString
              Sample.Date_parse Sample.buffer Sample.worksheet Sample.error
              Sample.read Sample.sheet_to_json SampleWorkbook.undefined_row_error
              None None) as (Hread & _ & _).
  split; [apply Hread; reflexivity|].
  destruct (generic_path_exceptions Sample.Number_of_string Sample.Number_toString
              Sample.Date_parse Sample.buffer Sample.worksheet Sample.error
              Sample.read Sample.sheet_to_json SampleWorkbook.undefined_row_error
              SampleWorkbook.two_sheets None) as (_ & _ & Hreturns).
  eapply Hreturns; [reflexivity|].
  intros name ws [<-|[<-|[]]] Ews; cbn in Ews; injection Ews as <-;
    eexists; (split; [reflexivity|]); repeat constructor; discriminate.
Defined.

(** X18 on the sample workbook: the rows of [Positions], the only sheet of
    the data sets. *)
Lemma single_sheet_rows_witness :
  SampleWorkbook.rows_of_file (inr SampleWorkbook.two_sheets) None
  = inr SampleWorkbook.positions_rows /\
  exists sets name,
    preferred_sheet (Object_keys sets) = Some name /\
    JsMap.get sets name = Some SampleWorkbook.positions_rows.
Proof.
  assert (E : SampleWorkbook.rows_of_file (inr SampleWorkbook.two_sheets) None
              = inr SampleWorkbook.positions_rows) by reflexivity.
  split; [exact E|].
  destruct (single_sheet_rows _ _ _ _ _ _ _ _ _ _ _ _ _ _ E)
    as (sets & _ & [[Hnil _]|(name & Hpref & _ & Hget & _)]).
  - discriminate Hnil.
  - exists sets, name. auto.
Defined.

(** ** Needed metrics: the sheet that is read *)

Lemma after_prefix_is_prefix (p s rest : string) :
  JsString.after_prefix p s = Some rest -> String.prefix p s = true.
Proof.
  revert s. induction p as [|a p IH]; intros [|b s]; cbn [JsString.after_prefix String.prefix];
    try discriminate; auto.
  destruct (ascii_dec a b) as [->|Hne].
  - rewrite Ascii.eqb_refl. apply IH.
  - destruct (Ascii.eqb_spec a b); [contradiction|discriminate].
Qed.

Lemma baseball_data_is_baseball (s : string) :
  Re.has_baseball_data s = true -> Re.has_baseball s = true.
Proof.
  unfold Re.has_baseball_data, Re.has_baseball, JsString.includes.
  rewrite !existsb_exists. intros (t & Hin & Ht). exists t. split; [exact Hin|].
  destruct (JsString.after_prefix "baseball" t) as [rest|] eqn:E; [|discriminate].
  exact (after_prefix_is_prefix _ _ _ E).
Qed.

(** What [find] returns is the first element that passes the test. *)
Lemma find_first {A : Type} (f : A -> bool) (l : list A) (a : A) :
  find f l = Some a ->
  exists before after,
    l = before ++ a :: after /\ f a = true /\ forall x, In x before -> f x = false.
Proof.
  induction l as [|b l IH]; cbn [find]; [discriminate|].
  destruct (f b) eqn:Eb.
  - intros E. injection E as <-. exists [], l. split; [reflexivity|].
    split; [exact Eb|intros x []].
  - intros E. destruct (IH E) as (before & after & -> & Ha & Hb).
    exists (b :: before), after. split; [reflexivity|]. split; [exact Ha|].
    intros x [<-|Hx]; [exact Eb|now apply Hb].
Qed.

(** X19. The needed-metrics path reads a sheet of the workbook: none only
    when the workbook lists no sheet; the first sheet whose name matches
    [baseball.*data] when there is one; otherwise the first sheet whose name
    contains [baseball] when there is one; otherwise the first sheet. *)
Theorem sheet_choice (names : list string) :
  (select_sheet names = None <-> names = []) /\
  (forall n, select_sheet names = Some n -> In n names) /\
  (forall m, In m names -> Re.has_baseball_data m = true ->
             select_sheet names = find Re.has_baseball_data names /\
             exists before n after,
               names = before ++ n :: after /\
               select_sheet names = Some n /\ Re.has_baseball_data n = true /\
               forall x, In x before -> Re.has_baseball_data x = false) /\
  (forall m, In m names -> Re.has_baseball m = true ->
             exists n, select_sheet names = Some n /\ Re.has_baseball n = true) /\
  ((forall x, In x names -> Re.has_baseball_data x = false) ->
   forall m, In m names -> Re.has_baseball m = true ->
             select_sheet names = find Re.has_baseball names /\
             exists before n after,
               names = before ++ n :: after /\
               select_sheet names = Some n /\ Re.has_baseball n = true /\
               forall x, In x before -> Re.has_baseball x = false) /\
  ((forall m, In m names -> Re.has_baseball m = false) ->
   select_sheet names = hd_error names).
Proof.
  unfold select_sheet. split; [|split; [|split; [|split; [|split]]]].
  - destruct names as [|a l]; [split; reflexivity|].
    split; [|discriminate].
    destruct (find Re.has_baseball_data (a :: l)); [discriminate|].
    destruct (find Re.has_baseball (a :: l)); discriminate.
  - intros n.
    destruct (find Re.has_baseball_data names) eqn:E1;
      [intros E; injection E as <-; exact (proj1 (find_some _ _ E1))|].
    destruct (find Re.has_baseball names) eqn:E2;
      [intros E; injection E as <-; exact (proj1 (find_some _ _ E2))|].
    destruct names; [discriminate|]. intros E. injection E as <-. now left.
  - intros m Hin Hm.
    destruct (find Re.has_baseball_data names) as [n|] eqn:E1.
    + split; [reflexivity|].
      destruct (find_first _ _ _ E1) as (before & after & Hnames & Hn & Hbefore).
      exists before, n, after. auto.
    + rewrite (find_none _ _ E1 m Hin) in Hm. discriminate.
  - intros m Hin Hm.
    destruct (find Re.has_baseball_data names) as [n|] eqn:E1.
    + exists n. split; [reflexivity|].
      apply baseball_data_is_baseball. exact (proj2 (find_some _ _ E1)).
    + destruct (find Re.has_baseball names) as [n|] eqn:E2.
      * exists n. split; [reflexivity|exact (proj2 (find_some _ _ E2))].
      * rewrite (find_none _ _ E2 m Hin) in Hm. discriminate.
  - intros Hnone m Hin Hm.
    rewrite (find_all_false Re.has_baseball_data names Hnone).
    destruct (find Re.has_baseball names) as [n|] eqn:E2.
    + split; [reflexivity|].
      destruct (find_first _ _ _ E2) as (before & after & Hnames & Hn & Hbefore).
      exists before, n, after. auto.
    + rewrite (find_none _ _ E2 m Hin) in Hm. discriminate.
  - intros Hnone.
    assert (H1 : find Re.has_baseball_data names = None).
    { apply find_all_false. intros m Hin.
      destruct (Re.has_baseball_data m) eqn:E; [|reflexivity].
      apply baseball_data_is_baseball in E. rewrite (Hnone m Hin) in E. discriminate. }
    rewrite H1, (find_all_false Re.has_baseball names Hnone). reflexivity.
Qed.

(** The three tiers on sheet lists: a later [Baseball Data] is preferred to
    an earlier [baseball] sheet; of two [baseball] sheets the first is
    read; without any, the first sheet. *)
Example sheet_choice_ex :
  select_sheet ["Notes"; "Old baseball"; "Baseball Data"; "baseball data 2"]
  = Some "Baseball Data" /\
  select_sheet ["Notes"; "My Baseball"; "baseball 2"] = Some "My Baseball" /\
  select_sheet ["Notes"; "Other"] = Some "Notes" /\
  select_sheet [] = None.
Proof. repeat split. Qed.

(** ** Needed metrics: when the Time warning is issued *)

Section TimeWarning.

Variable Number_of_string : string -> float.
Variable Number_toString : float -> string.
Variables buffer worksheet error : Type.
Variable error_text : error -> string.
Variable read : buffer -> Exc.t error (workbook worksheet).
Variable sheet_to_json : worksheet -> Exc.t error table.

(** X20. On a successful result the warning about the [Time] column is
    issued exactly when no string cell of the header row is [Time] once
    white space is removed: the header row is found by a cell that is
    [time] in any case, but the column is resolved by the exact spelling. *)
Theorem time_warning_iff_no_Time_label (buf : buffer) (name : string) (tbl : table) :
  selected_grid buffer worksheet error read sheet_to_json buf name tbl ->
  tbl <> [] ->
  exists h p q w,
    parseWorkbookToNeededMetrics Number_of_string Number_toString
      buffer worksheet error error_text read sheet_to_json buf = inr (Ok h p q w) /\
    (In "Could not find 'Time' column; times will be NaN." w <->
     forall j s,
       nth_error (snd (findHeaderRowWithTime tbl)) j = Some (VStr s) ->
       JsString.strip_spaces (JsString.trim s) <> "Time").
Proof.
  intros Hsel Hne.
  rewrite (parse_selected _ _ _ _ _ _ _ _ buf name tbl Hsel Hne), extract_closed_form.
  set (header := snd (findHeaderRowWithTime tbl)).
  set (ci := build_colIndex header). set (ti := getColIndexWithAliases ci "Time").
  do 4 eexists. split; [reflexivity|].
  destruct (resolution_cases header "Time") as [Hrange Hiff]. cbv zeta in Hrange, Hiff.
  fold ci ti in Hrange, Hiff.
  assert (Hneg : (ti < 0)%Z <-> ti = (-1)%Z).
  { split; [|lia]. destruct Hrange as [->|(j & s & -> & _)]; lia. }
  assert (Hwarn : In "Could not find 'Time' column; times will be NaN."
                     (time_warning ti ++
                      missing_warnings ci
                        (map (filled_series Number_of_string Number_toString ci
                                (kept_rows (skipn (S (fst (findHeaderRowWithTime tbl))) tbl)))
                             (NEEDED_MAP pitcher)) ++
                      missing_warnings ci
                        (map (filled_series Number_of_string Number_toString ci
                                (kept_rows (skipn (S (fst (findHeaderRowWithTime tbl))) tbl)))
                             (NEEDED_MAP hitter)))
                  <-> (ti < 0)%Z).
  { rewrite !in_app_iff. unfold time_warning. split.
    - intros [Hin|[Hin|Hin]].
      + destruct (Z.ltb_spec ti 0); [assumption|destruct Hin].
      + apply missing_warnings_in in Hin as (s & _ & _ & E). discriminate E.
      + apply missing_warnings_in in Hin as (s & _ & _ & E). discriminate E.
    - intros Hlt. left. apply Z.ltb_lt in Hlt. rewrite Hlt. now left. }
  rewrite Hwarn, Hneg, Hiff. split.
  - intros Hno j s Hj. exact (proj1 (Hno j s Hj)).
  - intros Hno j s Hj. split; [exact (Hno j s Hj)|]. discriminate.
Qed.

End TimeWarning.

(** X20 on the sheet without a time column. *)
Lemma time_warning_iff_no_Time_label_witness :
  Sample.selected Sample.untimed_buffer "Sheet1" Sample.untimed_grid /\
  exists h p q w,
    Sample.parse Sample.untimed_buffer = inr (Ok h p q w) /\
    In "Could not find 'Time' column; times will be NaN." w.
Proof.
  split; [exact untimed_selected|].
  destruct (time_warning_iff_no_Time_label Sample.Number_of_string Sample.Number_toString
              Sample.buffer Sample.worksheet Sample.error Sample.error_text Sample.read
              Sample.sheet_to_json _ _ _ untimed_selected)
    as (h & p & q & w & Hparse & Hiff).
  - discriminate.
  - exists h, p, q, w. split; [exact Hparse|]. apply Hiff.
    intros [|[|j]] s Hj; simpl in Hj; try discriminate Hj.
    injection Hj as <-. discriminate.
Defined.

(** ** From the header row to the time key *)

Lemma t_or_time_cases (s : string) :
  Re.t_or_time s = true -> JsString.lower s = "t" \/ JsString.lower s = "time".
Proof.
  unfold Re.t_or_time, Re.one_of. cbn [existsb].
  destruct (String.eqb_spec (JsString.lower s) "t"); [auto|].
  destruct (String.eqb_spec (JsString.lower s) "time"); [auto|discriminate].
Qed.

Lemma canonical_time (h : string) :
  Re.t_or_time (JsString.trim h) = true -> canonical_header h = "Time".
Proof.
  intros Ht. unfold canonical_header. cbv zeta. rewrite Ht.
  unfold Re.frame_s, Re.timestamp_only, Re.one_of.
  destruct (t_or_time_cases _ Ht) as [E|E]; rewrite E; reflexivity.
Qed.

Lemma canonical_is_Time (h : string) :
  Re.t_or_time (canonical_header h) = true -> canonical_header h = "Time".
Proof.
  unfold canonical_header. cbv zeta.
  destruct (Re.frame_s (JsString.trim h)); [intros H; cbv in H; discriminate H|].
  destruct (Re.timestamp_only (JsString.trim h)); [intros H; cbv in H; discriminate H|].
  destruct (Re.t_or_time (JsString.trim h)) eqn:E; [reflexivity|].
  intros H. rewrite H in E. discriminate E.
Qed.

Lemma fold_case_bracket (c : ascii) :
  JsString.fold_case c = "t"%char \/ JsString.fold_case c = "e"%char -> c <> ")"%char.
Proof. intros H ->. destruct H as [E|E]; discriminate E. Qed.

Lemma t_or_time_has_no_bracket (s : string) :
  Re.t_or_time s = true -> ends_with_bracket s = false.
Proof.
  intros Ht. unfold ends_with_bracket.
  destruct (t_or_time_cases _ Ht) as [E|E].
  - destruct s as [|c1 [|c2 s]]; try discriminate E. simpl in E. injection E as E.
    cbn. apply Ascii.eqb_neq, fold_case_bracket. now left.
  - destruct s as [|c1 [|c2 [|c3 [|c4 [|c5 s]]]]]; try discriminate E.
    simpl in E. injection E as _ _ _ E.
    cbn. apply Ascii.eqb_neq, fold_case_bracket. now right.
Qed.

Lemma dedupe_from_keeps_first (headers : list string) (seen : JsMap.t nat) (h : string) :
  JsString.truthy h = true -> JsMap.get seen h = None -> In h headers ->
  In h (dedupe_from seen headers).
Proof.
  intros Ht. revert seen. induction headers as [|h0 rest IH]; intros seen Hseen Hin;
    [destruct Hin|]. cbn [dedupe_from].
  destruct (String.eqb_spec h0 h) as [->|Hne].
  - rewrite Ht, Hseen. cbn. now left.
  - destruct Hin as [E|Hin]; [contradiction|].
    destruct (negb (JsString.truthy h0)); right; apply IH; auto.
    now rewrite get_set_other.
Qed.

Lemma dedupe_from_outputs (headers : list string) (seen : JsMap.t nat) (x : string) :
  In x (dedupe_from seen headers) ->
  exists h, In h headers /\
            (x = h \/ exists c, x = (h ++ " (" ++ JsString.of_nat c ++ ")")%string).
Proof.
  revert seen. induction headers as [|h0 rest IH]; intros seen; cbn [dedupe_from];
    [intros []|].
  assert (Hrest : forall seen', In x (dedupe_from seen' rest) ->
                    exists h, In h (h0 :: rest) /\
                      (x = h \/ exists c, x = (h ++ " (" ++ JsString.of_nat c ++ ")")%string)).
  { intros seen' Hin. destruct (IH seen' Hin) as (h & Hh & Hx). exists h. split; [now right|auto]. }
  destruct (negb (JsString.truthy h0)).
  - intros [<-|Hin]; [exists h0; split; [now left|now left]|eauto].
  - cbv zeta. destruct (Nat.eqb _ 1); (intros [E|Hin]; [|eauto]);
      exists h0; (split; [now left|]); [left|right; eexists]; symmetry; exact E.
Qed.

Lemma to_object_keys (r : row) (cols : list (nat * string)) (acc : Obj.t) (k : string) :
  In k (JsMap.keys
          (fold_left
             (fun obj ih =>
                let key := if JsString.truthy (snd ih) then snd ih
                           else ("Col" ++ JsString.of_nat (fst ih))%string in
                Obj.set obj key (nth (fst ih) r VUndef))
             cols acc)) <->
  In k (JsMap.keys acc) \/ (In k (map column_key cols) /\ k <> "__proto__").
Proof.
  revert acc. induction cols as [|ih cols IH]; intros acc; cbn [fold_left map In].
  - tauto.
  - rewrite IH. cbv zeta. fold (column_key ih). unfold Obj.set at 1.
    destruct (String.eqb_spec (column_key ih) "__proto__") as [E|Hne].
    + split; [tauto|]. intros [Hin|[[<-|Hin] Hk]]; [auto|contradiction|auto].
    + split.
      * intros [Hin|Hin]; [|tauto].
        apply keys_in in Hin as [v Hin]. apply in_set in Hin as [E|Hin].
        -- injection E as -> _. auto.
        -- left. unfold JsMap.keys. apply in_map_iff. exists (k, v). auto.
      * intros [Hin|[[<-|Hin] Hk]]; [left; now apply set_keeps_keys| |auto].
        left. apply set_adds_key.
Qed.

Section CanonicalTimeKey.

Variable Number_toString : float -> string.

(** X21. When a cell of the header row the detector selects is, once
    printed and trimmed, [t] or [time] in any case, the objects built over
    the cleaned headers have the key [Time], and it is the time key the
    normaliser finds, whatever the spelling in the sheet. *)
Theorem spelled_time_becomes_the_time_key (tbl : table) (rows : list row) :
  rows <> [] ->
  (exists v, In v (row_or_empty (nth (bestIdx tbl) tbl None)) /\
             Re.t_or_time (JsString.trim (raw_header Number_toString v)) = true) ->
  let headers := fst (detectHeaderAndExtract Number_toString tbl) in
  In "Time" headers /\
  timeKey (toObjects headers rows) = Some "Time".
Proof.
  intros Hrows (v & Hv & Ht) headers.
  set (raws := map (raw_header Number_toString) (row_or_empty (nth (bestIdx tbl) tbl None))).
  assert (Hheaders : headers = dedupeHeaders (map canonical_header raws)) by reflexivity.
  assert (Hin : In "Time" headers).
  { rewrite Hheaders. apply dedupe_from_keeps_first; [reflexivity|reflexivity|].
    rewrite <- (canonical_time _ Ht). apply in_map. unfold raws. now apply in_map. }
  split; [exact Hin|].
  destruct rows as [|r0 rows]; [contradiction|].
  assert (Hkeys : forall k, In k (keys (toObjects headers (r0 :: rows))) <->
                            In k (column_keys headers) /\ k <> "__proto__").
  { intros k. unfold keys. cbn [toObjects map hd].
    change (Obj.keys ?o) with (Object_keys o). rewrite Object_keys_in.
    rewrite to_object_keys. cbn [JsMap.keys map In]. unfold column_keys. tauto. }
  assert (Htime : In "Time" (keys (toObjects headers (r0 :: rows)))).
  { apply Hkeys. split; [|discriminate].
    apply (In_nth _ _ "") in Hin as (i & Hi & E). unfold column_keys.
    apply in_map_iff. exists (i, "Time"). split; [reflexivity|].
    rewrite <- E, <- indexed_nth by exact Hi. apply nth_In.
    unfold indexed. rewrite length_combine, length_seq. lia. }
  unfold timeKey.
  destruct (find Re.t_or_time (keys (toObjects headers (r0 :: rows)))) as [k|] eqn:Ef;
    [|pose proof (find_none _ _ Ef "Time" Htime) as Hnone; cbv in Hnone; discriminate Hnone].
  destruct (find_some _ _ Ef) as [Hk Hre].
  assert (Ek : k = "Time"); [|now subst k].
  apply Hkeys in Hk as [Hk _]. unfold column_keys in Hk.
  apply in_map_iff in Hk as ([i h] & E & Hih). unfold column_key in E. cbn [fst snd] in E.
  destruct (JsString.truthy h) eqn:Hth.
  - subst h.
    assert (Hkh : In k headers).
    { unfold indexed in Hih. exact (in_combine_r _ _ _ _ Hih). }
    rewrite Hheaders in Hkh.
    destruct (dedupe_from_outputs _ _ _ Hkh) as (h' & Hh' & [->|[c ->]]).
    + apply in_map_iff in Hh' as (raw & <- & _). now apply canonical_is_Time.
    + apply t_or_time_has_no_bracket in Hre.
      rewrite suffixed_ends_with_bracket in Hre. discriminate.
  - subst k. discriminate Hre.
Qed.

End CanonicalTimeKey.

(** X21 on a sheet whose time column is headed [ T ]. *)
Lemma spelled_time_becomes_the_time_key_witness :
  (exists v,
      In v (row_or_empty
              (nth (bestIdx [Some [VStr " T "; VStr "x"]; Some [VNum 0; VNum 5]])
                   [Some [VStr " T "; VStr "x"]; Some [VNum 0; VNum 5]] None)) /\
      Re.t_or_time (JsString.trim (raw_header Sample.Number_toString v)) = true) /\
  timeKey
    (toObjects
       (fst (detectHeaderAndExtract Sample.Number_toString
               [Some [VStr " T "; VStr "x"]; Some [VNum 0; VNum 5]]))
       [[VNum 0; VNum 5]])
  = Some "Time".
Proof.
  assert (Hcell : exists v,
             In v (row_or_empty
                     (nth (bestIdx [Some [VStr " T "; VStr "x"]; Some [VNum 0; VNum 5]])
                          [Some [VStr " T "; VStr "x"]; Some [VNum 0; VNum 5]] None)) /\
             Re.t_or_time (JsString.trim (raw_header Sample.Number_toString v)) = true).
  { exists (VStr " T "). split; [now left|reflexivity]. }
  split; [exact Hcell|].
  refine (proj2 (spelled_time_becomes_the_time_key Sample.Number_toString
                   [Some [VStr " T "; VStr "x"]; Some [VNum 0; VNum 5]]
                   [[VNum 0; VNum 5]] _ Hcell)).
  discriminate.
Defined.
